(** * NLPlab: the sentence dataset and the attention classifiers

    A shallow embedding of [dataloading.py] (the [SentenceDataset] class)
    and of [attention.py] (the attention heads, blocks and classifier
    models), with the properties of the specification proved over it. *)

From Stdlib Require Import ZArith List Ascii String Lia Bool.
From stdpp Require Import base option list gmap strings.

Local Open Scope Z_scope.

(** ** Python and torch primitives used by [dataloading.py] *)

Module Py.

(** [len(l)] as a Python integer. *)
Definition len {A} (l : list A) : Z := Z.of_nat (length l).

(** [l[i]] on a list (or a one-dimensional array): a negative index counts
    from the end, an index out of range raises [IndexError] ([None]). *)
Definition getitem {A} (l : list A) (i : Z) : option A :=
  if (0 <=? i) && (i <? len l) then l !! Z.to_nat i
  else if (- len l <=? i) && (i <? 0) then l !! Z.to_nat (len l + i)
  else None.

(** [d.get(k, default)]: never raises; [default] may itself be [None]. *)
Definition dict_get (d : gmap string Z) (k : string) (default : option Z)
  : option Z :=
  match d !! k with
  | Some v => Some v
  | None => default
  end.

(** [[x] * n]: the empty list when [n <= 0]. *)
Definition list_mul {A} (x : A) (n : Z) : list A := replicate (Z.to_nat n) x.

(** [l[:n]] for [n >= 0]. *)
Definition slice_to {A} (l : list A) (n : Z) : list A := take (Z.to_nat n) l.

(** Text is a sequence of code points in U+0000..U+00FF, one [ascii]
    per code point. *)

(** [str.isspace] on one such code point. *)
Definition isspace (c : ascii) : bool :=
  let n := nat_of_ascii c in
  ((9 <=? n) && (n <=? 13) || (28 <=? n) && (n <=? 32)
   || (n =? 133) || (n =? 160))%nat.

(** [str.lower] on one code point. *)
Definition lower_char (c : ascii) : ascii :=
  let n := nat_of_ascii c in
  if ((65 <=? n) && (n <=? 90)
      || (192 <=? n) && (n <=? 222) && negb (n =? 215))%nat
  then ascii_of_nat (n + 32) else c.

Fixpoint lower (s : string) : string :=
  match s with
  | EmptyString => EmptyString
  | String c s' => String (lower_char c) (lower s')
  end.

(** The token collected so far, most recent character first. *)
Definition flush (cur : list ascii) : list string :=
  match cur with
  | [] => []
  | _ => [string_of_list_ascii (rev cur)]
  end.

Fixpoint split_from (s : string) (cur : list ascii) : list string :=
  match s with
  | EmptyString => flush cur
  | String c s' =>
      if isspace c then flush cur ++ split_from s' []
      else split_from s' (c :: cur)
  end.

(** [s.split()]: the maximal runs of non-whitespace characters. *)
Definition split (s : string) : list string := split_from s [].

End Py.

Module Torch.

(** The range of [torch.long]. *)
Definition in_int64 (v : Z) : Prop := - 2 ^ 63 <= v < 2 ^ 63.

Definition in_int64b (v : Z) : bool := (- 2 ^ 63 <=? v) && (v <? 2 ^ 63).

(** [torch.tensor(v, dtype=torch.long)] on a Python scalar: [None] is not
    a number, and an integer outside the 64-bit range overflows; both
    raise. *)
Definition tensor_long (v : option Z) : option Z :=
  x ← v; if in_int64b x then Some x else None.

(** [torch.tensor(l, dtype=torch.long)] on a flat Python list. *)
Definition tensor_long_list (l : list (option Z)) : option (list Z) :=
  mapM tensor_long l.

End Torch.

(** ** [dataloading.py] *)

Module Dataloading.

Definition MAX_LEN : Z := 8.

(** The attributes of a [SentenceDataset] instance. *)
Record SentenceDataset := {
  labels : list Z;
  word2idx : gmap string Z;
  data : list (list string)
}.

(** What [__getitem__] returns: [example], [label], [length]. *)
Definition item : Type := list Z * Z * Z.

(** [SentenceDataset.__getitem__] *)
Definition getitem (self : SentenceDataset) (index : Z) : option item :=
  tokens ← Py.getitem (data self) index;
  label ← Py.getitem (labels self) index;
  let unk_idx := word2idx self !! "<unk>"%string in
  let pad_idx := Some 0 in
  let indexed := map (fun word => Py.dict_get (word2idx self) word unk_idx) tokens in
  let length := Z.min (Py.len indexed) MAX_LEN in
  let indexed :=
    if Py.len indexed <? MAX_LEN
    then indexed ++ Py.list_mul pad_idx (MAX_LEN - Py.len indexed)
    else Py.slice_to indexed MAX_LEN in
  example ← Torch.tensor_long_list indexed;
  label ← Torch.tensor_long (Some label);
  length ← Torch.tensor_long (Some length);
  Some (example, label, length).

(** [SentenceDataset.__len__] *)
Definition len (self : SentenceDataset) : Z := Py.len (data self).

(** [SentenceDataset.__init__]: the attributes are stored, every
    sentence is lower-cased and split, and the first five items are
    encoded for the debug printout, which raises when one of them
    cannot be. *)
Definition init (X : list string) (y : list Z) (w2i : gmap string Z)
  : option SentenceDataset :=
  let self := {| labels := y; word2idx := w2i;
                 data := map (fun sentence => Py.split (Py.lower sentence)) X |} in
  _ ← mapM (fun i => getitem self i) [0; 1; 2; 3; 4];
  Some self.

End Dataloading.

(** ** Notions used to state the dataset's properties *)

Module DataloadingSpec.
Import Dataloading.

(** The vocabulary as [load_word_vectors] hands it over: it has an entry
    for ["<unk>"] (here with index [unk]), and every index fits a
    [torch.long]. *)
Definition wf_vocab (w2i : gmap string Z) (unk : Z) : Prop :=
  w2i !! "<unk>"%string = Some unk /\ map_Forall (fun _ v => Torch.in_int64 v) w2i.

(** The list of token ids padded or cut to [MAX_LEN]. *)
Definition pad_or_cut (ids : list Z) : list Z :=
  if Py.len ids <? MAX_LEN
  then ids ++ replicate (Z.to_nat (MAX_LEN - Py.len ids)) 0
  else take (Z.to_nat MAX_LEN) ids.

(** The id a token is given under a well-formed vocabulary. *)
Definition idx_of (w2i : gmap string Z) (unk : Z) (word : string) : Z :=
  default unk (w2i !! word).

(** Sample data: a small vocabulary, the sentence of the docstring, and
    a sentence of nine tokens. *)
Definition sample_vocab : gmap string Z :=
  <["<unk>"%string := 1]> (<["this"%string := 5]> (<["is"%string := 9]>
    (<["really"%string := 41]> (<["simple"%string := 12]> ∅)))).

Definition simple_sentence : string := "this is really simple".

Definition nine_tokens : list string :=
  ["a"; "b"; "c"; "d"; "e"; "f"; "g"; "h"; "i"]%string.

Definition sample_dataset : SentenceDataset :=
  {| labels := [1; 0; 2];
     word2idx := sample_vocab;
     data := [Py.split (Py.lower simple_sentence);
              ["this"; "movie"; "is"; "simple"]%string;
              nine_tokens] |}.

End DataloadingSpec.

(** ** Tensors and the torch operations used by [attention.py] *)

Module Tensor.

(** A tensor is a shape and the element at every index; only the
    elements at the indices within the shape matter. *)
Record tensor (A : Type) := mk { shape : list nat; elem : list nat -> A }.
Arguments mk {A} _ _.
Arguments shape {A} _.
Arguments elem {A} _ _.

(** [i] is an index within the shape [s]. *)
Definition valid (s i : list nat) : Prop := Forall2 lt i s.

(** Two tensors hold the same data. *)
Definition teq {A} (a b : tensor A) : Prop :=
  shape a = shape b /\ forall i, valid (shape a) i -> elem a i = elem b i.

(** All the indices within a shape, in row-major order. *)
Fixpoint indices (s : list nat) : list (list nat) :=
  match s with
  | [] => [[]]
  | n :: s' => flat_map (fun k => map (cons k) (indices s')) (seq 0 n)
  end.

(** A list split into its front and its last element. *)
Definition unsnoc {A} (l : list A) : option (list A * A) :=
  match rev l with
  | [] => None
  | x :: r => Some (rev r, x)
  end.

(** The front and the last component of an index. *)
Definition front (i : list nat) : list nat := removelast i.
Definition final (i : list nat) : nat := List.last i 0%nat.

End Tensor.

Module Float.

(** The floating-point scalars, the operations of the numerical library
    on them, and its random number generator, left uninterpreted.
    [rng_init g s] gives the values a fresh parameter of shape [s] is
    initialised with, [rng_dropout g p s] the factors (0 or 1/(1-p)) by
    which dropout multiplies the elements of a tensor of shape [s]; both
    also give the next state of the generator. *)
Class Ops (F rng : Type) := {
  fzero : F;                    (* 0.0 *)
  fone : F;                     (* 1.0 *)
  feps : F;                     (* 1e-5, the default [eps] of LayerNorm *)
  neg_half : F;                 (* -0.5 *)
  of_nat : nat -> F;            (* an integer as a float *)
  fadd : F -> F -> F;
  fsub : F -> F -> F;
  fmul : F -> F -> F;
  fdiv : F -> F -> F;
  fpow : F -> F -> F;
  fexp : F -> F;
  fsqrt : F -> F;
  frelu : F -> F;
  fsum : list F -> F;           (* a sum reduction *)
  fdot : list F -> list F -> F; (* the inner product of two vectors *)
  fis_zero : F -> bool;         (* [p == 0] *)
  fis_prob : F -> bool;         (* [0 <= p <= 1] *)
  fis_prob_zero : fis_prob fzero = true;
  rng_init : rng -> list nat -> (list nat -> F) * rng;
  rng_dropout : rng -> F -> list nat -> (list nat -> F) * rng
}.

End Float.

Module TorchOps.
Import Tensor Float.

(** Computations that may raise and that use the random number
    generator. *)
Definition M (rng A : Type) : Type := rng -> option (A * rng).

Definition ret {rng A} (a : A) : M rng A := fun g => Some (a, g).

Definition bind {rng A B} (m : M rng A) (f : A -> M rng B) : M rng B :=
  fun g => match m g with
           | Some (a, g') => f a g'
           | None => None
           end.

Definition raise {rng A} : M rng A := fun _ => None.

(** A computation that may raise but leaves the generator alone. *)
Definition lift {rng A} (o : option A) : M rng A :=
  fun g => match o with Some a => Some (a, g) | None => None end.

#[global] Instance M_ret {rng} : MRet (M rng) := @ret rng.
#[global] Instance M_bind {rng} : MBind (M rng) := fun A B f m => bind m f.

Section Ops.
Context {F rng : Type} `{!Ops F rng}.

(** [x.shape] unpacked into two or three names. *)
Definition shape2 {A} (x : tensor A) : option (nat * nat) :=
  match shape x with [B; T] => Some (B, T) | _ => None end.

Definition shape3 {A} (x : tensor A) : option (nat * nat * nat) :=
  match shape x with [B; T; C] => Some (B, T, C) | _ => None end.

(** [F.linear(x, W, b)]: [x] of shape [s ++ [c]], [W] of shape
    [[o; c]], [b] of shape [[o]]. *)
Definition linear_elem (W : tensor F) (b : option (tensor F)) (x : tensor F)
    (c : nat) (i : list nat) : F :=
  let dot := fdot (map (fun k => elem x (front i ++ [k])) (seq 0 c))
                  (map (fun k => elem W [final i; k]) (seq 0 c)) in
  match b with
  | Some b => fadd dot (elem b [final i])
  | None => dot
  end.

Definition linear (W : tensor F) (b : option (tensor F)) (x : tensor F)
  : option (tensor F) :=
  match shape W, unsnoc (shape x) with
  | [o; c], Some (s, c') =>
      if Nat.eqb c c'
         && match b with Some b => bool_decide (shape b = [o]) | None => true end
      then Some (mk (s ++ [o]) (linear_elem W b x c))
      else None
  | _, _ => None
  end.

(** [a.transpose(-2, -1)] *)
Definition transpose (a : tensor F) : option (tensor F) :=
  match unsnoc (shape a) with
  | Some (s1, m) =>
      match unsnoc s1 with
      | Some (s, n) =>
          Some (mk (s ++ [m; n])
                  (fun i => elem a (front (front i) ++ [final i; final (front i)])))
      | None => None
      end
  | None => None
  end.

(** [a @ b] for two tensors of the same rank, at least 2, with the
    same leading dimensions: a matrix product per leading index, every
    element the inner product of a row of [a] and a column of [b]. *)
Definition matmul_elem (a b : tensor F) (k : nat) (i : list nat) : F :=
  fdot (map (fun j => elem a (front (front i) ++ [final (front i); j])) (seq 0 k))
       (map (fun j => elem b (front (front i) ++ [j; final i])) (seq 0 k)).

Definition matmul (a b : tensor F) : option (tensor F) :=
  match unsnoc (shape a), unsnoc (shape b) with
  | Some (sa1, k), Some (sb1, m) =>
      match unsnoc sa1, unsnoc sb1 with
      | Some (sa, n), Some (sb, k') =>
          if bool_decide (sa = sb) && Nat.eqb k k'
          then Some (mk (sa ++ [n; m]) (matmul_elem a b k))
          else None
      | _, _ => None
      end
  | _, _ => None
  end.

(** [a * c] for a Python float [c]. *)
Definition mul_scalar (a : tensor F) (c : F) : tensor F :=
  mk (shape a) (fun i => fmul (elem a i) c).

(** [C ** -0.5] for a Python integer [C >= 0]: zero cannot be raised
    to a negative power. *)
Definition pow_neg_half (C : nat) : option F :=
  match C with
  | O => None
  | _ => Some (fpow (of_nat C) neg_half)
  end.

(** [F.softmax(a, dim=-1)]: every row along the last dimension is
    normalised, [exp(x_j) / sum_j' exp(x_j')]. *)
Definition softmax (a : tensor F) : option (tensor F) :=
  match unsnoc (shape a) with
  | Some (s, n) =>
      Some (mk (shape a)
              (fun i => fdiv (fexp (elem a i))
                          (fsum (map (fun j => fexp (elem a (front i ++ [j])))
                                     (seq 0 n)))))
  | None => None
  end.

(** [F.relu(a)] *)
Definition relu (a : tensor F) : tensor F :=
  mk (shape a) (fun i => frelu (elem a i)).

(** The shape two shapes broadcast to, aligned at their last
    dimension; both lists are given last dimension first. *)
Fixpoint broadcast_rev (s t : list nat) : option (list nat) :=
  match s, t with
  | [], _ => Some t
  | _, [] => Some s
  | n :: s', m :: t' =>
      r ← broadcast_rev s' t';
      if Nat.eqb n m then Some (n :: r)
      else if Nat.eqb n 1 then Some (m :: r)
      else if Nat.eqb m 1 then Some (n :: r)
      else None
  end.

(** The index into an operand of shape [s] (last dimension first) for
    the index [i] (last component first) into the broadcast result. *)
Fixpoint broadcast_index_rev (s i : list nat) : list nat :=
  match s, i with
  | n :: s', k :: i' => (if Nat.eqb n 1 then 0%nat else k) :: broadcast_index_rev s' i'
  | _, _ => []
  end.

Definition broadcast_index (s i : list nat) : list nat :=
  rev (broadcast_index_rev (rev s) (rev i)).

(** [a + b] with broadcasting. *)
Definition add (a b : tensor F) : option (tensor F) :=
  r ← broadcast_rev (rev (shape a)) (rev (shape b));
  Some (mk (rev r)
          (fun i => fadd (elem a (broadcast_index (shape a) i))
                         (elem b (broadcast_index (shape b) i)))).

(** [a.mean(dim=1)] *)
Definition mean1 (a : tensor F) : option (tensor F) :=
  match shape a with
  | d0 :: d1 :: s =>
      Some (mk (d0 :: s)
              (fun i => match i with
                        | i0 :: i' =>
                            fdiv (fsum (map (fun t => elem a (i0 :: t :: i')) (seq 0 d1)))
                                 (of_nat d1)
                        | [] => fzero
                        end))
  | _ => None
  end.

(** [a.squeeze(1)]: dimension 1 is removed when its size is 1. *)
Definition squeeze1 (a : tensor F) : option (tensor F) :=
  match shape a with
  | d0 :: d1 :: s =>
      if Nat.eqb d1 1
      then Some (mk (d0 :: s)
                   (fun i => match i with
                             | i0 :: i' => elem a (i0 :: 0%nat :: i')
                             | [] => fzero
                             end))
      else Some a
  | _ => None
  end.

(** [torch.cat([a, b], dim=-1)] and [torch.cat(l, dim=-1)]. *)
Definition cat2 (a b : tensor F) : option (tensor F) :=
  match unsnoc (shape a), unsnoc (shape b) with
  | Some (sa, n), Some (sb, m) =>
      if bool_decide (sa = sb)
      then Some (mk (sa ++ [(n + m)%nat])
                   (fun i => if Nat.ltb (final i) n then elem a i
                             else elem b (front i ++ [(final i - n)%nat])))
      else None
  | _, _ => None
  end.

Fixpoint cat_from (acc : tensor F) (l : list (tensor F)) : option (tensor F) :=
  match l with
  | [] => Some acc
  | b :: l' => r ← cat2 acc b; cat_from r l'
  end.

Definition cat (l : list (tensor F)) : option (tensor F) :=
  match l with
  | [] => None
  | a :: l' => _ ← unsnoc (shape a); cat_from a l'
  end.

(** [torch.arange(T)] *)
Definition arange (T : nat) : tensor Z :=
  mk [T] (fun i => Z.of_nat (final i)).

(** [F.embedding(x, table)]: every id must be a row of the table. *)
Definition embedding (table : tensor F) (x : tensor Z) : option (tensor F) :=
  match shape table with
  | [num; dim] =>
      if forallb (fun i => (0 <=? elem x i) && (elem x i <? Z.of_nat num))
                 (indices (shape x))
      then Some (mk (shape x ++ [dim])
                   (fun i => elem table [Z.to_nat (elem x (front i)); final i]))
      else None
  | _ => None
  end.

(** [F.layer_norm(x, [n], gamma, beta, eps)] over the last dimension. *)
Definition layer_norm_elem (n : nat) (gamma beta : tensor F) (eps : F)
    (x : tensor F) (i : list nat) : F :=
  let row := map (fun j => elem x (front i ++ [j])) (seq 0 n) in
  let mean := fdiv (fsum row) (of_nat n) in
  let var := fdiv (fsum (map (fun v => fmul (fsub v mean) (fsub v mean)) row))
                  (of_nat n) in
  fadd (fmul (fdiv (fsub (elem x i) mean) (fsqrt (fadd var eps)))
             (elem gamma [final i]))
       (elem beta [final i]).

Definition layer_norm (n : nat) (gamma beta : tensor F) (eps : F) (x : tensor F)
  : option (tensor F) :=
  match unsnoc (shape x) with
  | Some (s, n') =>
      if Nat.eqb n n' && bool_decide (shape gamma = [n]) && bool_decide (shape beta = [n])
      then Some (mk (shape x) (layer_norm_elem n gamma beta eps x))
      else None
  | None => None
  end.

(** [F.dropout(x, p, training)]: the input itself unless training
    with [p > 0]. *)
Definition dropout (p : F) (training : bool) (x : tensor F) : M rng (tensor F) :=
  fun g =>
    if training && negb (fis_zero p)
    then let '(factor, g') := rng_dropout g p (shape x) in
         Some (mk (shape x) (fun i => fmul (elem x i) (factor i)), g')
    else Some (x, g).

(** A new parameter tensor, initialised from the generator. *)
Definition fresh (s : list nat) : M rng (tensor F) :=
  fun g => let '(v, g') := rng_init g s in Some (mk s v, g').

End Ops.

End TorchOps.

(** ** The layers of [torch.nn] that [attention.py] instantiates *)

Module nn.
Import Tensor Float TorchOps.

Module Dropout.
Section Dropout.
Context {F rng : Type} `{!Ops F rng}.

Record t := { p : F; training : bool }.

(** [nn.Dropout(p)]: [p] must be a probability; a new module is in
    training mode. *)
Definition init (p : F) : M rng t :=
  if fis_prob p then mret {| p := p; training := true |} else raise.

Definition forward (self : t) (x : tensor F) : M rng (tensor F) :=
  dropout (p self) (training self) x.
End Dropout.
End Dropout.

Module Linear.
Section Linear.
Context {F rng : Type} `{!Ops F rng}.

Record t := { weight : tensor F; bias : option (tensor F) }.

(** [nn.Linear(in_features, out_features, bias)] *)
Definition init (in_features out_features : nat) (with_bias : bool) : M rng t :=
  w ← fresh [out_features; in_features];
  b ← (if with_bias then b ← fresh [out_features]; mret (Some b)
       else mret None);
  mret {| weight := w; bias := b |}.

Definition forward (self : t) (x : tensor F) : M rng (tensor F) :=
  lift (linear (weight self) (bias self) x).
End Linear.
End Linear.

Module LayerNorm.
Section LayerNorm.
Context {F rng : Type} `{!Ops F rng}.

Record t := { normalized_shape : nat; weight : tensor F; bias : tensor F; eps : F }.

(** [nn.LayerNorm(n)]: weight ones, bias zeros, [eps = 1e-5]. *)
Definition init (n : nat) : t :=
  {| normalized_shape := n;
     weight := mk [n] (fun _ => fone);
     bias := mk [n] (fun _ => fzero);
     eps := feps |}.

Definition forward (self : t) (x : tensor F) : M rng (tensor F) :=
  lift (layer_norm (normalized_shape self) (weight self) (bias self) (eps self) x).
End LayerNorm.
End LayerNorm.

Module Embedding.
Section Embedding.
Context {F rng : Type} `{!Ops F rng}.

Record t := { weight : tensor F }.

(** [nn.Embedding(num_embeddings, embedding_dim)] *)
Definition init (num_embeddings embedding_dim : nat) : M rng t :=
  w ← fresh [num_embeddings; embedding_dim];
  mret {| weight := w |}.

(** [Embedding.from_pretrained(embeddings)]: a two-dimensional
    tensor is taken as the table. *)
Definition from_pretrained (embeddings : tensor F) : M rng t :=
  match shape embeddings with
  | [_; _] => mret {| weight := embeddings |}
  | _ => raise
  end.

Definition forward (self : t) (x : tensor Z) : M rng (tensor F) :=
  lift (embedding (weight self) x).
End Embedding.
End Embedding.

End nn.

(** ** [attention.py] *)

Module Attention.
Import Tensor Float TorchOps nn.

Module Head.
Section Head.
Context {F rng : Type} `{!Ops F rng}.

Record t := {
  key : Linear.t (F:=F);
  query : Linear.t (F:=F);
  value : Linear.t (F:=F);
  dropout : Dropout.t (F:=F)
}.

(** [Head.__init__(head_size, n_embd, dropout)] *)
Definition init (head_size n_embd : nat) (dropout : F) : M rng t :=
  key ← Linear.init n_embd head_size false;
  query ← Linear.init n_embd head_size false;
  value ← Linear.init n_embd head_size false;
  dropout ← Dropout.init dropout;
  mret {| key := key; query := query; value := value; dropout := dropout |}.

(** [Head.forward(x)] *)
Definition forward (self : t) (x : tensor F) : M rng (tensor F) :=
  '(B, T, C) ← lift (shape3 x);
  k ← Linear.forward (key self) x;
  q ← Linear.forward (query self) x;
  kT ← lift (transpose k);
  qk ← lift (matmul q kT);
  scale ← lift (pow_neg_half C);
  let wei := mul_scalar qk scale in
  wei ← lift (softmax wei);
  wei ← Dropout.forward (dropout self) wei;
  v ← Linear.forward (value self) x;
  out ← lift (matmul wei v);
  mret out.
End Head.
End Head.

Module FeedFoward.
Section FeedFoward.
Context {F rng : Type} `{!Ops F rng}.

(** [net] is a sequence of a linear layer, a ReLU, a linear layer
    and a dropout. *)
Record t := {
  net_0 : Linear.t (F:=F);
  net_2 : Linear.t (F:=F);
  net_3 : Dropout.t (F:=F)
}.

Definition init (n_embd : nat) (dropout : F) : M rng t :=
  l0 ← Linear.init n_embd (4 * n_embd) true;
  l2 ← Linear.init (4 * n_embd) n_embd true;
  d ← Dropout.init dropout;
  mret {| net_0 := l0; net_2 := l2; net_3 := d |}.

Definition forward (self : t) (x : tensor F) : M rng (tensor F) :=
  x ← Linear.forward (net_0 self) x;
  let x := relu x in
  x ← Linear.forward (net_2 self) x;
  Dropout.forward (net_3 self) x.
End FeedFoward.
End FeedFoward.

Module SimpleSelfAttentionModel.
Section SimpleSelfAttentionModel.
Context {F rng : Type} `{!Ops F rng}.

Record t := {
  n_head : nat;
  max_length : nat;
  token_embedding_table : Embedding.t (F:=F);
  position_embedding_table : Embedding.t (F:=F);
  sa : Head.t (F:=F);
  ffwd : FeedFoward.t (F:=F);
  ln1 : LayerNorm.t (F:=F);
  ln2 : LayerNorm.t (F:=F);
  output_size : nat;
  output : Linear.t (F:=F)
}.

(** [SimpleSelfAttentionModel.__init__(output_size, embeddings,
    max_length)] *)
Definition init (output_size : nat) (embeddings : tensor F) (max_length : nat)
  : M rng t :=
  let n_head := 1%nat in
  '(num_embeddings, dim) ← lift (shape2 embeddings);
  _ ← Embedding.init num_embeddings dim;
  token_embedding_table ← Embedding.from_pretrained embeddings;
  position_embedding_table ← Embedding.init max_length dim;
  let head_size := (dim / n_head)%nat in
  sa ← Head.init head_size dim fzero;
  ffwd ← FeedFoward.init dim fzero;
  let ln1 := LayerNorm.init dim in
  let ln2 := LayerNorm.init dim in
  output ← Linear.init dim output_size true;
  mret {| n_head := n_head; max_length := max_length;
          token_embedding_table := token_embedding_table;
          position_embedding_table := position_embedding_table;
          sa := sa; ffwd := ffwd; ln1 := ln1; ln2 := ln2;
          output_size := output_size; output := output |}.

(** [SimpleSelfAttentionModel.forward(x)] *)
Definition forward (self : t) (x : tensor Z) : M rng (tensor F) :=
  '(B, T) ← lift (shape2 x);
  tok_emb ← Embedding.forward (token_embedding_table self) x;
  pos_emb ← Embedding.forward (position_embedding_table self) (arange T);
  x ← lift (add tok_emb pos_emb);
  n ← LayerNorm.forward (ln1 self) x;
  a ← Head.forward (sa self) n;
  x ← lift (add x a);
  n ← LayerNorm.forward (ln2 self) x;
  f ← FeedFoward.forward (ffwd self) n;
  x ← lift (add x f);
  x ← lift (mean1 x);
  logits ← Linear.forward (output self) x;
  if Nat.eqb (output_size self) 1 then lift (squeeze1 logits) else mret logits.
End SimpleSelfAttentionModel.
End SimpleSelfAttentionModel.

Module MultiHeadAttention.
Section MultiHeadAttention.
Context {F rng : Type} `{!Ops F rng}.

Record t := {
  heads : list (Head.t (F:=F));
  proj : Linear.t (F:=F);
  dropout : Dropout.t (F:=F)
}.

(** [MultiHeadAttention.__init__(num_heads, head_size, n_embd,
    dropout)]: the heads are built with their default dropout. *)
Definition init (num_heads head_size n_embd : nat) (dropout : F) : M rng t :=
  heads ← mapM (fun _ => Head.init head_size n_embd fzero) (seq 0 num_heads);
  proj ← Linear.init (head_size * num_heads) n_embd true;
  dropout ← Dropout.init dropout;
  mret {| heads := heads; proj := proj; dropout := dropout |}.

Definition forward (self : t) (x : tensor F) : M rng (tensor F) :=
  outs ← mapM (fun h => Head.forward h x) (heads self);
  out ← lift (cat outs);
  out ← Linear.forward (proj self) out;
  Dropout.forward (dropout self) out.
End MultiHeadAttention.
End MultiHeadAttention.

(** [n_embd // n_head]: division by zero raises. *)
Definition floordiv (a b : nat) : option nat :=
  match b with O => None | _ => Some (a / b)%nat end.

Module MultiHeadAttentionModel.
Section MultiHeadAttentionModel.
Context {F rng : Type} `{!Ops F rng}.

Record t := {
  n_head : nat;
  max_length : nat;
  token_embedding_table : Embedding.t (F:=F);
  position_embedding_table : Embedding.t (F:=F);
  sa : MultiHeadAttention.t (F:=F);
  ffwd : FeedFoward.t (F:=F);
  ln1 : LayerNorm.t (F:=F);
  ln2 : LayerNorm.t (F:=F);
  output_size : nat;
  output : Linear.t (F:=F)
}.

Definition init (output_size : nat) (embeddings : tensor F)
    (max_length n_head : nat) : M rng t :=
  '(num_embeddings, dim) ← lift (shape2 embeddings);
  head_size ← lift (floordiv dim n_head);
  _ ← Embedding.init num_embeddings dim;
  token_embedding_table ← Embedding.from_pretrained embeddings;
  position_embedding_table ← Embedding.init max_length dim;
  sa ← MultiHeadAttention.init n_head head_size dim fzero;
  ffwd ← FeedFoward.init dim fzero;
  let ln1 := LayerNorm.init dim in
  let ln2 := LayerNorm.init dim in
  output ← Linear.init dim output_size true;
  mret {| n_head := n_head; max_length := max_length;
          token_embedding_table := token_embedding_table;
          position_embedding_table := position_embedding_table;
          sa := sa; ffwd := ffwd; ln1 := ln1; ln2 := ln2;
          output_size := output_size; output := output |}.

(** [MultiHeadAttentionModel.forward(x, lengths=None)] *)
Definition forward (self : t) (x : tensor Z) (lengths : option (tensor Z))
  : M rng (tensor F) :=
  '(B, T) ← lift (shape2 x);
  tok_emb ← Embedding.forward (token_embedding_table self) x;
  pos_emb ← Embedding.forward (position_embedding_table self) (arange T);
  x ← lift (add tok_emb pos_emb);
  n ← LayerNorm.forward (ln1 self) x;
  a ← MultiHeadAttention.forward (sa self) n;
  x ← lift (add x a);
  n ← LayerNorm.forward (ln2 self) x;
  f ← FeedFoward.forward (ffwd self) n;
  x ← lift (add x f);
  x ← lift (mean1 x);
  logits ← Linear.forward (output self) x;
  if Nat.eqb (output_size self) 1 then lift (squeeze1 logits) else mret logits.
End MultiHeadAttentionModel.
End MultiHeadAttentionModel.

Module Block.
Section Block.
Context {F rng : Type} `{!Ops F rng}.

Record t := {
  sa : MultiHeadAttention.t (F:=F);
  ffwd : FeedFoward.t (F:=F);
  ln1 : LayerNorm.t (F:=F);
  ln2 : LayerNorm.t (F:=F)
}.

(** [Block.__init__(n_head, head_size, n_embd)]: the head size
    passed in is replaced by [n_embd // n_head]. *)
Definition init (n_head head_size n_embd : nat) : M rng t :=
  head_size ← lift (floordiv n_embd n_head);
  sa ← MultiHeadAttention.init n_head head_size n_embd fzero;
  ffwd ← FeedFoward.init n_embd fzero;
  let ln1 := LayerNorm.init n_embd in
  let ln2 := LayerNorm.init n_embd in
  mret {| sa := sa; ffwd := ffwd; ln1 := ln1; ln2 := ln2 |}.

(** [Block.forward(x)] *)
Definition forward (self : t) (x : tensor F) : M rng (tensor F) :=
  n ← LayerNorm.forward (ln1 self) x;
  a ← MultiHeadAttention.forward (sa self) n;
  x ← lift (add x a);
  n ← LayerNorm.forward (ln2 self) x;
  f ← FeedFoward.forward (ffwd self) n;
  x ← lift (add x f);
  mret x.
End Block.
End Block.

Module TransformerEncoderModel.
Section TransformerEncoderModel.
Context {F rng : Type} `{!Ops F rng}.

Record t := {
  n_head : nat;
  max_length : nat;
  emb_dim : nat;
  token_embedding_table : Embedding.t (F:=F);
  position_embedding_table : Embedding.t (F:=F);
  blocks : list (Block.t (F:=F));
  ln_f : LayerNorm.t (F:=F);
  output_size : nat;
  output : Linear.t (F:=F)
}.

Definition init (output_size : nat) (embeddings : tensor F)
    (max_length n_head n_layer : nat) : M rng t :=
  '(num_embeddings, dim) ← lift (shape2 embeddings);
  _ ← Embedding.init num_embeddings dim;
  token_embedding_table ← Embedding.from_pretrained embeddings;
  position_embedding_table ← Embedding.init max_length dim;
  head_size ← lift (floordiv dim n_head);
  blocks ← mapM (fun _ => Block.init n_head head_size dim) (seq 0 n_layer);
  let ln_f := LayerNorm.init dim in
  output ← Linear.init dim output_size true;
  mret {| n_head := n_head; max_length := max_length; emb_dim := dim;
          token_embedding_table := token_embedding_table;
          position_embedding_table := position_embedding_table;
          blocks := blocks; ln_f := ln_f;
          output_size := output_size; output := output |}.

(** [nn.Sequential] over the blocks. *)
Fixpoint sequential (l : list (Block.t (F:=F))) (x : tensor F) : M rng (tensor F) :=
  match l with
  | [] => mret x
  | b :: l' => x ← Block.forward b x; sequential l' x
  end.

(** [TransformerEncoderModel.forward(x)] *)
Definition forward (self : t) (x : tensor Z) : M rng (tensor F) :=
  '(B, T) ← lift (shape2 x);
  tok_emb ← Embedding.forward (token_embedding_table self) x;
  pos_emb ← Embedding.forward (position_embedding_table self) (arange T);
  x ← lift (add tok_emb pos_emb);
  x ← sequential (blocks self) x;
  x ← LayerNorm.forward (ln_f self) x;
  x ← lift (mean1 x);
  logits ← Linear.forward (output self) x;
  if Nat.eqb (output_size self) 1 then lift (squeeze1 logits) else mret logits.
End TransformerEncoderModel.
End TransformerEncoderModel.

End Attention.

(** ** Notions used to state the properties of the attention models *)

Module AttentionSpec.
Import Tensor Float TorchOps nn Attention.

Section Spec.
Context {F rng : Type} `{!Ops F rng}.

(** The computation [m] returns, whatever the state of the generator,
    and what it returns satisfies [Q]. *)
Definition returns {A} (m : M rng A) (Q : A -> Prop) : Prop :=
  forall g, exists a g', m g = Some (a, g') /\ Q a.

(** Every id of the batch [x] is a row of a table of [num] rows. *)
Definition ids_below (num : nat) (x : tensor Z) : Prop :=
  forall i, valid (shape x) i -> 0 <= elem x i < Z.of_nat num.

(** *** The shapes of the parameters, as the constructors lay them out *)

Definition wf_Linear (in_features out_features : nat) (l : Linear.t (F:=F)) : Prop :=
  shape (Linear.weight l) = [out_features; in_features]
  /\ match Linear.bias l with
     | Some b => shape b = [out_features]
     | None => True
     end.

Definition wf_LayerNorm (n : nat) (l : LayerNorm.t (F:=F)) : Prop :=
  LayerNorm.normalized_shape l = n
  /\ shape (LayerNorm.weight l) = [n] /\ shape (LayerNorm.bias l) = [n].

Definition wf_Embedding (num dim : nat) (e : Embedding.t (F:=F)) : Prop :=
  shape (Embedding.weight e) = [num; dim].

Definition wf_Head (n_embd head_size : nat) (h : Head.t (F:=F)) : Prop :=
  (wf_Linear n_embd head_size (Head.key h) /\ Linear.bias (Head.key h) = None)
  /\ (wf_Linear n_embd head_size (Head.query h) /\ Linear.bias (Head.query h) = None)
  /\ (wf_Linear n_embd head_size (Head.value h) /\ Linear.bias (Head.value h) = None).

Definition wf_FeedFoward (n_embd : nat) (f : FeedFoward.t (F:=F)) : Prop :=
  wf_Linear n_embd (4 * n_embd) (FeedFoward.net_0 f)
  /\ wf_Linear (4 * n_embd) n_embd (FeedFoward.net_2 f).

Definition wf_MultiHeadAttention (num_heads head_size n_embd : nat)
    (a : MultiHeadAttention.t (F:=F)) : Prop :=
  length (MultiHeadAttention.heads a) = num_heads
  /\ Forall (wf_Head n_embd head_size) (MultiHeadAttention.heads a)
  /\ wf_Linear (head_size * num_heads) n_embd (MultiHeadAttention.proj a).

Definition wf_Block (n_head n_embd : nat) (b : Block.t (F:=F)) : Prop :=
  (0 < n_head)%nat
  /\ wf_MultiHeadAttention n_head (n_embd / n_head) n_embd (Block.sa b)
  /\ wf_FeedFoward n_embd (Block.ffwd b)
  /\ wf_LayerNorm n_embd (Block.ln1 b) /\ wf_LayerNorm n_embd (Block.ln2 b).

Definition wf_SimpleSelfAttentionModel (output_size num_embeddings dim max_length : nat)
    (m : SimpleSelfAttentionModel.t (F:=F)) : Prop :=
  wf_Embedding num_embeddings dim (SimpleSelfAttentionModel.token_embedding_table m)
  /\ wf_Embedding max_length dim (SimpleSelfAttentionModel.position_embedding_table m)
  /\ wf_Head dim dim (SimpleSelfAttentionModel.sa m)
  /\ wf_FeedFoward dim (SimpleSelfAttentionModel.ffwd m)
  /\ wf_LayerNorm dim (SimpleSelfAttentionModel.ln1 m)
  /\ wf_LayerNorm dim (SimpleSelfAttentionModel.ln2 m)
  /\ SimpleSelfAttentionModel.output_size m = output_size
  /\ wf_Linear dim output_size (SimpleSelfAttentionModel.output m).

Definition wf_MultiHeadAttentionModel
    (output_size num_embeddings dim max_length n_head : nat)
    (m : MultiHeadAttentionModel.t (F:=F)) : Prop :=
  (0 < n_head)%nat
  /\ wf_Embedding num_embeddings dim (MultiHeadAttentionModel.token_embedding_table m)
  /\ wf_Embedding max_length dim (MultiHeadAttentionModel.position_embedding_table m)
  /\ wf_MultiHeadAttention n_head (dim / n_head) dim (MultiHeadAttentionModel.sa m)
  /\ wf_FeedFoward dim (MultiHeadAttentionModel.ffwd m)
  /\ wf_LayerNorm dim (MultiHeadAttentionModel.ln1 m)
  /\ wf_LayerNorm dim (MultiHeadAttentionModel.ln2 m)
  /\ MultiHeadAttentionModel.output_size m = output_size
  /\ wf_Linear dim output_size (MultiHeadAttentionModel.output m).

Definition wf_TransformerEncoderModel
    (output_size num_embeddings dim max_length n_head n_layer : nat)
    (m : TransformerEncoderModel.t (F:=F)) : Prop :=
  wf_Embedding num_embeddings dim (TransformerEncoderModel.token_embedding_table m)
  /\ wf_Embedding max_length dim (TransformerEncoderModel.position_embedding_table m)
  /\ length (TransformerEncoderModel.blocks m) = n_layer
  /\ Forall (wf_Block n_head dim) (TransformerEncoderModel.blocks m)
  /\ wf_LayerNorm dim (TransformerEncoderModel.ln_f m)
  /\ TransformerEncoderModel.output_size m = output_size
  /\ wf_Linear dim output_size (TransformerEncoderModel.output m).

(** The logits of a batch of [B] examples: one scalar per example when
    the output size is 1, a row of [output_size] scores otherwise. *)
Definition batch_logits (output_size B : nat) (logits : tensor F) : Prop :=
  (output_size = 1%nat -> shape logits = [B])
  /\ (output_size <> 1%nat -> shape logits = [B; output_size]).

(** *** Single-head attention, in the words of the specification *)

(** The projection of position [t] of example [b] by a linear map
    without bias. *)
Definition project (l : Linear.t (F:=F)) (x : tensor F) (C b t h : nat) : F :=
  fdot (map (fun c => elem x [b; t; c]) (seq 0 C))
       (map (fun c => elem (Linear.weight l) [h; c]) (seq 0 C)).

(** The pairwise scores: the dot product of query and key, scaled by
    [channels ** -0.5]. *)
Definition score (self : Head.t (F:=F)) (x : tensor F) (C head_size b t u : nat) : F :=
  fmul (fdot (map (fun h => project (Head.query self) x C b t h) (seq 0 head_size))
             (map (fun h => project (Head.key self) x C b u h) (seq 0 head_size)))
       (fpow (of_nat C) neg_half).

(** The attention weights: the softmax of every row of scores. *)
Definition attention_weight (self : Head.t (F:=F)) (x : tensor F)
    (T C head_size b t u : nat) : F :=
  fdiv (fexp (score self x C head_size b t u))
       (fsum (map (fun u' => fexp (score self x C head_size b t u')) (seq 0 T))).

Definition scaled_dot_product_attention (head_size : nat) (self : Head.t (F:=F))
    (x : tensor F) : M rng (tensor F) :=
  match shape x with
  | [B; T; C] =>
      let wei :=
        mk [B; T; T]
           (fun i => match i with
                     | [b; t; u] => attention_weight self x T C head_size b t u
                     | _ => fzero
                     end) in
      wei ← Dropout.forward (Head.dropout self) wei;
      mret (mk [B; T; head_size]
              (fun i => match i with
                        | [b; t; h] =>
                            fdot (map (fun u => elem wei [b; t; u]) (seq 0 T))
                                 (map (fun u => project (Head.value self) x C b u h)
                                      (seq 0 T))
                        | _ => fzero
                        end))
  | _ => raise
  end.

(** *** The pre-norm residual composition, in the words of the
    specification: [x = x + attention(norm(x))], then
    [x = x + feedforward(norm(x))]. *)
Definition pre_norm_residual
    (norm1 norm2 attention feedforward : tensor F -> M rng (tensor F))
    (x : tensor F) : M rng (tensor F) :=
  x ← (a ← (n ← norm1 x; attention n); lift (add x a));
  (f ← (n ← norm2 x; feedforward n); lift (add x f)).

End Spec.

(** *** An interpretation of the scalars by integers, to run the models
    on examples *)

#[export] Instance Z_ops : Ops Z nat := {|
  fzero := 0; fone := 1; feps := 0; neg_half := -1;
  of_nat := Z.of_nat;
  fadd := Z.add; fsub := Z.sub; fmul := Z.mul; fdiv := Z.div;
  fpow := fun a _ => a; fexp := fun a => 1 + Z.abs a; fsqrt := Z.sqrt;
  frelu := Z.max 0;
  fsum := fold_right Z.add 0;
  fdot := fun u v => fold_right Z.add 0 (zip_with Z.mul u v);
  fis_zero := Z.eqb 0;
  fis_prob := fun p => (0 <=? p) && (p <=? 1);
  fis_prob_zero := eq_refl;
  rng_init := fun g s => (fun i => Z.of_nat (g + fold_right Nat.add 0%nat i), S g);
  rng_dropout := fun g _ _ => (fun i => Z.of_nat (fold_right Nat.add g i) mod 2, S g)
|}.

(** Three word vectors of two components, and a batch of two sentences
    of three ids. *)
Definition sample_embeddings : tensor Z :=
  mk [3; 2]%nat (fun i => Z.of_nat (fold_right Nat.add 1%nat i)).

Definition sample_batch : tensor Z :=
  mk [2; 3]%nat (fun i => Z.of_nat (fold_right Nat.add 0%nat i) mod 3).

Definition sample_input : tensor Z :=
  mk [2; 3; 2]%nat (fun i => Z.of_nat (fold_right Nat.add 0%nat i)).

(** Sample layers over the integers: a head on two channels, and a
    block of two heads of size one. *)
Definition sample_linear (i o : nat) (with_bias : bool) : Linear.t (F:=Z) :=
  {| Linear.weight := mk [o; i] (fun idx => Z.of_nat (fold_right Nat.add 1%nat idx));
     Linear.bias := if with_bias then Some (mk [o] (fun _ => 1)) else None |}.

Definition sample_dropout : Dropout.t (F:=Z) :=
  {| Dropout.p := 0; Dropout.training := true |}.

Definition sample_head (head_size : nat) : Head.t (F:=Z) :=
  {| Head.key := sample_linear 2 head_size false;
     Head.query := sample_linear 2 head_size false;
     Head.value := sample_linear 2 head_size false;
     Head.dropout := sample_dropout |}.

Definition sample_block : Block.t (F:=Z) :=
  {| Block.sa := {| MultiHeadAttention.heads := [sample_head 1; sample_head 1];
                    MultiHeadAttention.proj := sample_linear 2 2 true;
                    MultiHeadAttention.dropout := sample_dropout |};
     Block.ffwd := {| FeedFoward.net_0 := sample_linear 2 8 true;
                      FeedFoward.net_2 := sample_linear 8 2 true;
                      FeedFoward.net_3 := sample_dropout |};
     Block.ln1 := LayerNorm.init 2;
     Block.ln2 := LayerNorm.init 2 |}.

Definition sample_multi_head_model : MultiHeadAttentionModel.t (F:=Z) :=
  {| MultiHeadAttentionModel.n_head := 2;
     MultiHeadAttentionModel.max_length := 60;
     MultiHeadAttentionModel.token_embedding_table :=
       {| Embedding.weight := sample_embeddings |};
     MultiHeadAttentionModel.position_embedding_table :=
       {| Embedding.weight := mk [60; 2]%nat (fun i => Z.of_nat (fold_right Nat.add 0%nat i)) |};
     MultiHeadAttentionModel.sa := Block.sa sample_block;
     MultiHeadAttentionModel.ffwd := Block.ffwd sample_block;
     MultiHeadAttentionModel.ln1 := LayerNorm.init 2;
     MultiHeadAttentionModel.ln2 := LayerNorm.init 2;
     MultiHeadAttentionModel.output_size := 1;
     MultiHeadAttentionModel.output := sample_linear 2 1 true |}.

(** The true lengths of the two sentences of the sample batch, were the
    last id of the first one padding. *)
Definition sample_lengths : tensor Z :=
  mk [2]%nat (fun i => match i with [O] => 2 | _ => 3 end).

(** The shape of what a computation returns from the generator state 0. *)
Definition shape_of_run (m : M nat (tensor Z)) : option (list nat) :=
  match m 0%nat with
  | Some (r, _) => Some (shape r)
  | None => None
  end.

End AttentionSpec.

(** ** Further notions: the tokens of the dataset, and further sample data *)

Module DataloadingMore.
Import Dataloading DataloadingSpec.

(** The tokenization [__init__] applies to every sentence. *)
Definition tokenize (sentence : string) : list string :=
  Py.split (Py.lower sentence).

(** A character a stored token may hold: not whitespace, and left alone
    by [lower]. *)
Definition clean_char (c : ascii) : Prop :=
  Py.lower_char c = c /\ Py.isspace c = false.

Definition clean_token (tok : string) : Prop :=
  tok <> EmptyString /\ Forall clean_char (list_ascii_of_string tok).

(** The ids [__getitem__] hands to [torch.tensor]: those of the first
    eight tokens, then the pads. *)
Definition padded_ids (w2i : gmap string Z) (tokens : list string) : list (option Z) :=
  map (fun word => Py.dict_get w2i word (w2i !! "<unk>"%string)) (take 8 tokens)
  ++ replicate (Z.to_nat (MAX_LEN - Py.len tokens)) (Some 0).

(** A vocabulary without an entry for ["<unk>"]. *)
Definition vocab_without_unk : gmap string Z :=
  <["this"%string := 5]> (<["is"%string := 9]> ∅).

Definition dataset_without_unk : SentenceDataset :=
  {| labels := [1; 0];
     word2idx := vocab_without_unk;
     data := [["this"; "movie"; "is"]%string;
              ["this"; "is"; "is"; "is"; "is"; "is"; "is"; "this"; "movie"]%string] |}.

Definition five_sentences : list string :=
  ["This is REALLY simple"; "a movie"; ""; "simple"; "is this simple"]%string.

(** Two datasets whose only sentences share their first eight tokens. *)
Definition long_dataset (tail : list string) : SentenceDataset :=
  {| labels := [1];
     word2idx := sample_vocab;
     data := [["a"; "b"; "c"; "d"; "e"; "f"; "g"; "h"]%string ++ tail] |}.

End DataloadingMore.

Module AttentionMore.
Import Tensor Float TorchOps nn Attention AttentionSpec.

(** Two tensors of rank 3 hold the same data for example [b]. *)
Definition agree_on_example {A} (b T C : nat) (x x' : tensor A) : Prop :=
  forall t c, (t < T)%nat -> (c < C)%nat -> elem x [b; t; c] = elem x' [b; t; c].

(** A computation that neither reads nor advances the generator: it is
    an outcome, returned from every state with the state unchanged. *)
Definition generator_free {rng A} (m : M rng A) : Prop :=
  exists o : option A, forall g, m g = lift o g.

Section Inactive.
Context {F rng : Type} `{!Ops F rng}.

(** A dropout layer that lets its input through: in evaluation mode,
    or with [p == 0]. *)
Definition inactive (d : Dropout.t (F:=F)) : Prop :=
  Dropout.training d && negb (fis_zero (Dropout.p d)) = false.

Definition inactive_Head (h : Head.t (F:=F)) : Prop :=
  inactive (Head.dropout h).

Definition inactive_FeedFoward (f : FeedFoward.t (F:=F)) : Prop :=
  inactive (FeedFoward.net_3 f).

Definition inactive_MultiHeadAttention (a : MultiHeadAttention.t (F:=F)) : Prop :=
  Forall inactive_Head (MultiHeadAttention.heads a)
  /\ inactive (MultiHeadAttention.dropout a).

Definition inactive_Block (b : Block.t (F:=F)) : Prop :=
  inactive_MultiHeadAttention (Block.sa b) /\ inactive_FeedFoward (Block.ffwd b).
End Inactive.

(** A transformer encoder on the sample embeddings, with one block. *)
Definition sample_encoder : TransformerEncoderModel.t (F:=Z) :=
  {| TransformerEncoderModel.n_head := 2;
     TransformerEncoderModel.max_length := 60;
     TransformerEncoderModel.emb_dim := 2;
     TransformerEncoderModel.token_embedding_table :=
       {| Embedding.weight := sample_embeddings |};
     TransformerEncoderModel.position_embedding_table :=
       {| Embedding.weight := mk [60; 2]%nat (fun i => Z.of_nat (fold_right Nat.add 0%nat i)) |};
     TransformerEncoderModel.blocks := [sample_block];
     TransformerEncoderModel.ln_f := LayerNorm.init 2;
     TransformerEncoderModel.output_size := 1;
     TransformerEncoderModel.output := sample_linear 2 1 true |}.

(** A single-head classifier on the sample embeddings. *)
Definition sample_simple : SimpleSelfAttentionModel.t (F:=Z) :=
  {| SimpleSelfAttentionModel.n_head := 1;
     SimpleSelfAttentionModel.max_length := 60;
     SimpleSelfAttentionModel.token_embedding_table :=
       {| Embedding.weight := sample_embeddings |};
     SimpleSelfAttentionModel.position_embedding_table :=
       {| Embedding.weight := mk [60; 2]%nat (fun i => Z.of_nat (fold_right Nat.add 0%nat i)) |};
     SimpleSelfAttentionModel.sa := sample_head 2;
     SimpleSelfAttentionModel.ffwd := Block.ffwd sample_block;
     SimpleSelfAttentionModel.ln1 := LayerNorm.init 2;
     SimpleSelfAttentionModel.ln2 := LayerNorm.init 2;
     SimpleSelfAttentionModel.output_size := 1;
     SimpleSelfAttentionModel.output := sample_linear 2 1 true |}.

(** A batch with an id outside the three rows of the sample embeddings. *)
Definition bad_batch : tensor Z :=
  mk [2; 3]%nat (fun i => Z.of_nat (fold_right Nat.add 0%nat i)).

(** The sample input with the second example replaced. *)
Definition sample_input' : tensor Z :=
  mk [2; 3; 2]%nat
     (fun i => match i with
               | O :: _ => Z.of_nat (fold_right Nat.add 0%nat i)
               | _ => 7
               end).

End AttentionMore.

(** ** Properties of the dataset *)

Module DataloadingFacts.
Import Dataloading DataloadingSpec.



Lemma in_int64b_true v : Torch.in_int64 v -> Torch.in_int64b v = true.
Proof.
  unfold Torch.in_int64, Torch.in_int64b. intros [Hlo Hhi].
  apply andb_true_iff. split; [apply Z.leb_le | apply Z.ltb_lt]; assumption.
Qed.

Lemma tensor_long_in_range v :
  Torch.in_int64 v -> Torch.tensor_long (Some v) = Some v.
Proof.
  intros Hv. unfold Torch.tensor_long. simpl. now rewrite in_int64b_true.
Qed.

Lemma tensor_long_list_in_range (ids : list Z) :
  Forall Torch.in_int64 ids ->
  Torch.tensor_long_list (map Some ids) = Some ids.
Proof.
  unfold Torch.tensor_long_list. induction 1 as [|v ids Hv _ IH]; [reflexivity|].
  cbn [map mapM]. rewrite (tensor_long_in_range v Hv). cbn [mbind option_bind].
  rewrite IH. reflexivity.
Qed.

Lemma in_int64_0 : Torch.in_int64 0.
Proof. unfold Torch.in_int64. lia. Qed.

Lemma in_int64_small v : 0 <= v <= 8 -> Torch.in_int64 v.
Proof. unfold Torch.in_int64. lia. Qed.

Lemma pad_or_cut_in_range ids :
  Forall Torch.in_int64 ids -> Forall Torch.in_int64 (pad_or_cut ids).
Proof.
  intros H. unfold pad_or_cut. destruct (Py.len ids <? MAX_LEN).
  - apply Forall_app. split; [assumption|].
    apply Forall_replicate, in_int64_0.
  - now apply Forall_take.
Qed.

Lemma pad_or_cut_length ids : length (pad_or_cut ids) = 8%nat.
Proof.
  unfold pad_or_cut, MAX_LEN, Py.len.
  destruct (Z.ltb_spec (Z.of_nat (length ids)) 8).
  - rewrite length_app, length_replicate. lia.
  - rewrite length_take. lia.
Qed.

(** What [__getitem__] computes, once every token has been given an id. *)
Lemma getitem_encoded self index tokens label ids :
  Py.getitem (data self) index = Some tokens ->
  Py.getitem (labels self) index = Some label ->
  map (fun word => Py.dict_get (word2idx self) word (word2idx self !! "<unk>"%string))
      tokens = map Some ids ->
  Forall Torch.in_int64 ids ->
  Torch.in_int64 label ->
  getitem self index
  = Some (pad_or_cut ids, label, Z.min (Py.len tokens) MAX_LEN).
Proof.
  intros Hd Hl Hmap Hids Hlabel. unfold getitem.
  rewrite Hd, Hl. cbn [mbind option_bind]. rewrite Hmap.
  assert (Hlen : Py.len (map Some ids) = Py.len ids)
    by (unfold Py.len; now rewrite length_map).
  assert (Hlen' : Py.len tokens = Py.len ids).
  { unfold Py.len. f_equal.
    apply (f_equal (@length _)) in Hmap. now rewrite !length_map in Hmap. }
  assert (Hpad :
    (if Py.len (map Some ids) <? MAX_LEN
     then map Some ids ++ Py.list_mul (Some 0) (MAX_LEN - Py.len (map Some ids))
     else Py.slice_to (map Some ids) MAX_LEN) = map Some (pad_or_cut ids)).
  { unfold pad_or_cut, Py.list_mul, Py.slice_to. rewrite Hlen.
    destruct (Py.len ids <? MAX_LEN).
    - rewrite map_app. f_equal. clear.
      induction (Z.to_nat (MAX_LEN - Py.len ids)); simpl; congruence.
    - symmetry. apply (fmap_take Some). }
  rewrite Hpad, tensor_long_list_in_range by now apply pad_or_cut_in_range.
  cbn [mbind option_bind].
  rewrite (tensor_long_in_range label Hlabel). cbn [mbind option_bind].
  rewrite Hlen, tensor_long_in_range.
  - cbn [mbind option_bind]. now rewrite Hlen'.
  - apply in_int64_small. unfold MAX_LEN, Py.len. lia.
Qed.


Lemma map_dict_get w2i unk tokens :
  w2i !! "<unk>"%string = Some unk ->
  map (fun word => Py.dict_get w2i word (w2i !! "<unk>"%string)) tokens
  = map Some (map (idx_of w2i unk) tokens).
Proof.
  intros Hunk. rewrite map_map. apply map_ext. intros word.
  unfold Py.dict_get, idx_of. rewrite Hunk. now destruct (w2i !! word).
Qed.

Lemma idx_of_in_vocab w2i unk word :
  w2i !! "<unk>"%string = Some unk ->
  exists key, w2i !! key = Some (idx_of w2i unk word).
Proof.
  intros Hunk. unfold idx_of. destruct (w2i !! word) as [v|] eqn:Hw.
  - now exists word.
  - now exists "<unk>"%string.
Qed.

Lemma idx_of_in_range w2i unk tokens :
  w2i !! "<unk>"%string = Some unk ->
  map_Forall (fun _ v => Torch.in_int64 v) w2i ->
  Forall Torch.in_int64 (map (idx_of w2i unk) tokens).
Proof.
  intros Hunk Hall. induction tokens as [|word tokens IH]; cbn [map].
  - constructor.
  - constructor; [|exact IH].
    destruct (idx_of_in_vocab w2i unk word Hunk) as [key Hkey].
    exact (Hall key _ Hkey).
Qed.

Lemma getitem_wf self index tokens label unk :
  wf_vocab (word2idx self) unk ->
  Py.getitem (data self) index = Some tokens ->
  Py.getitem (labels self) index = Some label ->
  Torch.in_int64 label ->
  getitem self index
  = Some (pad_or_cut (map (idx_of (word2idx self) unk) tokens), label,
          Z.min (Py.len tokens) MAX_LEN).
Proof.
  intros [Hunk Hall] Hd Hl Hlabel.
  apply getitem_encoded; try assumption.
  - now apply map_dict_get.
  - now apply idx_of_in_range.
Qed.

Lemma pad_or_cut_lookup_token ids i :
  (i < length ids)%nat -> (i < 8)%nat -> pad_or_cut ids !! i = ids !! i.
Proof.
  intros Hi H8. unfold pad_or_cut, MAX_LEN, Py.len.
  destruct (Z.ltb_spec (Z.of_nat (length ids)) 8).
  - now apply lookup_app_l.
  - apply lookup_take_lt. lia.
Qed.

Lemma pad_or_cut_lookup_pad ids i :
  Z.min (Py.len ids) MAX_LEN <= Z.of_nat i < MAX_LEN ->
  pad_or_cut ids !! i = Some 0.
Proof.
  unfold pad_or_cut, MAX_LEN, Py.len. intros Hi.
  destruct (Z.ltb_spec (Z.of_nat (length ids)) 8).
  - rewrite lookup_app_r by lia. apply lookup_replicate_2. lia.
  - lia.
Qed.

(** The tokenizer on mixed case and mixed whitespace. *)
Example split_lower_example :
  Py.split (Py.lower
    (String.append "  This IS"
       (String "009"%char
          (String.append "really" (String "010"%char "SIMPLE ")))))
  = ["this"; "is"; "really"; "simple"]%string.
Proof. reflexivity. Qed.

(** The constructor encodes the first five items for its printout: it
    raises on a dataset of fewer than five sentences, and otherwise
    stores the tokenized sentences. *)
Example init_example :
  init [simple_sentence] [1] sample_vocab = None
  /\ init ["This is REALLY simple"; "a movie"; ""; "simple"; "is this simple"]%string
          [1; 0; 1; 2; 0] sample_vocab
     = Some {| labels := [1; 0; 1; 2; 0];
               word2idx := sample_vocab;
               data := [["this"; "is"; "really"; "simple"]; ["a"; "movie"]; [];
                        ["simple"]; ["is"; "this"; "simple"]]%string |}.
Proof. split; vm_compute; reflexivity. Qed.

Lemma sample_vocab_wf : wf_vocab sample_vocab 1.
Proof.
  split; [reflexivity|]. unfold sample_vocab.
  repeat (apply map_Forall_insert_2; [unfold Torch.in_int64; lia|]).
  apply map_Forall_empty.
Qed.

Lemma in_int64_label v : -1000 <= v <= 1000 -> Torch.in_int64 v.
Proof. unfold Torch.in_int64. lia. Qed.

(** C1: every sentence is encoded as a sequence of exactly [MAX_LEN = 8]
    ids, whatever its number of tokens: a shorter one is followed by pad
    ids, a longer one is cut after its first eight tokens. *)
Theorem getitem_example_has_MAX_LEN self index tokens label unk :
  wf_vocab (word2idx self) unk ->
  Py.getitem (data self) index = Some tokens ->
  Py.getitem (labels self) index = Some label ->
  Torch.in_int64 label ->
  exists example length,
    getitem self index = Some (example, label, length)
    /\ Py.len example = MAX_LEN
    /\ (Py.len tokens < MAX_LEN ->
        example = map (idx_of (word2idx self) unk) tokens
                  ++ replicate (Z.to_nat (MAX_LEN - Py.len tokens)) 0)
    /\ (MAX_LEN <= Py.len tokens ->
        example = map (idx_of (word2idx self) unk) (take 8 tokens)).
Proof.
  intros Hwf Hd Hl Hlabel.
  eexists _, _. split; [exact (getitem_wf _ _ _ _ _ Hwf Hd Hl Hlabel)|].
  assert (Hlen : Py.len (map (idx_of (word2idx self) unk) tokens) = Py.len tokens)
    by (unfold Py.len; now rewrite length_map).
  split; [|split].
  - unfold Py.len. now rewrite pad_or_cut_length.
  - intros Hlt. unfold pad_or_cut. rewrite Hlen.
    apply Z.ltb_lt in Hlt. now rewrite Hlt.
  - intros Hge. unfold pad_or_cut. rewrite Hlen.
    apply Z.ltb_ge in Hge. rewrite Hge.
    change (Z.to_nat MAX_LEN) with 8%nat. symmetry. apply fmap_take.
Qed.

Lemma getitem_example_has_MAX_LEN_witness :
  exists example length,
    getitem sample_dataset 2 = Some (example, 2, length)
    /\ Py.len example = MAX_LEN
    /\ (Py.len nine_tokens < MAX_LEN ->
        example = map (idx_of sample_vocab 1) nine_tokens
                  ++ replicate (Z.to_nat (MAX_LEN - Py.len nine_tokens)) 0)
    /\ (MAX_LEN <= Py.len nine_tokens ->
        example = map (idx_of sample_vocab 1) (take 8 nine_tokens)).
Proof.
  apply (getitem_example_has_MAX_LEN sample_dataset 2 nine_tokens 2 1).
  - exact sample_vocab_wf.
  - reflexivity.
  - reflexivity.
  - apply in_int64_label. lia.
Defined.

(** C2, as stated, fails: for a sentence of nine tokens the third
    component is 8, not 9. *)
Lemma getitem_length_is_not_token_count :
  Py.getitem (data sample_dataset) 2 = Some nine_tokens
  /\ Py.len nine_tokens = 9
  /\ getitem sample_dataset 2 = Some ([1; 1; 1; 1; 1; 1; 1; 1], 2, 8)
  /\ ~ (forall example label length,
          getitem sample_dataset 2 = Some (example, label, length) ->
          length = Py.len nine_tokens).
Proof.
  assert (H : getitem sample_dataset 2 = Some ([1; 1; 1; 1; 1; 1; 1; 1], 2, 8))
    by (vm_compute; reflexivity).
  repeat split; try reflexivity; try exact H.
  intros Hall. specialize (Hall _ _ _ H). discriminate Hall.
Qed.

(** C2, amended: the third component is the number of tokens of the
    sentence capped at [MAX_LEN]: [min(len(tokens), 8)]. It is the true
    token count exactly when the sentence has at most eight tokens. *)
Theorem getitem_length_is_capped_count self index tokens label unk :
  wf_vocab (word2idx self) unk ->
  Py.getitem (data self) index = Some tokens ->
  Py.getitem (labels self) index = Some label ->
  Torch.in_int64 label ->
  exists example length,
    getitem self index = Some (example, label, length)
    /\ length = Z.min (Py.len tokens) MAX_LEN
    /\ (length = Py.len tokens <-> Py.len tokens <= MAX_LEN).
Proof.
  intros Hwf Hd Hl Hlabel.
  eexists _, _. split; [exact (getitem_wf _ _ _ _ _ Hwf Hd Hl Hlabel)|].
  split; [reflexivity|]. lia.
Qed.

Lemma getitem_length_is_capped_count_witness :
  exists example length,
    getitem sample_dataset 2 = Some (example, 2, length)
    /\ length = Z.min (Py.len nine_tokens) MAX_LEN
    /\ (length = Py.len nine_tokens <-> Py.len nine_tokens <= MAX_LEN).
Proof.
  apply (getitem_length_is_capped_count sample_dataset 2 nine_tokens 2 1).
  - exact sample_vocab_wf.
  - reflexivity.
  - reflexivity.
  - apply in_int64_label. lia.
Defined.

(** C7: a token that the vocabulary does not contain is looked up as the
    index of ["<unk>"], the lookup does not fail, [__getitem__] returns
    normally, and the token is encoded as that index wherever it is among
    the eight positions kept. *)
Theorem getitem_unknown_token self index tokens label unk i word :
  wf_vocab (word2idx self) unk ->
  Py.getitem (data self) index = Some tokens ->
  Py.getitem (labels self) index = Some label ->
  Torch.in_int64 label ->
  tokens !! i = Some word ->
  word2idx self !! word = None ->
  Py.dict_get (word2idx self) word (word2idx self !! "<unk>"%string) = Some unk
  /\ exists example length,
       getitem self index = Some (example, label, length)
       /\ ((i < 8)%nat -> example !! i = Some unk).
Proof.
  intros Hwf Hd Hl Hlabel Hi Hw. split.
  - unfold Py.dict_get. rewrite Hw. apply Hwf.
  - eexists _, _. split; [exact (getitem_wf _ _ _ _ _ Hwf Hd Hl Hlabel)|].
    intros H8. rewrite pad_or_cut_lookup_token.
    + change (map ?f tokens) with (f <$> tokens).
      rewrite list_lookup_fmap, Hi. cbn. unfold idx_of. now rewrite Hw.
    + rewrite length_map. now apply lookup_lt_Some in Hi.
    + exact H8.
Qed.

Lemma getitem_unknown_token_witness :
  Py.dict_get sample_vocab "movie" (sample_vocab !! "<unk>"%string) = Some 1
  /\ exists example length,
       getitem sample_dataset 1 = Some (example, 0, length)
       /\ ((1 < 8)%nat -> example !! 1%nat = Some 1).
Proof.
  apply (getitem_unknown_token sample_dataset 1
           ["this"; "movie"; "is"; "simple"]%string 0 1 1%nat "movie"%string).
  - exact sample_vocab_wf.
  - reflexivity.
  - reflexivity.
  - apply in_int64_label. lia.
  - reflexivity.
  - reflexivity.
Defined.

(** C8: the sentence "this is really simple", with this:5, is:9,
    really:41 and simple:12 in the vocabulary, is encoded as
    [5,9,41,12,0,0,0,0] with length 4. *)
Theorem getitem_this_is_really_simple self index label :
  word2idx self !! "this"%string = Some 5 ->
  word2idx self !! "is"%string = Some 9 ->
  word2idx self !! "really"%string = Some 41 ->
  word2idx self !! "simple"%string = Some 12 ->
  Py.getitem (data self) index = Some (Py.split (Py.lower "this is really simple")) ->
  Py.getitem (labels self) index = Some label ->
  Torch.in_int64 label ->
  getitem self index = Some ([5; 9; 41; 12; 0; 0; 0; 0], label, 4).
Proof.
  intros H1 H2 H3 H4 Hd Hl Hlabel.
  change (Py.split (Py.lower "this is really simple"))
    with ["this"; "is"; "really"; "simple"]%string in Hd.
  rewrite (getitem_encoded self index _ label [5; 9; 41; 12] Hd Hl);
    [reflexivity | | | exact Hlabel].
  - cbn [map]. unfold Py.dict_get. now rewrite H1, H2, H3, H4.
  - repeat constructor; unfold Torch.in_int64; lia.
Qed.

Lemma getitem_this_is_really_simple_witness :
  getitem sample_dataset 0 = Some ([5; 9; 41; 12; 0; 0; 0; 0], 1, 4).
Proof.
  apply (getitem_this_is_really_simple sample_dataset 0 1); try reflexivity.
  apply in_int64_label. lia.
Defined.

(** C10: in the encoded sequence every position from the returned length
    on holds the pad index 0, and every position before it holds the id
    of the token at that position: its vocabulary index, or the index of
    ["<unk>"] when the vocabulary does not contain it. *)
Theorem getitem_padding_is_suffix self index tokens label unk :
  wf_vocab (word2idx self) unk ->
  Py.getitem (data self) index = Some tokens ->
  Py.getitem (labels self) index = Some label ->
  Torch.in_int64 label ->
  exists example length,
    getitem self index = Some (example, label, length)
    /\ (forall i : nat, length <= Z.of_nat i < MAX_LEN -> example !! i = Some 0)
    /\ (forall i : nat, Z.of_nat i < length ->
        exists word v,
          tokens !! i = Some word /\ example !! i = Some v
          /\ (word2idx self !! word = Some v
              \/ word2idx self !! word = None /\ v = unk
                 /\ word2idx self !! "<unk>"%string = Some v)).
Proof.
  intros Hwf Hd Hl Hlabel.
  eexists _, _. split; [exact (getitem_wf _ _ _ _ _ Hwf Hd Hl Hlabel)|].
  assert (Hlen : Py.len (map (idx_of (word2idx self) unk) tokens) = Py.len tokens)
    by (unfold Py.len; now rewrite length_map).
  split.
  - intros i Hi. apply pad_or_cut_lookup_pad. now rewrite Hlen.
  - intros i Hi. unfold MAX_LEN, Py.len in Hi.
    destruct (tokens !! i) as [word|] eqn:Hw.
    2:{ apply lookup_ge_None in Hw. lia. }
    exists word, (idx_of (word2idx self) unk word). split; [reflexivity|]. split.
    + rewrite pad_or_cut_lookup_token.
      * change (map ?f tokens) with (f <$> tokens).
        now rewrite list_lookup_fmap, Hw.
      * rewrite length_map. now apply lookup_lt_Some in Hw.
      * lia.
    + unfold idx_of. destruct (word2idx self !! word) as [v|]; cbn.
      * now left.
      * right. repeat split. apply Hwf.
Qed.

Lemma getitem_padding_is_suffix_witness :
  exists example length,
    getitem sample_dataset 1 = Some (example, 0, length)
    /\ (forall i : nat, length <= Z.of_nat i < MAX_LEN -> example !! i = Some 0)
    /\ (forall i : nat, Z.of_nat i < length ->
        exists word v,
          ["this"; "movie"; "is"; "simple"]%string !! i = Some word
          /\ example !! i = Some v
          /\ (sample_vocab !! word = Some v
              \/ sample_vocab !! word = None /\ v = 1
                 /\ sample_vocab !! "<unk>"%string = Some v)).
Proof.
  apply (getitem_padding_is_suffix sample_dataset 1
           ["this"; "movie"; "is"; "simple"]%string 0 1).
  - exact sample_vocab_wf.
  - reflexivity.
  - reflexivity.
  - apply in_int64_label. lia.
Defined.

End DataloadingFacts.

(** ** Properties of the attention models *)

Module AttentionFacts.
Import Tensor Float TorchOps nn Attention AttentionSpec.

Lemma unsnoc_app {A} (s : list A) (x : A) : unsnoc (s ++ [x]) = Some (s, x).
Proof. unfold unsnoc. rewrite rev_app_distr. cbn. now rewrite rev_involutive. Qed.

Section Monad.
Context {rng : Type}.

Lemma bind_eq {A B} (m : M rng A) (f : A -> M rng B) g a g' :
  m g = Some (a, g') -> (m ≫= f) g = f a g'.
Proof. intros H. unfold mbind, M_bind, bind. now rewrite H. Qed.

Lemma lift_eq {A} (o : option A) a (g : rng) : o = Some a -> lift o g = Some (a, g).
Proof. now intros ->. Qed.

Lemma lift_inv {A} (o : option A) a (g g' : rng) :
  lift o g = Some (a, g') -> o = Some a /\ g' = g.
Proof. unfold lift. destruct o; [|discriminate]. intros [= -> ->]. now split. Qed.

End Monad.

Section Returns.
Context {F rng : Type} `{!Ops F rng}.

Lemma returns_ret {A} (a : A) (Q : A -> Prop) :
  Q a -> returns (rng:=rng) (mret a) Q.
Proof. intros H g. now exists a, g. Qed.

Lemma returns_lift {A} (o : option A) (a : A) (Q : A -> Prop) :
  o = Some a -> Q a -> returns (rng:=rng) (lift o) Q.
Proof. intros -> H g. now exists a, g. Qed.

Lemma returns_bind {A B} (m : M rng A) (f : A -> M rng B) (Q : A -> Prop)
    (R : B -> Prop) :
  returns m Q -> (forall a, Q a -> returns (f a) R) -> returns (m ≫= f) R.
Proof.
  intros Hm Hf g. destruct (Hm g) as (a & g1 & Hmg & Ha).
  destruct (Hf a Ha g1) as (b & g2 & Hfg & Hb).
  exists b, g2. split; [|exact Hb]. now rewrite (bind_eq _ _ _ _ _ Hmg).
Qed.

Lemma returns_weaken {A} (m : M rng A) (Q R : A -> Prop) :
  returns m Q -> (forall a, Q a -> R a) -> returns m R.
Proof.
  intros Hm HQR g. destruct (Hm g) as (a & g1 & Hmg & Ha).
  exists a, g1. split; [assumption | now apply HQR].
Qed.

Lemma returns_mapM {A B} (f : A -> M rng B) (Q : B -> Prop) (l : list A) :
  Forall (fun x => returns (f x) Q) l ->
  returns (mapM f l) (fun r => length r = length l /\ Forall Q r).
Proof.
  induction 1 as [|x l Hx _ IH]; cbn [mapM].
  - apply returns_ret. now split.
  - eapply returns_bind; [exact Hx|]. intros b Hb.
    eapply returns_bind; [exact IH|]. intros r [Hlen Hr].
    apply returns_ret. split; [cbn; now rewrite Hlen | now constructor].
Qed.

Lemma returns_dropout p training (x : tensor F) :
  returns (dropout p training x) (fun r => shape r = shape x).
Proof.
  intros g. unfold dropout. destruct (training && negb (fis_zero p)).
  - destruct (rng_dropout g p (shape x)) as [factor g'].
    eexists _, _. split; [reflexivity|]. reflexivity.
  - now exists x, g.
Qed.

Lemma returns_fresh (s : list nat) :
  returns (fresh s) (fun r : tensor F => shape r = s).
Proof.
  intros g. unfold fresh. destruct (rng_init g s) as [v g'].
  eexists _, _. split; reflexivity.
Qed.

(** *** The torch operations on operands of fitting shapes *)

Lemma linear_ok (W : tensor F) b (x : tensor F) o c s :
  shape W = [o; c] -> shape x = s ++ [c] ->
  match b with Some b => shape b = [o] | None => True end ->
  linear W b x = Some (mk (s ++ [o]) (linear_elem W b x c)).
Proof.
  intros HW Hx Hb. unfold linear. rewrite HW, Hx, unsnoc_app, Nat.eqb_refl.
  destruct b as [b|]; [|reflexivity]. now rewrite bool_decide_eq_true_2.
Qed.

Lemma transpose_ok (a : tensor F) s n m :
  shape a = s ++ [n; m] ->
  transpose a
  = Some (mk (s ++ [m; n])
            (fun i => elem a (front (front i) ++ [final i; final (front i)]))).
Proof.
  intros Ha. unfold transpose. rewrite Ha.
  change (s ++ [n; m]) with (s ++ [n] ++ [m]).
  now rewrite app_assoc, !unsnoc_app.
Qed.

Lemma matmul_ok (a b : tensor F) s n k m :
  shape a = s ++ [n; k] -> shape b = s ++ [k; m] ->
  matmul a b = Some (mk (s ++ [n; m]) (matmul_elem a b k)).
Proof.
  intros Ha Hb. unfold matmul. rewrite Ha, Hb.
  change (s ++ [n; k]) with (s ++ [n] ++ [k]).
  change (s ++ [k; m]) with (s ++ [k] ++ [m]).
  rewrite !app_assoc, !unsnoc_app, Nat.eqb_refl.
  now rewrite bool_decide_eq_true_2.
Qed.

Lemma softmax_ok (a : tensor F) s n :
  shape a = s ++ [n] ->
  exists r, softmax a = Some r /\ shape r = s ++ [n]
    /\ forall i, elem r i
         = fdiv (fexp (elem a i))
                (fsum (map (fun j => fexp (elem a (front i ++ [j]))) (seq 0 n))).
Proof.
  intros Ha. unfold softmax. rewrite Ha, unsnoc_app.
  eexists. split; [reflexivity|]. split; reflexivity.
Qed.

Lemma broadcast_rev_same (s : list nat) : broadcast_rev s s = Some s.
Proof.
  induction s as [|n s IH]; [reflexivity|].
  cbn [broadcast_rev]. rewrite IH. cbn. now rewrite Nat.eqb_refl.
Qed.

Lemma broadcast_index_rev_same (s i : list nat) :
  Forall2 lt i s -> broadcast_index_rev s i = i.
Proof.
  intros H. induction H as [|k n i s Hk _ IH]; [reflexivity|].
  cbn [broadcast_index_rev]. rewrite IH. f_equal.
  destruct (Nat.eqb_spec n 1); lia.
Qed.

Lemma Forall2_lt_rev (i s : list nat) :
  Forall2 lt i s -> Forall2 lt (rev i) (rev s).
Proof.
  induction 1 as [|k n i s Hk _ IH]; cbn [rev]; [constructor|].
  apply Forall2_app; [exact IH | now repeat constructor].
Qed.

Lemma broadcast_index_same (s i : list nat) :
  valid s i -> broadcast_index s i = i.
Proof.
  intros H. unfold broadcast_index.
  rewrite broadcast_index_rev_same; [apply rev_involutive|].
  now apply Forall2_lt_rev.
Qed.

Lemma add_same_ok (a b : tensor F) :
  shape a = shape b ->
  exists r, add a b = Some r /\ shape r = shape a
    /\ forall i, valid (shape a) i -> elem r i = fadd (elem a i) (elem b i).
Proof.
  intros Hab. unfold add. rewrite <- Hab, broadcast_rev_same.
  eexists. split; [reflexivity|]. split.
  - apply rev_involutive.
  - intros i Hi. cbn. now rewrite broadcast_index_same.
Qed.

Lemma add_rows_ok (a b : tensor F) B T C :
  shape a = [B; T; C] -> shape b = [T; C] ->
  exists r, add a b = Some r /\ shape r = [B; T; C].
Proof.
  intros Ha Hb. unfold add. rewrite Ha, Hb. cbn.
  rewrite !Nat.eqb_refl. cbn. eexists. split; reflexivity.
Qed.

Lemma layer_norm_ok n (gamma beta : tensor F) eps (x : tensor F) s :
  shape gamma = [n] -> shape beta = [n] -> shape x = s ++ [n] ->
  layer_norm n gamma beta eps x
  = Some (mk (shape x) (layer_norm_elem n gamma beta eps x)).
Proof.
  intros Hg Hb Hx. unfold layer_norm. rewrite Hx, unsnoc_app, Nat.eqb_refl.
  now rewrite !bool_decide_eq_true_2.
Qed.

Lemma indices_valid (s i : list nat) : In i (indices s) -> valid s i.
Proof.
  revert i. induction s as [|n s IH]; intros i Hi; cbn in Hi.
  - destruct Hi as [<-|[]]. constructor.
  - apply in_flat_map in Hi as (k & Hk & Hi).
    apply in_map_iff in Hi as (j & <- & Hj).
    apply in_seq in Hk. constructor; [lia | now apply IH].
Qed.

Lemma embedding_ok (table : tensor F) (x : tensor Z) num dim :
  shape table = [num; dim] -> ids_below num x ->
  exists r, embedding table x = Some r /\ shape r = shape x ++ [dim].
Proof.
  intros Ht Hx. unfold embedding. rewrite Ht.
  assert (Hall : forallb (fun i => (0 <=? elem x i) && (elem x i <? Z.of_nat num))
                   (indices (shape x)) = true).
  { apply forallb_forall. intros i Hi.
    destruct (Hx i (indices_valid _ _ Hi)) as [Hlo Hhi].
    apply andb_true_iff. split; [now apply Z.leb_le | now apply Z.ltb_lt]. }
  rewrite Hall. eexists. split; reflexivity.
Qed.

Lemma arange_ids_below T max_length :
  (T <= max_length)%nat -> ids_below max_length (arange T).
Proof.
  intros HT i Hi. cbn in Hi. inversion Hi as [|k n i' s' Hk Hi' E1 E2]; subst.
  inversion Hi'; subst. cbn. lia.
Qed.

Lemma cat2_ok (a b : tensor F) s n m :
  shape a = s ++ [n] -> shape b = s ++ [m] ->
  exists r, cat2 a b = Some r /\ shape r = s ++ [(n + m)%nat].
Proof.
  intros Ha Hb. unfold cat2. rewrite Ha, Hb, !unsnoc_app.
  rewrite bool_decide_eq_true_2 by reflexivity.
  eexists. split; reflexivity.
Qed.

Lemma cat_from_ok (l : list (tensor F)) : forall (acc : tensor F) s a n,
  shape acc = s ++ [a] -> Forall (fun t => shape t = s ++ [n]) l ->
  exists r, cat_from acc l = Some r /\ shape r = s ++ [(a + n * length l)%nat].
Proof.
  induction l as [|b l IH]; intros acc s a n Hacc Hl; cbn [cat_from].
  - exists acc. split; [reflexivity|]. rewrite Hacc. cbn. do 2 f_equal. lia.
  - inversion Hl as [|? ? Hb Hl']; subst.
    destruct (cat2_ok acc b s a n Hacc Hb) as (r & Hr & Hs).
    rewrite Hr. cbn [mbind option_bind].
    destruct (IH r s (a + n)%nat n Hs Hl') as (r' & Hr' & Hs').
    exists r'. split; [exact Hr'|]. rewrite Hs'. cbn. do 2 f_equal. lia.
Qed.

Lemma cat_ok (l : list (tensor F)) s n :
  l <> [] -> Forall (fun t => shape t = s ++ [n]) l ->
  exists r, cat l = Some r /\ shape r = s ++ [(n * length l)%nat].
Proof.
  intros Hne Hl. destruct l as [|a l]; [congruence|].
  inversion Hl as [|? ? Ha Hl']; subst. unfold cat.
  rewrite Ha, unsnoc_app. cbn [mbind option_bind].
  destruct (cat_from_ok l a s n n Ha Hl') as (r & Hr & Hs).
  exists r. split; [exact Hr|]. rewrite Hs. cbn. do 2 f_equal. lia.
Qed.

(** *** The layers return, with the expected shape *)

Lemma returns_lift_eq {A} (o : option A) (a : A) :
  o = Some a -> returns (rng:=rng) (lift o) (fun r => r = a).
Proof. intros H. now apply returns_lift with a. Qed.

Lemma Linear_forward_returns i o (l : Linear.t (F:=F)) (x : tensor F) s :
  wf_Linear i o l -> shape x = s ++ [i] ->
  returns (Linear.forward l x) (fun r => shape r = s ++ [o]).
Proof.
  intros [HW Hb] Hx. unfold Linear.forward.
  eapply returns_lift; [apply (linear_ok _ _ _ o i s HW Hx)|reflexivity].
  destruct (Linear.bias l); [exact Hb | exact I].
Qed.

Lemma LayerNorm_forward_returns n (l : LayerNorm.t (F:=F)) (x : tensor F) s :
  wf_LayerNorm n l -> shape x = s ++ [n] ->
  returns (LayerNorm.forward l x) (fun r => shape r = shape x).
Proof.
  intros (Hn & Hg & Hb) Hx. unfold LayerNorm.forward. rewrite Hn.
  eapply returns_lift; [apply (layer_norm_ok n _ _ _ _ s Hg Hb Hx)|reflexivity].
Qed.

Lemma Embedding_forward_returns num dim (e : Embedding.t (F:=F)) (x : tensor Z) :
  wf_Embedding num dim e -> ids_below num x ->
  returns (rng:=rng) (Embedding.forward e x) (fun r => shape r = shape x ++ [dim]).
Proof.
  intros He Hx. unfold Embedding.forward.
  destruct (embedding_ok _ x num dim He Hx) as (r & Hr & Hs).
  now apply returns_lift with r.
Qed.

Lemma Dropout_forward_returns (d : Dropout.t (F:=F)) (x : tensor F) :
  returns (Dropout.forward d x) (fun r => shape r = shape x).
Proof. apply returns_dropout. Qed.

Lemma Head_forward_returns C hs (h : Head.t (F:=F)) (x : tensor F) B T :
  wf_Head C hs h -> shape x = [B; T; C] -> (0 < C)%nat ->
  returns (Head.forward h x) (fun r => shape r = [B; T; hs]).
Proof.
  intros ((Hk & _) & (Hq & _) & (Hv & _)) Hx HC. unfold Head.forward.
  eapply returns_bind.
  { apply (returns_lift_eq _ (B, T, C)). unfold shape3. now rewrite Hx. }
  intros ? ->.
  eapply returns_bind; [apply (Linear_forward_returns C hs _ x [B; T] Hk Hx)|].
  intros k Hks.
  eapply returns_bind; [apply (Linear_forward_returns C hs _ x [B; T] Hq Hx)|].
  intros q Hqs.
  eapply returns_bind; [apply returns_lift_eq, (transpose_ok k [B] T hs Hks)|].
  intros ? ->.
  eapply returns_bind.
  { apply returns_lift_eq. apply (matmul_ok q _ [B] T hs T Hqs). reflexivity. }
  intros ? ->.
  eapply returns_bind.
  { apply (returns_lift_eq _ (fpow (of_nat C) neg_half)).
    destruct C; [lia | reflexivity]. }
  intros ? ->.
  match goal with |- context [softmax ?w] =>
    destruct (softmax_ok w [B; T] T eq_refl) as (wei & Hwei & Hweis & _) end.
  eapply returns_bind; [apply returns_lift_eq, Hwei|]. intros ? ->.
  eapply returns_bind; [apply Dropout_forward_returns|]. intros wei' Hwei'.
  eapply returns_bind; [apply (Linear_forward_returns C hs _ x [B; T] Hv Hx)|].
  intros v Hvs.
  eapply returns_bind.
  { apply returns_lift_eq. apply (matmul_ok wei' v [B] T T hs); [|exact Hvs].
    now rewrite Hwei', Hweis. }
  intros ? ->. now apply returns_ret.
Qed.

Lemma FeedFoward_forward_returns n (f : FeedFoward.t (F:=F)) (x : tensor F) s :
  wf_FeedFoward n f -> shape x = s ++ [n] ->
  returns (FeedFoward.forward f x) (fun r => shape r = s ++ [n]).
Proof.
  intros [H0 H2] Hx. unfold FeedFoward.forward.
  eapply returns_bind; [apply (Linear_forward_returns _ _ _ x s H0 Hx)|].
  intros x1 Hx1.
  eapply returns_bind; [apply (Linear_forward_returns _ _ _ (relu x1) s H2 Hx1)|].
  intros x2 Hx2.
  eapply returns_weaken; [apply Dropout_forward_returns|].
  intros r Hr. now rewrite Hr.
Qed.

Lemma MultiHeadAttention_forward_returns nh hs C
    (a : MultiHeadAttention.t (F:=F)) (x : tensor F) B T :
  wf_MultiHeadAttention nh hs C a -> (0 < nh)%nat -> (0 < C)%nat ->
  shape x = [B; T; C] ->
  returns (MultiHeadAttention.forward a x) (fun r => shape r = [B; T; C]).
Proof.
  intros (Hlen & Hheads & Hproj) Hnh HC Hx. unfold MultiHeadAttention.forward.
  eapply returns_bind.
  { apply (returns_mapM _ (fun r => shape r = [B; T] ++ [hs])).
    eapply Forall_impl; [exact Hheads|]. intros h Hh.
    now apply (Head_forward_returns C hs h x B T). }
  intros outs [Hlen' Houts].
  destruct (cat_ok outs [B; T] hs) as (out & Hout & Houts').
  { intros ->. cbn in Hlen'. lia. }
  { exact Houts. }
  eapply returns_bind; [apply returns_lift_eq, Hout|]. intros ? ->.
  rewrite Hlen', Hlen in Houts'.
  eapply returns_bind; [apply (Linear_forward_returns _ _ _ out [B; T] Hproj Houts')|].
  intros p Hp.
  eapply returns_weaken; [apply Dropout_forward_returns|].
  intros r Hr. now rewrite Hr.
Qed.

Lemma Block_forward_returns nh C (b : Block.t (F:=F)) (x : tensor F) B T :
  wf_Block nh C b -> (0 < C)%nat -> shape x = [B; T; C] ->
  returns (Block.forward b x) (fun r => shape r = [B; T; C]).
Proof.
  intros (Hnh & Hsa & Hff & Hln1 & Hln2) HC Hx. unfold Block.forward.
  eapply returns_bind; [apply (LayerNorm_forward_returns C _ x [B; T] Hln1 Hx)|].
  intros n1 Hn1. rewrite Hx in Hn1.
  eapply returns_bind;
    [apply (MultiHeadAttention_forward_returns _ _ _ _ n1 B T Hsa Hnh HC Hn1)|].
  intros a Ha.
  destruct (add_same_ok x a) as (x1 & Hadd1 & Hx1 & _); [congruence|].
  eapply returns_bind; [apply returns_lift_eq, Hadd1|]. intros ? ->.
  rewrite Hx in Hx1.
  eapply returns_bind; [apply (LayerNorm_forward_returns C _ x1 [B; T] Hln2 Hx1)|].
  intros n2 Hn2. rewrite Hx1 in Hn2.
  eapply returns_bind; [apply (FeedFoward_forward_returns C _ n2 [B; T] Hff Hn2)|].
  intros f Hf.
  destruct (add_same_ok x1 f) as (x2 & Hadd2 & Hx2 & _); [now rewrite Hx1, Hf|].
  eapply returns_bind; [apply returns_lift_eq, Hadd2|]. intros ? ->.
  apply returns_ret. congruence.
Qed.

Lemma sequential_returns nh C (l : list (Block.t (F:=F))) :
  forall (x : tensor F) B T,
  Forall (wf_Block nh C) l -> (0 < C)%nat -> shape x = [B; T; C] ->
  returns (TransformerEncoderModel.sequential l x) (fun r => shape r = [B; T; C]).
Proof.
  induction l as [|b l IH]; intros x B T Hl HC Hx; cbn [TransformerEncoderModel.sequential].
  - now apply returns_ret.
  - inversion Hl as [|? ? Hb Hl']; subst.
    eapply returns_bind; [apply (Block_forward_returns nh C b x B T Hb HC Hx)|].
    intros x1 Hx1. now apply IH.
Qed.

(** *** The classifiers *)

Lemma mean1_ok (a : tensor F) d0 d1 s :
  shape a = d0 :: d1 :: s -> exists r, mean1 a = Some r /\ shape r = d0 :: s.
Proof. intros Ha. unfold mean1. rewrite Ha. eexists. split; reflexivity. Qed.

Lemma squeeze_returns output_size B (logits : tensor F) :
  shape logits = [B; output_size] ->
  returns (rng:=rng)
    (if Nat.eqb output_size 1 then lift (squeeze1 logits) else mret logits)
    (batch_logits output_size B).
Proof.
  intros Hl. destruct (Nat.eqb_spec output_size 1) as [->|Hne].
  - eapply returns_lift.
    + unfold squeeze1. rewrite Hl. reflexivity.
    + split; [reflexivity | congruence].
  - apply returns_ret. split; [congruence | now intros _].
Qed.

Ltac embed_steps Hx Htok Hpos Hids HT :=
  match type of Hx with
  | shape ?x = [?B; ?T] =>
    eapply returns_bind;
      [apply (returns_lift_eq _ (B, T)); unfold shape2; now rewrite Hx|];
    intros ? ->;
    eapply returns_bind;
      [apply (Embedding_forward_returns _ _ _ x Htok Hids)|];
    let tok := fresh "tok" in let Htoks := fresh "Htoks" in
    intros tok Htoks; rewrite Hx in Htoks;
    eapply returns_bind;
      [apply (Embedding_forward_returns _ _ _ (arange T) Hpos
                (arange_ids_below _ _ HT))|];
    let pos := fresh "pos" in let Hposs := fresh "Hposs" in
    intros pos Hposs;
    let x0 := fresh "x0" in let Hadd0 := fresh "Hadd0" in
    let Hx0 := fresh "Hx0" in
    destruct (add_rows_ok tok pos B T _ Htoks Hposs) as (x0 & Hadd0 & Hx0);
    eapply returns_bind; [apply returns_lift_eq, Hadd0|];
    intros ? ->
  end.

Ltac logits_steps x Hxs Hout :=
  let p := fresh "pooled" in let Hm := fresh "Hmean" in
  let Hp := fresh "Hpooled" in
  destruct (mean1_ok x _ _ _ Hxs) as (p & Hm & Hp);
  eapply returns_bind; [apply returns_lift_eq, Hm|];
  intros ? ->;
  match type of Hp with
  | shape _ = [?B; _] =>
    eapply returns_bind;
      [apply (Linear_forward_returns _ _ _ p [B] Hout Hp)|];
    let l := fresh "logits" in let Hl := fresh "Hlogits" in
    intros l Hl; now apply squeeze_returns
  end.

Lemma SimpleSelfAttentionModel_forward_returns
    output_size num dim max_length (m : SimpleSelfAttentionModel.t (F:=F))
    (x : tensor Z) B T :
  wf_SimpleSelfAttentionModel output_size num dim max_length m ->
  (0 < dim)%nat -> shape x = [B; T] -> (T <= max_length)%nat -> ids_below num x ->
  returns (SimpleSelfAttentionModel.forward m x) (batch_logits output_size B).
Proof.
  intros (Htok & Hpos & Hsa & Hff & Hln1 & Hln2 & Hos & Hout) Hdim Hx HT Hids.
  unfold SimpleSelfAttentionModel.forward. rewrite Hos.
  embed_steps Hx Htok Hpos Hids HT.
  eapply returns_bind; [apply (LayerNorm_forward_returns dim _ x0 [B; T] Hln1 Hx0)|].
  intros n1 Hn1. rewrite Hx0 in Hn1.
  eapply returns_bind; [apply (Head_forward_returns dim dim _ n1 B T Hsa Hn1 Hdim)|].
  intros a Ha.
  destruct (add_same_ok x0 a) as (x1 & Hadd1 & Hx1 & _); [congruence|].
  eapply returns_bind; [apply returns_lift_eq, Hadd1|]. intros ? ->.
  rewrite Hx0 in Hx1.
  eapply returns_bind; [apply (LayerNorm_forward_returns dim _ x1 [B; T] Hln2 Hx1)|].
  intros n2 Hn2. rewrite Hx1 in Hn2.
  eapply returns_bind; [apply (FeedFoward_forward_returns dim _ n2 [B; T] Hff Hn2)|].
  intros f Hf.
  destruct (add_same_ok x1 f) as (x2 & Hadd2 & Hx2 & _); [now rewrite Hx1, Hf|].
  eapply returns_bind; [apply returns_lift_eq, Hadd2|]. intros ? ->.
  rewrite Hx1 in Hx2.
  logits_steps x2 Hx2 Hout.
Qed.

Lemma MultiHeadAttentionModel_forward_returns
    output_size num dim max_length n_head (m : MultiHeadAttentionModel.t (F:=F))
    (x : tensor Z) lengths B T :
  wf_MultiHeadAttentionModel output_size num dim max_length n_head m ->
  (0 < dim)%nat -> shape x = [B; T] -> (T <= max_length)%nat -> ids_below num x ->
  returns (MultiHeadAttentionModel.forward m x lengths) (batch_logits output_size B).
Proof.
  intros (Hnh & Htok & Hpos & Hsa & Hff & Hln1 & Hln2 & Hos & Hout) Hdim Hx HT Hids.
  unfold MultiHeadAttentionModel.forward. rewrite Hos.
  embed_steps Hx Htok Hpos Hids HT.
  eapply returns_bind; [apply (LayerNorm_forward_returns dim _ x0 [B; T] Hln1 Hx0)|].
  intros n1 Hn1. rewrite Hx0 in Hn1.
  eapply returns_bind;
    [apply (MultiHeadAttention_forward_returns _ _ _ _ n1 B T Hsa Hnh Hdim Hn1)|].
  intros a Ha.
  destruct (add_same_ok x0 a) as (x1 & Hadd1 & Hx1 & _); [congruence|].
  eapply returns_bind; [apply returns_lift_eq, Hadd1|]. intros ? ->.
  rewrite Hx0 in Hx1.
  eapply returns_bind; [apply (LayerNorm_forward_returns dim _ x1 [B; T] Hln2 Hx1)|].
  intros n2 Hn2. rewrite Hx1 in Hn2.
  eapply returns_bind; [apply (FeedFoward_forward_returns dim _ n2 [B; T] Hff Hn2)|].
  intros f Hf.
  destruct (add_same_ok x1 f) as (x2 & Hadd2 & Hx2 & _); [now rewrite Hx1, Hf|].
  eapply returns_bind; [apply returns_lift_eq, Hadd2|]. intros ? ->.
  rewrite Hx1 in Hx2.
  logits_steps x2 Hx2 Hout.
Qed.

Lemma TransformerEncoderModel_forward_returns
    output_size num dim max_length n_head n_layer
    (m : TransformerEncoderModel.t (F:=F)) (x : tensor Z) B T :
  wf_TransformerEncoderModel output_size num dim max_length n_head n_layer m ->
  (0 < dim)%nat -> shape x = [B; T] -> (T <= max_length)%nat -> ids_below num x ->
  returns (TransformerEncoderModel.forward m x) (batch_logits output_size B).
Proof.
  intros (Htok & Hpos & Hlen & Hblocks & Hlnf & Hos & Hout) Hdim Hx HT Hids.
  unfold TransformerEncoderModel.forward. rewrite Hos.
  embed_steps Hx Htok Hpos Hids HT.
  eapply returns_bind; [apply (sequential_returns n_head dim _ x0 B T Hblocks Hdim Hx0)|].
  intros x1 Hx1.
  eapply returns_bind; [apply (LayerNorm_forward_returns dim _ x1 [B; T] Hlnf Hx1)|].
  intros x2 Hx2. rewrite Hx1 in Hx2.
  logits_steps x2 Hx2 Hout.
Qed.

(** C6: on a batch of [B] sentences every classifier returns, for an
    output size of 1, a tensor of shape [(B)]: one scalar logit per
    example; for any other output size the logits keep the shape
    [(B, output_size)]. *)
Theorem classifier_logits_shape
    (output_size num dim max_length n_head n_layer B T : nat) (x : tensor Z) :
  (0 < dim)%nat -> shape x = [B; T] -> (T <= max_length)%nat -> ids_below num x ->
  (forall m : SimpleSelfAttentionModel.t (F:=F),
     wf_SimpleSelfAttentionModel output_size num dim max_length m ->
     forall g : rng, exists logits g',
       SimpleSelfAttentionModel.forward m x g = Some (logits, g')
       /\ (output_size = 1%nat -> shape logits = [B])
       /\ (output_size <> 1%nat -> shape logits = [B; output_size]))
  /\ (forall (m : MultiHeadAttentionModel.t (F:=F)) lengths,
     wf_MultiHeadAttentionModel output_size num dim max_length n_head m ->
     forall g : rng, exists logits g',
       MultiHeadAttentionModel.forward m x lengths g = Some (logits, g')
       /\ (output_size = 1%nat -> shape logits = [B])
       /\ (output_size <> 1%nat -> shape logits = [B; output_size]))
  /\ (forall m : TransformerEncoderModel.t (F:=F),
     wf_TransformerEncoderModel output_size num dim max_length n_head n_layer m ->
     forall g : rng, exists logits g',
       TransformerEncoderModel.forward m x g = Some (logits, g')
       /\ (output_size = 1%nat -> shape logits = [B])
       /\ (output_size <> 1%nat -> shape logits = [B; output_size])).
Proof.
  intros Hdim Hx HT Hids. split; [|split].
  - intros m Hm.
    exact (SimpleSelfAttentionModel_forward_returns _ _ _ _ m x B T Hm Hdim Hx HT Hids).
  - intros m lengths Hm.
    exact (MultiHeadAttentionModel_forward_returns _ _ _ _ _ m x lengths B T
             Hm Hdim Hx HT Hids).
  - intros m Hm.
    exact (TransformerEncoderModel_forward_returns _ _ _ _ _ _ m x B T
             Hm Hdim Hx HT Hids).
Qed.

(** *** The constructors lay the parameters out as [wf_...] says *)

Lemma Linear_init_returns i o (with_bias : bool) :
  returns (Linear.init i o with_bias)
    (fun l : Linear.t (F:=F) =>
       wf_Linear i o l /\ (with_bias = false -> Linear.bias l = None)).
Proof.
  unfold Linear.init.
  eapply returns_bind; [apply returns_fresh|]. intros w Hw.
  destruct with_bias.
  - eapply returns_bind.
    + eapply returns_bind; [apply returns_fresh|]. intros b Hb.
      apply (returns_ret (Some b)
               (fun ob => exists b', ob = Some b' /\ shape b' = [o])).
      now exists b.
    + intros ob (b & -> & Hb). apply returns_ret.
      repeat split; cbn; auto; discriminate.
  - eapply returns_bind; [apply (returns_ret None (fun ob => ob = None)); reflexivity|].
    intros ? ->. apply returns_ret. repeat split; cbn; auto.
Qed.

Lemma Dropout_init_zero_returns :
  returns (Dropout.init fzero) (fun _ : Dropout.t (F:=F) => True).
Proof. unfold Dropout.init. rewrite fis_prob_zero. now apply returns_ret. Qed.

Lemma Head_init_returns head_size n_embd :
  returns (Head.init head_size n_embd fzero) (wf_Head n_embd head_size).
Proof.
  unfold Head.init.
  eapply returns_bind; [apply Linear_init_returns|]. intros k [Hk Hkb].
  eapply returns_bind; [apply Linear_init_returns|]. intros q [Hq Hqb].
  eapply returns_bind; [apply Linear_init_returns|]. intros v [Hv Hvb].
  eapply returns_bind; [apply Dropout_init_zero_returns|]. intros d _.
  apply returns_ret. unfold wf_Head. cbn. auto 10.
Qed.

Lemma FeedFoward_init_returns n_embd :
  returns (FeedFoward.init n_embd fzero) (wf_FeedFoward n_embd).
Proof.
  unfold FeedFoward.init.
  eapply returns_bind; [apply Linear_init_returns|]. intros l0 [H0 _].
  eapply returns_bind; [apply Linear_init_returns|]. intros l2 [H2 _].
  eapply returns_bind; [apply Dropout_init_zero_returns|]. intros d _.
  apply returns_ret. now split.
Qed.

Lemma MultiHeadAttention_init_returns num_heads head_size n_embd :
  returns (MultiHeadAttention.init num_heads head_size n_embd fzero)
    (wf_MultiHeadAttention num_heads head_size n_embd).
Proof.
  unfold MultiHeadAttention.init.
  eapply returns_bind.
  { apply (returns_mapM (fun _ : nat => Head.init head_size n_embd fzero)
             (wf_Head n_embd head_size)).
    apply Forall_forall. intros ? _. apply Head_init_returns. }
  intros heads [Hlen Hheads]. rewrite length_seq in Hlen.
  eapply returns_bind; [apply Linear_init_returns|]. intros proj [Hproj _].
  eapply returns_bind; [apply Dropout_init_zero_returns|]. intros d _.
  apply returns_ret. split; [|split]; assumption.
Qed.

Lemma LayerNorm_init_wf n : wf_LayerNorm n (LayerNorm.init (F:=F) n).
Proof. now repeat split. Qed.

Lemma floordiv_returns a b :
  (0 < b)%nat -> returns (rng:=rng) (lift (floordiv a b)) (fun r => r = (a / b)%nat).
Proof. intros Hb. apply returns_lift_eq. destruct b; [lia | reflexivity]. Qed.

Lemma Block_init_returns n_head head_size n_embd :
  (0 < n_head)%nat ->
  returns (Block.init n_head head_size n_embd) (wf_Block n_head n_embd).
Proof.
  intros Hnh. unfold Block.init.
  eapply returns_bind; [now apply floordiv_returns|]. intros ? ->.
  eapply returns_bind; [apply MultiHeadAttention_init_returns|]. intros sa Hsa.
  eapply returns_bind; [apply FeedFoward_init_returns|]. intros ff Hff.
  apply returns_ret. unfold wf_Block. cbn [Block.sa Block.ffwd Block.ln1 Block.ln2].
  auto 8 using LayerNorm_init_wf.
Qed.

Lemma SimpleSelfAttentionModel_init_returns output_size (embeddings : tensor F)
    max_length num dim :
  shape embeddings = [num; dim] ->
  returns (SimpleSelfAttentionModel.init output_size embeddings max_length)
    (wf_SimpleSelfAttentionModel output_size num dim max_length).
Proof.
  intros Hemb. unfold SimpleSelfAttentionModel.init.
  eapply returns_bind.
  { apply (returns_lift_eq _ (num, dim)). unfold shape2. now rewrite Hemb. }
  intros ? ->. unfold Embedding.init at 1.
  eapply returns_bind.
  { eapply returns_bind; [apply returns_fresh|]. intros w _.
    apply (returns_ret _ (fun _ => True)). exact I. }
  intros _ _.
  eapply returns_bind.
  { unfold Embedding.from_pretrained. rewrite Hemb.
    apply (returns_ret _ (wf_Embedding num dim)). exact Hemb. }
  intros tok Htok.
  eapply returns_bind.
  { unfold Embedding.init. eapply returns_bind; [apply returns_fresh|].
    intros w Hw. apply (returns_ret _ (wf_Embedding max_length dim)). exact Hw. }
  intros pos Hpos. rewrite Nat.div_1_r.
  eapply returns_bind; [apply Head_init_returns|]. intros sa Hsa.
  eapply returns_bind; [apply FeedFoward_init_returns|]. intros ff Hff.
  eapply returns_bind; [apply Linear_init_returns|]. intros out [Hout _].
  apply returns_ret. unfold wf_SimpleSelfAttentionModel.
  repeat (split; [first [assumption | apply LayerNorm_init_wf | reflexivity]|]).
  assumption.
Qed.

Lemma MultiHeadAttentionModel_init_returns output_size (embeddings : tensor F)
    max_length n_head num dim :
  shape embeddings = [num; dim] -> (0 < n_head)%nat ->
  returns (MultiHeadAttentionModel.init output_size embeddings max_length n_head)
    (wf_MultiHeadAttentionModel output_size num dim max_length n_head).
Proof.
  intros Hemb Hnh. unfold MultiHeadAttentionModel.init.
  eapply returns_bind.
  { apply (returns_lift_eq _ (num, dim)). unfold shape2. now rewrite Hemb. }
  intros ? ->.
  eapply returns_bind; [now apply floordiv_returns|]. intros ? ->.
  unfold Embedding.init at 1.
  eapply returns_bind.
  { eapply returns_bind; [apply returns_fresh|]. intros w _.
    apply (returns_ret _ (fun _ => True)). exact I. }
  intros _ _.
  eapply returns_bind.
  { unfold Embedding.from_pretrained. rewrite Hemb.
    apply (returns_ret _ (wf_Embedding num dim)). exact Hemb. }
  intros tok Htok.
  eapply returns_bind.
  { unfold Embedding.init. eapply returns_bind; [apply returns_fresh|].
    intros w Hw. apply (returns_ret _ (wf_Embedding max_length dim)). exact Hw. }
  intros pos Hpos.
  eapply returns_bind; [apply MultiHeadAttention_init_returns|]. intros sa Hsa.
  eapply returns_bind; [apply FeedFoward_init_returns|]. intros ff Hff.
  eapply returns_bind; [apply Linear_init_returns|]. intros out [Hout _].
  apply returns_ret. unfold wf_MultiHeadAttentionModel.
  repeat (split; [first [assumption | apply LayerNorm_init_wf | reflexivity]|]).
  assumption.
Qed.

Lemma TransformerEncoderModel_init_returns output_size (embeddings : tensor F)
    max_length n_head n_layer num dim :
  shape embeddings = [num; dim] -> (0 < n_head)%nat ->
  returns (TransformerEncoderModel.init output_size embeddings max_length n_head n_layer)
    (wf_TransformerEncoderModel output_size num dim max_length n_head n_layer).
Proof.
  intros Hemb Hnh. unfold TransformerEncoderModel.init.
  eapply returns_bind.
  { apply (returns_lift_eq _ (num, dim)). unfold shape2. now rewrite Hemb. }
  intros ? ->. unfold Embedding.init at 1.
  eapply returns_bind.
  { eapply returns_bind; [apply returns_fresh|]. intros w _.
    apply (returns_ret _ (fun _ => True)). exact I. }
  intros _ _.
  eapply returns_bind.
  { unfold Embedding.from_pretrained. rewrite Hemb.
    apply (returns_ret _ (wf_Embedding num dim)). exact Hemb. }
  intros tok Htok.
  eapply returns_bind.
  { unfold Embedding.init. eapply returns_bind; [apply returns_fresh|].
    intros w Hw. apply (returns_ret _ (wf_Embedding max_length dim)). exact Hw. }
  intros pos Hpos.
  eapply returns_bind; [now apply floordiv_returns|]. intros ? ->.
  eapply returns_bind.
  { apply (returns_mapM (fun _ : nat => Block.init n_head (dim / n_head) dim)
             (wf_Block n_head dim)).
    apply Forall_forall. intros ? _. now apply Block_init_returns. }
  intros blocks [Hlen Hblocks]. rewrite length_seq in Hlen.
  eapply returns_bind; [apply Linear_init_returns|]. intros out [Hout _].
  apply returns_ret. unfold wf_TransformerEncoderModel.
  repeat (split; [first [assumption | apply LayerNorm_init_wf | reflexivity]|]).
  assumption.
Qed.

(** *** Single-head attention *)

Lemma softmax_eq (a : tensor F) s n :
  shape a = s ++ [n] ->
  softmax a
  = Some (mk (shape a)
            (fun i => fdiv (fexp (elem a i))
                        (fsum (map (fun j => fexp (elem a (front i ++ [j])))
                                   (seq 0 n))))).
Proof. intros Ha. unfold softmax. now rewrite Ha, unsnoc_app. Qed.

Lemma dropout_off p training (x : tensor F) (g : rng) :
  training && negb (fis_zero p) = false -> dropout p training x g = Some (x, g).
Proof. intros H. unfold dropout. now rewrite H. Qed.

Lemma dropout_on p training (x : tensor F) (g : rng) :
  training && negb (fis_zero p) = true ->
  dropout p training x g
  = Some (mk (shape x) (fun i => fmul (elem x i) (fst (rng_dropout g p (shape x)) i)),
          snd (rng_dropout g p (shape x))).
Proof.
  intros H. unfold dropout. rewrite H.
  now destruct (rng_dropout g p (shape x)).
Qed.

Lemma valid3_inv B T C i :
  valid [B; T; C] i ->
  exists b t c, i = [b; t; c] /\ (b < B)%nat /\ (t < T)%nat /\ (c < C)%nat.
Proof.
  intros H. inversion H as [|b ? i1 ? Hb H1]; subst.
  inversion H1 as [|t ? i2 ? Ht H2]; subst.
  inversion H2 as [|c ? i3 ? Hc H3]; subst.
  inversion H3; subst. now exists b, t, c.
Qed.

(** C4: [Head.forward] is scaled dot-product attention: the scores are
    the products of the query and key projections scaled by
    [C ** -0.5] for [C] the number of channels of the input (whatever
    the head size), every row of scores goes through a softmax, then
    through dropout, and the output is the sum of the value projections
    weighted by the result. *)
Theorem Head_forward_is_scaled_dot_product_attention
    (n_embd head_size : nat) (self : Head.t (F:=F)) (x : tensor F) (B T : nat) (g : rng) :
  wf_Head n_embd head_size self -> shape x = [B; T; n_embd] -> (0 < n_embd)%nat ->
  exists out out' g',
    Head.forward self x g = Some (out, g')
    /\ scaled_dot_product_attention head_size self x g = Some (out', g')
    /\ teq out out'.
Proof.
  intros ((Hk & Hkb) & (Hq & Hqb) & (Hv & Hvb)) Hx HC.
  destruct Hk as [Hk _], Hq as [Hq _], Hv as [Hv _].
  assert (Hscale : pow_neg_half n_embd = Some (fpow (of_nat n_embd) neg_half))
    by (destruct n_embd; [lia | reflexivity]).
  unfold Head.forward, scaled_dot_product_attention, Linear.forward,
    Dropout.forward.
  rewrite Hkb, Hqb, Hvb, Hx.
  rewrite (bind_eq _ _ g (B, T, n_embd) g)
    by (apply lift_eq; unfold shape3; now rewrite Hx).
  cbv beta iota zeta.
  rewrite (bind_eq _ _ g _ g
             (lift_eq _ _ g (linear_ok _ None x head_size n_embd [B; T] Hk Hx I))).
  rewrite (bind_eq _ _ g _ g
             (lift_eq _ _ g (linear_ok _ None x head_size n_embd [B; T] Hq Hx I))).
  erewrite bind_eq
    by (apply lift_eq; apply (transpose_ok _ [B] T head_size); reflexivity).
  erewrite bind_eq
    by (apply lift_eq; apply (matmul_ok _ _ [B] T head_size T); reflexivity).
  rewrite (bind_eq _ _ g _ g (lift_eq _ _ g Hscale)).
  erewrite bind_eq
    by (apply lift_eq; apply (softmax_eq _ [B; T] T); reflexivity).
  destruct (Dropout.training (Head.dropout self)
            && negb (fis_zero (Dropout.p (Head.dropout self)))) eqn:Hdrop.
  - erewrite bind_eq by (apply dropout_on; exact Hdrop).
    rewrite (bind_eq _ _ _ _ _
               (lift_eq _ _ _ (linear_ok _ None x head_size n_embd [B; T] Hv Hx I))).
    erewrite bind_eq
      by (apply lift_eq; apply (matmul_ok _ _ [B] T T head_size); reflexivity).
    erewrite bind_eq by (apply dropout_on; exact Hdrop).
    eexists _, _, _. split; [reflexivity|]. split; [reflexivity|].
    split; [reflexivity|]. intros i Hi.
    apply valid3_inv in Hi as (b & t & h & -> & _). reflexivity.
  - erewrite bind_eq by (apply dropout_off; exact Hdrop).
    rewrite (bind_eq _ _ _ _ _
               (lift_eq _ _ _ (linear_ok _ None x head_size n_embd [B; T] Hv Hx I))).
    erewrite bind_eq
      by (apply lift_eq; apply (matmul_ok _ _ [B] T T head_size); reflexivity).
    erewrite bind_eq by (apply dropout_off; exact Hdrop).
    eexists _, _, _. split; [reflexivity|]. split; [reflexivity|].
    split; [reflexivity|]. intros i Hi.
    apply valid3_inv in Hi as (b & t & h & -> & _). reflexivity.
Qed.

(** *** The transformer block *)

Lemma Block_forward_unfold (self : Block.t (F:=F)) (x : tensor F) (g : rng) :
  Block.forward self x g
  = pre_norm_residual (LayerNorm.forward (Block.ln1 self))
      (LayerNorm.forward (Block.ln2 self))
      (MultiHeadAttention.forward (Block.sa self))
      (FeedFoward.forward (Block.ffwd self)) x g.
Proof.
  unfold Block.forward, pre_norm_residual, mbind, M_bind, bind.
  destruct (LayerNorm.forward (Block.ln1 self) x g) as [[n1 g0]|]; [|reflexivity].
  destruct (MultiHeadAttention.forward (Block.sa self) n1 g0) as [[a g1]|];
    [|reflexivity].
  destruct (lift (add x a) g1) as [[x1 g1']|]; [|reflexivity].
  destruct (LayerNorm.forward (Block.ln2 self) x1 g1') as [[n2 g1'']|]; [|reflexivity].
  destruct (FeedFoward.forward (Block.ffwd self) n2 g1'') as [[f g2]|]; [|reflexivity].
  destruct (lift (add x1 f) g2) as [[x2 g2']|]; reflexivity.
Qed.

(** C5: [Block.forward] is the pre-norm residual composition. It is
    [x + attention(norm1(x))] followed by the addition of
    [feedforward(norm2(.))] of that sum; on an input of shape
    [(B, T, n_embd)] it returns, and every element of the output is
    [x + a + f] for [a] the attention of the normalised input and [f]
    the feed-forward of the normalised [x + a]: each normalisation
    feeds a sub-layer, and nothing is normalised after it. *)
Theorem Block_forward_is_pre_norm_residual
    (self : Block.t (F:=F)) (x : tensor F) (g : rng) :
  Block.forward self x g
  = pre_norm_residual (LayerNorm.forward (Block.ln1 self))
      (LayerNorm.forward (Block.ln2 self))
      (MultiHeadAttention.forward (Block.sa self))
      (FeedFoward.forward (Block.ffwd self)) x g
  /\ forall n_head n_embd B T,
       wf_Block n_head n_embd self -> (0 < n_embd)%nat ->
       shape x = [B; T; n_embd] ->
       exists n1 a x1 n2 f out g1 g2,
         LayerNorm.forward (Block.ln1 self) x g = Some (n1, g)
         /\ MultiHeadAttention.forward (Block.sa self) n1 g = Some (a, g1)
         /\ add x a = Some x1
         /\ LayerNorm.forward (Block.ln2 self) x1 g1 = Some (n2, g1)
         /\ FeedFoward.forward (Block.ffwd self) n2 g1 = Some (f, g2)
         /\ add x1 f = Some out
         /\ Block.forward self x g = Some (out, g2)
         /\ shape out = [B; T; n_embd]
         /\ forall i, valid [B; T; n_embd] i ->
              elem out i = fadd (fadd (elem x i) (elem a i)) (elem f i).
Proof.
  split; [apply Block_forward_unfold|].
  intros n_head n_embd B T (Hnh & Hsa & Hff & Hln1 & Hln2) HC Hx.
  destruct (LayerNorm_forward_returns n_embd _ x [B; T] Hln1 Hx g)
    as (n1 & g0 & Hn1 & Hn1s).
  assert (g0 = g) as -> by (now apply lift_inv in Hn1).
  rewrite Hx in Hn1s.
  destruct (MultiHeadAttention_forward_returns _ _ _ _ n1 B T Hsa Hnh HC Hn1s g)
    as (a & g1 & Ha & Has).
  destruct (add_same_ok x a) as (x1 & Hadd1 & Hx1s & Hx1e); [congruence|].
  rewrite Hx in Hx1s, Hx1e.
  destruct (LayerNorm_forward_returns n_embd _ x1 [B; T] Hln2 Hx1s g1)
    as (n2 & g1' & Hn2 & Hn2s).
  assert (g1' = g1) as -> by (now apply lift_inv in Hn2).
  rewrite Hx1s in Hn2s.
  destruct (FeedFoward_forward_returns n_embd _ n2 [B; T] Hff Hn2s g1)
    as (f & g2 & Hf & Hfs).
  destruct (add_same_ok x1 f) as (out & Hadd2 & Houts & Houte);
    [now rewrite Hx1s, Hfs|].
  rewrite Hx1s in Houts, Houte.
  exists n1, a, x1, n2, f, out, g1, g2.
  repeat (split; [assumption|]). split; [|split; [assumption|]].
  - unfold Block.forward.
    rewrite (bind_eq _ _ _ _ _ Hn1), (bind_eq _ _ _ _ _ Ha).
    rewrite (bind_eq _ _ _ _ _ (lift_eq _ _ g1 Hadd1)).
    rewrite (bind_eq _ _ _ _ _ Hn2), (bind_eq _ _ _ _ _ Hf).
    rewrite (bind_eq _ _ _ _ _ (lift_eq _ _ g2 Hadd2)). reflexivity.
  - intros i Hi. now rewrite (Houte i Hi), (Hx1e i Hi).
Qed.

(** *** The whole forward pass of [MultiHeadAttentionModel] *)

(** What a head computes, for use on the heads of a model. *)
Lemma Head_forward_refines
    (n_embd head_size : nat) (self : Head.t (F:=F)) (x : tensor F) (B T : nat) (g : rng) :
  wf_Head n_embd head_size self -> shape x = [B; T; n_embd] -> (0 < n_embd)%nat ->
  exists out out' g',
    Head.forward self x g = Some (out, g')
    /\ scaled_dot_product_attention head_size self x g = Some (out', g')
    /\ teq out out'.
Proof.
  intros ((Hk & Hkb) & (Hq & Hqb) & (Hv & Hvb)) Hx HC.
  destruct Hk as [Hk _], Hq as [Hq _], Hv as [Hv _].
  assert (Hscale : pow_neg_half n_embd = Some (fpow (of_nat n_embd) neg_half))
    by (destruct n_embd; [lia | reflexivity]).
  unfold Head.forward, scaled_dot_product_attention, Linear.forward,
    Dropout.forward.
  rewrite Hkb, Hqb, Hvb, Hx.
  rewrite (bind_eq _ _ g (B, T, n_embd) g)
    by (apply lift_eq; unfold shape3; now rewrite Hx).
  cbv beta iota zeta.
  rewrite (bind_eq _ _ g _ g
             (lift_eq _ _ g (linear_ok _ None x head_size n_embd [B; T] Hk Hx I))).
  rewrite (bind_eq _ _ g _ g
             (lift_eq _ _ g (linear_ok _ None x head_size n_embd [B; T] Hq Hx I))).
  erewrite bind_eq
    by (apply lift_eq; apply (transpose_ok _ [B] T head_size); reflexivity).
  erewrite bind_eq
    by (apply lift_eq; apply (matmul_ok _ _ [B] T head_size T); reflexivity).
  rewrite (bind_eq _ _ g _ g (lift_eq _ _ g Hscale)).
  erewrite bind_eq
    by (apply lift_eq; apply (softmax_eq _ [B; T] T); reflexivity).
  destruct (Dropout.training (Head.dropout self)
            && negb (fis_zero (Dropout.p (Head.dropout self)))) eqn:Hdrop.
  - erewrite bind_eq by (apply dropout_on; exact Hdrop).
    rewrite (bind_eq _ _ _ _ _
               (lift_eq _ _ _ (linear_ok _ None x head_size n_embd [B; T] Hv Hx I))).
    erewrite bind_eq
      by (apply lift_eq; apply (matmul_ok _ _ [B] T T head_size); reflexivity).
    erewrite bind_eq by (apply dropout_on; exact Hdrop).
    eexists _, _, _. split; [reflexivity|]. split; [reflexivity|].
    split; [reflexivity|]. intros i Hi.
    apply valid3_inv in Hi as (b & t & h & -> & _). reflexivity.
  - erewrite bind_eq by (apply dropout_off; exact Hdrop).
    rewrite (bind_eq _ _ _ _ _
               (lift_eq _ _ _ (linear_ok _ None x head_size n_embd [B; T] Hv Hx I))).
    erewrite bind_eq
      by (apply lift_eq; apply (matmul_ok _ _ [B] T T head_size); reflexivity).
    erewrite bind_eq by (apply dropout_off; exact Hdrop).
    eexists _, _, _. split; [reflexivity|]. split; [reflexivity|].
    split; [reflexivity|]. intros i Hi.
    apply valid3_inv in Hi as (b & t & h & -> & _). reflexivity.
Qed.

Lemma embedding_ok_elem (table : tensor F) (x : tensor Z) num dim :
  shape table = [num; dim] -> ids_below num x ->
  exists r, embedding table x = Some r /\ shape r = shape x ++ [dim]
    /\ forall i, elem r i = elem table [Z.to_nat (elem x (front i)); final i].
Proof.
  intros Ht Hx. unfold embedding. rewrite Ht.
  assert (Hall : forallb (fun i => (0 <=? elem x i) && (elem x i <? Z.of_nat num))
                   (indices (shape x)) = true).
  { apply forallb_forall. intros i Hi.
    destruct (Hx i (indices_valid _ _ Hi)) as [Hlo Hhi].
    apply andb_true_iff. split; [now apply Z.leb_le | now apply Z.ltb_lt]. }
  rewrite Hall. eexists. split; [reflexivity|]. split; reflexivity.
Qed.

Lemma add_rows_ok_elem (a b : tensor F) B T C :
  shape a = [B; T; C] -> shape b = [T; C] ->
  exists r, add a b = Some r /\ shape r = [B; T; C]
    /\ forall i t c, (i < B)%nat -> (t < T)%nat -> (c < C)%nat ->
         elem r [i; t; c] = fadd (elem a [i; t; c]) (elem b [t; c]).
Proof.
  intros Ha Hb. unfold add. rewrite Ha, Hb. cbn.
  rewrite !Nat.eqb_refl. cbn. eexists. split; [reflexivity|]. split; [reflexivity|].
  intros i t c Hi Ht Hc. cbn. unfold broadcast_index. cbn.
  destruct (Nat.eqb_spec C 1), (Nat.eqb_spec T 1), (Nat.eqb_spec B 1); cbn;
    repeat match goal with
           | H : (?n < 1)%nat |- _ => assert (n = 0%nat) as -> by lia; clear H
           | H1 : ?m = 1%nat, H2 : (?n < ?m)%nat |- _ => rewrite H1 in H2
           end;
    reflexivity.
Qed.

Lemma mean1_eq (a : tensor F) B T C :
  shape a = [B; T; C] ->
  exists r, mean1 a = Some r /\ shape r = [B; C]
    /\ forall i c, elem r [i; c]
         = fdiv (fsum (map (fun t => elem a [i; t; c]) (seq 0 T))) (of_nat T).
Proof.
  intros Ha. unfold mean1. rewrite Ha. eexists. split; [reflexivity|].
  split; reflexivity.
Qed.

(** C9: [MultiHeadAttentionModel.forward] does not look at [lengths]:
    whatever is passed for it, [None] included, the same input gives
    the same outcome. On a batch the model accepts, the logits are the
    same for any two values of [lengths], and they are those of the
    pass in which every one of the [T] positions, padded or not, takes
    part like any other: each is embedded (token plus position), every
    head is scaled dot-product attention of the whole normalised
    sequence, the residual sums are taken at every position, and the
    pooling is the sum over all [T] positions divided by [T]. *)
Theorem MultiHeadAttentionModel_forward_ignores_lengths
    (self : MultiHeadAttentionModel.t (F:=F)) (x : tensor Z)
    (l1 l2 : option (tensor Z)) (g : rng) :
  MultiHeadAttentionModel.forward self x l1 g
  = MultiHeadAttentionModel.forward self x l2 g
  /\ forall output_size num dim max_length n_head B T,
       wf_MultiHeadAttentionModel output_size num dim max_length n_head self ->
       (0 < dim)%nat -> shape x = [B; T] -> (T <= max_length)%nat ->
       ids_below num x ->
       exists tok_emb pos_emb e n1 a x1 n2 f x2 pooled scores logits g1 g2,
         Embedding.forward (MultiHeadAttentionModel.token_embedding_table self) x g
         = Some (tok_emb, g)
         /\ Embedding.forward (MultiHeadAttentionModel.position_embedding_table self)
              (arange T) g = Some (pos_emb, g)
         /\ add tok_emb pos_emb = Some e
         /\ (forall i t c, (i < B)%nat -> (t < T)%nat -> (c < dim)%nat ->
               elem e [i; t; c]
               = fadd (elem (Embedding.weight
                               (MultiHeadAttentionModel.token_embedding_table self))
                         [Z.to_nat (elem x [i; t]); c])
                      (elem (Embedding.weight
                               (MultiHeadAttentionModel.position_embedding_table self))
                         [t; c]))
         /\ LayerNorm.forward (MultiHeadAttentionModel.ln1 self) e g = Some (n1, g)
         /\ shape n1 = [B; T; dim]
         /\ MultiHeadAttention.forward (MultiHeadAttentionModel.sa self) n1 g
            = Some (a, g1)
         /\ Forall (fun h => forall gi, exists o o' gi',
                      Head.forward h n1 gi = Some (o, gi')
                      /\ scaled_dot_product_attention (dim / n_head) h n1 gi
                         = Some (o', gi')
                      /\ teq o o')
                   (MultiHeadAttention.heads (MultiHeadAttentionModel.sa self))
         /\ add e a = Some x1
         /\ LayerNorm.forward (MultiHeadAttentionModel.ln2 self) x1 g1 = Some (n2, g1)
         /\ FeedFoward.forward (MultiHeadAttentionModel.ffwd self) n2 g1 = Some (f, g2)
         /\ add x1 f = Some x2
         /\ (forall i t c, (i < B)%nat -> (t < T)%nat -> (c < dim)%nat ->
               elem x2 [i; t; c]
               = fadd (fadd (elem e [i; t; c]) (elem a [i; t; c])) (elem f [i; t; c]))
         /\ mean1 x2 = Some pooled
         /\ (forall i c,
               elem pooled [i; c]
               = fdiv (fsum (map (fun t => elem x2 [i; t; c]) (seq 0 T))) (of_nat T))
         /\ Linear.forward (MultiHeadAttentionModel.output self) pooled g2
            = Some (scores, g2)
         /\ (if Nat.eqb output_size 1 then squeeze1 scores = Some logits
             else logits = scores)
         /\ MultiHeadAttentionModel.forward self x l1 g = Some (logits, g2)
         /\ MultiHeadAttentionModel.forward self x l2 g = Some (logits, g2)
         /\ batch_logits output_size B logits.
Proof.
  split; [reflexivity|].
  intros output_size num dim max_length n_head B T
    (Hnh & Htok & Hpos & Hsa & Hff & Hln1 & Hln2 & Hos & Hout) Hdim Hx HT Hids.
  destruct (embedding_ok_elem _ x num dim Htok Hids) as (tok_emb & Htk & Htks & Htke).
  rewrite Hx in Htks.
  destruct (embedding_ok_elem _ (arange T) max_length dim Hpos
              (arange_ids_below _ _ HT)) as (pos_emb & Hps & Hpss & Hpse).
  destruct (add_rows_ok_elem tok_emb pos_emb B T dim Htks Hpss)
    as (e & Hadd0 & Hes & Hee).
  destruct Hln1 as (Hn1 & Hg1 & Hb1). destruct Hln2 as (Hn2 & Hg2 & Hb2).
  pose proof (layer_norm_ok dim _ _ (LayerNorm.eps (MultiHeadAttentionModel.ln1 self))
                e [B; T] Hg1 Hb1 Hes) as Hnorm1.
  set (n1 := mk (shape e) (layer_norm_elem dim
                 (LayerNorm.weight (MultiHeadAttentionModel.ln1 self))
                 (LayerNorm.bias (MultiHeadAttentionModel.ln1 self))
                 (LayerNorm.eps (MultiHeadAttentionModel.ln1 self)) e)) in Hnorm1.
  assert (Hn1s : shape n1 = [B; T; dim]) by exact Hes.
  destruct (MultiHeadAttention_forward_returns _ _ _ _ n1 B T Hsa Hnh Hdim Hn1s g)
    as (a & g1 & Ha & Has).
  destruct (add_same_ok e a) as (x1 & Hadd1 & Hx1s & Hx1e); [congruence|].
  rewrite Hes in Hx1s, Hx1e.
  pose proof (layer_norm_ok dim _ _ (LayerNorm.eps (MultiHeadAttentionModel.ln2 self))
                x1 [B; T] Hg2 Hb2 Hx1s) as Hnorm2.
  set (n2 := mk (shape x1) (layer_norm_elem dim
                 (LayerNorm.weight (MultiHeadAttentionModel.ln2 self))
                 (LayerNorm.bias (MultiHeadAttentionModel.ln2 self))
                 (LayerNorm.eps (MultiHeadAttentionModel.ln2 self)) x1)) in Hnorm2.
  assert (Hn2s : shape n2 = [B; T] ++ [dim]) by exact Hx1s.
  destruct (FeedFoward_forward_returns dim _ n2 [B; T] Hff Hn2s g1)
    as (f & g2 & Hf & Hfs).
  destruct (add_same_ok x1 f) as (x2 & Hadd2 & Hx2s & Hx2e); [now rewrite Hx1s, Hfs|].
  rewrite Hx1s in Hx2s, Hx2e.
  destruct (mean1_eq x2 B T dim Hx2s) as (pooled & Hmean & Hpooled & Hpe).
  destruct Hout as [HoW Hob].
  pose proof (linear_ok _ _ pooled output_size dim [B] HoW Hpooled Hob) as Hlin.
  set (scores := mk ([B] ++ [output_size])
                    (linear_elem (Linear.weight (MultiHeadAttentionModel.output self))
                       (Linear.bias (MultiHeadAttentionModel.output self)) pooled dim))
    in Hlin.
  assert (Hlogits : exists logits,
             (if Nat.eqb output_size 1 then squeeze1 scores = Some logits
              else logits = scores)
             /\ (if Nat.eqb output_size 1 then lift (squeeze1 scores) else mret scores) g2
                = Some (logits, g2)
             /\ batch_logits output_size B logits).
  { destruct (Nat.eqb_spec output_size 1) as [->|Hne].
    - eexists. split; [reflexivity|]. split; [reflexivity|].
      split; [reflexivity | congruence].
    - exists scores. split; [reflexivity|]. split; [reflexivity|].
      split; [congruence | now intros _]. }
  destruct Hlogits as (logits & Hsq & Hfin & Hbatch).
  assert (Hrun : forall l, MultiHeadAttentionModel.forward self x l g = Some (logits, g2)).
  { intros l. unfold MultiHeadAttentionModel.forward, Embedding.forward,
      LayerNorm.forward, Linear.forward.
    rewrite (bind_eq _ _ g (B, T) g) by (apply lift_eq; unfold shape2; now rewrite Hx).
    cbv beta iota.
    rewrite (bind_eq _ _ _ _ _ (lift_eq _ _ g Htk)).
    rewrite (bind_eq _ _ _ _ _ (lift_eq _ _ g Hps)).
    rewrite (bind_eq _ _ _ _ _ (lift_eq _ _ g Hadd0)).
    rewrite Hn1, (bind_eq _ _ _ _ _ (lift_eq _ _ g Hnorm1)).
    rewrite (bind_eq _ _ _ _ _ Ha).
    rewrite (bind_eq _ _ _ _ _ (lift_eq _ _ g1 Hadd1)).
    rewrite Hn2, (bind_eq _ _ _ _ _ (lift_eq _ _ g1 Hnorm2)).
    rewrite (bind_eq _ _ _ _ _ Hf).
    rewrite (bind_eq _ _ _ _ _ (lift_eq _ _ g2 Hadd2)).
    rewrite (bind_eq _ _ _ _ _ (lift_eq _ _ g2 Hmean)).
    rewrite (bind_eq _ _ _ _ _ (lift_eq _ _ g2 Hlin)).
    rewrite Hos. exact Hfin. }
  exists tok_emb, pos_emb, e, n1, a, x1, n2, f, x2, pooled, scores, logits, g1, g2.
  split; [exact (lift_eq _ _ g Htk)|].
  split; [exact (lift_eq _ _ g Hps)|].
  split; [exact Hadd0|].
  split.
  { intros i t c Hi Ht Hc. rewrite (Hee i t c Hi Ht Hc), Htke, Hpse.
    cbn. now rewrite Nat2Z.id. }
  split; [unfold LayerNorm.forward; rewrite Hn1; exact (lift_eq _ _ g Hnorm1)|].
  split; [exact Hn1s|].
  split; [exact Ha|].
  split.
  { destruct Hsa as (_ & Hheads & _). eapply Forall_impl; [exact Hheads|].
    intros h Hh gi. exact (Head_forward_refines dim (dim / n_head) h n1 B T gi Hh Hn1s Hdim). }
  split; [exact Hadd1|].
  split; [unfold LayerNorm.forward; rewrite Hn2; exact (lift_eq _ _ g1 Hnorm2)|].
  split; [exact Hf|].
  split; [exact Hadd2|].
  split.
  { intros i t c Hi Ht Hc.
    assert (Hv : valid [B; T; dim] [i; t; c]) by (repeat constructor; assumption).
    now rewrite (Hx2e _ Hv), (Hx1e _ Hv). }
  split; [exact Hmean|].
  split; [exact Hpe|].
  split; [exact (lift_eq _ _ g2 Hlin)|].
  split; [exact Hsq|].
  split; [apply Hrun|]. split; [apply Hrun | exact Hbatch].
Qed.

End Returns.

(** *** The theorems at work on the sample data *)

Lemma sample_batch_ids : ids_below 3 sample_batch.
Proof. intros i _. cbn. apply Z.mod_pos_bound. lia. Qed.

Lemma sample_head_wf : wf_Head 2 2 (sample_head 2).
Proof. unfold wf_Head, wf_Linear. cbn. auto 10. Qed.

Lemma sample_block_wf : wf_Block 2 2 sample_block.
Proof.
  unfold wf_Block, wf_MultiHeadAttention, wf_FeedFoward, wf_LayerNorm, wf_Linear.
  cbn. repeat split; try lia.
  repeat constructor.
Qed.

Lemma Head_forward_is_scaled_dot_product_attention_witness :
  exists out out' g',
    Head.forward (sample_head 2) sample_input 0%nat = Some (out, g')
    /\ scaled_dot_product_attention 2 (sample_head 2) sample_input 0%nat
       = Some (out', g')
    /\ teq out out'.
Proof.
  apply (Head_forward_is_scaled_dot_product_attention 2 2 (sample_head 2)
           sample_input 2 3 0%nat).
  - exact sample_head_wf.
  - reflexivity.
  - lia.
Defined.

Lemma Block_forward_is_pre_norm_residual_witness :
  exists n1 a x1 n2 f out g1 g2,
    LayerNorm.forward (Block.ln1 sample_block) sample_input 0%nat = Some (n1, 0%nat)
    /\ MultiHeadAttention.forward (Block.sa sample_block) n1 0%nat = Some (a, g1)
    /\ add sample_input a = Some x1
    /\ LayerNorm.forward (Block.ln2 sample_block) x1 g1 = Some (n2, g1)
    /\ FeedFoward.forward (Block.ffwd sample_block) n2 g1 = Some (f, g2)
    /\ add x1 f = Some out
    /\ Block.forward sample_block sample_input 0%nat = Some (out, g2)
    /\ shape out = [2; 3; 2]%nat
    /\ forall i, valid [2; 3; 2]%nat i ->
         elem out i = fadd (fadd (elem sample_input i) (elem a i)) (elem f i).
Proof.
  apply (proj2 (Block_forward_is_pre_norm_residual sample_block sample_input 0%nat)
           2%nat 2%nat 2%nat 3%nat).
  - exact sample_block_wf.
  - lia.
  - reflexivity.
Defined.

Lemma sample_multi_head_model_wf :
  wf_MultiHeadAttentionModel 1 3 2 60 2 sample_multi_head_model.
Proof.
  unfold wf_MultiHeadAttentionModel. split; [lia|].
  repeat (split; [first [reflexivity | apply LayerNorm_init_wf | apply sample_block_wf]|]).
  now split.
Qed.

Lemma MultiHeadAttentionModel_forward_ignores_lengths_witness :
  exists tok_emb pos_emb e n1 a x1 n2 f x2 pooled scores logits g1 g2,
    Embedding.forward (MultiHeadAttentionModel.token_embedding_table sample_multi_head_model)
      sample_batch 0%nat = Some (tok_emb, 0%nat)
    /\ Embedding.forward
         (MultiHeadAttentionModel.position_embedding_table sample_multi_head_model)
         (arange 3) 0%nat = Some (pos_emb, 0%nat)
    /\ add tok_emb pos_emb = Some e
    /\ (forall i t c, (i < 2)%nat -> (t < 3)%nat -> (c < 2)%nat ->
          elem e [i; t; c]
          = fadd (elem (Embedding.weight
                          (MultiHeadAttentionModel.token_embedding_table
                             sample_multi_head_model))
                    [Z.to_nat (elem sample_batch [i; t]); c])
                 (elem (Embedding.weight
                          (MultiHeadAttentionModel.position_embedding_table
                             sample_multi_head_model))
                    [t; c]))
    /\ LayerNorm.forward (MultiHeadAttentionModel.ln1 sample_multi_head_model) e 0%nat
       = Some (n1, 0%nat)
    /\ shape n1 = [2; 3; 2]%nat
    /\ MultiHeadAttention.forward (MultiHeadAttentionModel.sa sample_multi_head_model)
         n1 0%nat = Some (a, g1)
    /\ Forall (fun h => forall gi, exists o o' gi',
                 Head.forward h n1 gi = Some (o, gi')
                 /\ scaled_dot_product_attention (2 / 2) h n1 gi = Some (o', gi')
                 /\ teq o o')
              (MultiHeadAttention.heads (MultiHeadAttentionModel.sa sample_multi_head_model))
    /\ add e a = Some x1
    /\ LayerNorm.forward (MultiHeadAttentionModel.ln2 sample_multi_head_model) x1 g1
       = Some (n2, g1)
    /\ FeedFoward.forward (MultiHeadAttentionModel.ffwd sample_multi_head_model) n2 g1
       = Some (f, g2)
    /\ add x1 f = Some x2
    /\ (forall i t c, (i < 2)%nat -> (t < 3)%nat -> (c < 2)%nat ->
          elem x2 [i; t; c]
          = fadd (fadd (elem e [i; t; c]) (elem a [i; t; c])) (elem f [i; t; c]))
    /\ mean1 x2 = Some pooled
    /\ (forall i c,
          elem pooled [i; c]
          = fdiv (fsum (map (fun t => elem x2 [i; t; c]) (seq 0 3))) (of_nat 3))
    /\ Linear.forward (MultiHeadAttentionModel.output sample_multi_head_model) pooled g2
       = Some (scores, g2)
    /\ (if Nat.eqb 1 1 then squeeze1 scores = Some logits else logits = scores)
    /\ MultiHeadAttentionModel.forward sample_multi_head_model sample_batch
         None 0%nat = Some (logits, g2)
    /\ MultiHeadAttentionModel.forward sample_multi_head_model sample_batch
         (Some sample_lengths) 0%nat = Some (logits, g2)
    /\ batch_logits 1 2 logits.
Proof.
  apply (proj2 (MultiHeadAttentionModel_forward_ignores_lengths
                  sample_multi_head_model sample_batch None (Some sample_lengths) 0%nat)
           1%nat 3%nat 2%nat 60%nat 2%nat 2%nat 3%nat).
  - exact sample_multi_head_model_wf.
  - lia.
  - reflexivity.
  - lia.
  - exact sample_batch_ids.
Defined.

Lemma classifier_logits_shape_witness :
  (forall m : SimpleSelfAttentionModel.t (F:=Z),
     wf_SimpleSelfAttentionModel 1 3 2 60 m ->
     forall g : nat, exists logits g',
       SimpleSelfAttentionModel.forward m sample_batch g = Some (logits, g')
       /\ (1 = 1 -> shape logits = [2])%nat
       /\ (1 <> 1 -> shape logits = [2; 1])%nat)
  /\ (forall (m : MultiHeadAttentionModel.t (F:=Z)) lengths,
     wf_MultiHeadAttentionModel 1 3 2 60 2 m ->
     forall g : nat, exists logits g',
       MultiHeadAttentionModel.forward m sample_batch lengths g = Some (logits, g')
       /\ (1 = 1 -> shape logits = [2])%nat
       /\ (1 <> 1 -> shape logits = [2; 1])%nat)
  /\ (forall m : TransformerEncoderModel.t (F:=Z),
     wf_TransformerEncoderModel 1 3 2 60 2 2 m ->
     forall g : nat, exists logits g',
       TransformerEncoderModel.forward m sample_batch g = Some (logits, g')
       /\ (1 = 1 -> shape logits = [2])%nat
       /\ (1 <> 1 -> shape logits = [2; 1])%nat).
Proof.
  apply (classifier_logits_shape (F:=Z) (rng:=nat) 1 3 2 60 2 2 2 3 sample_batch).
  - lia.
  - reflexivity.
  - lia.
  - exact sample_batch_ids.
Defined.

(** The three classifiers, built by their constructors and run on the
    sample batch of two sentences: one logit per sentence for an output
    size of 1, three scores per sentence for an output size of 3. *)
Example SimpleSelfAttentionModel_runs :
  shape_of_run (m ← SimpleSelfAttentionModel.init 1 sample_embeddings 60;
                SimpleSelfAttentionModel.forward m sample_batch) = Some [2]%nat
  /\ shape_of_run (m ← SimpleSelfAttentionModel.init 3 sample_embeddings 60;
                   SimpleSelfAttentionModel.forward m sample_batch) = Some [2; 3]%nat.
Proof. split; vm_compute; reflexivity. Qed.

Example MultiHeadAttentionModel_runs :
  shape_of_run (m ← MultiHeadAttentionModel.init 1 sample_embeddings 60 2;
                MultiHeadAttentionModel.forward m sample_batch None) = Some [2]%nat
  /\ shape_of_run (m ← MultiHeadAttentionModel.init 3 sample_embeddings 60 2;
                   MultiHeadAttentionModel.forward m sample_batch (Some sample_batch))
     = Some [2; 3]%nat.
Proof. split; vm_compute; reflexivity. Qed.

Example TransformerEncoderModel_runs :
  shape_of_run (m ← TransformerEncoderModel.init 1 sample_embeddings 60 2 2;
                TransformerEncoderModel.forward m sample_batch) = Some [2]%nat
  /\ shape_of_run (m ← TransformerEncoderModel.init 3 sample_embeddings 60 2 2;
                   TransformerEncoderModel.forward m sample_batch) = Some [2; 3]%nat.
Proof. split; vm_compute; reflexivity. Qed.

End AttentionFacts.

(** ** Further properties of the dataset *)

Module DataloadingExtra.
Import Dataloading DataloadingSpec DataloadingFacts DataloadingMore.

(** *** Indexing *)

Lemma py_getitem_out_of_range {A} (l : list A) (i : Z) :
  Py.len l <= i \/ i < - Py.len l -> Py.getitem l i = None.
Proof.
  intros H. unfold Py.getitem.
  destruct (Z.leb_spec 0 i), (Z.ltb_spec i (Py.len l)); cbn; try lia;
    destruct (Z.leb_spec (- Py.len l) i), (Z.ltb_spec i 0); cbn; try lia;
    reflexivity.
Qed.

Lemma py_getitem_in_range {A} (l : list A) (i : Z) :
  0 <= i < Py.len l -> Py.getitem l i = l !! Z.to_nat i.
Proof.
  intros H. unfold Py.getitem.
  destruct (Z.leb_spec 0 i), (Z.ltb_spec i (Py.len l)); cbn; try lia; reflexivity.
Qed.

Lemma py_getitem_negative {A} (l : list A) (i : Z) :
  - Py.len l <= i < 0 -> Py.getitem l i = Py.getitem l (Py.len l + i).
Proof.
  intros H. rewrite (py_getitem_in_range l (Py.len l + i)) by lia.
  unfold Py.getitem.
  destruct (Z.leb_spec 0 i); [lia|]. cbn.
  destruct (Z.leb_spec (- Py.len l) i), (Z.ltb_spec i 0); cbn; try lia; reflexivity.
Qed.

Lemma py_getitem_Some_range {A} (l : list A) (i : Z) x :
  Py.getitem l i = Some x -> - Py.len l <= i < Py.len l.
Proof.
  intros H. destruct (Z.le_gt_cases (Py.len l) i) as [Hge|Hlt].
  - rewrite py_getitem_out_of_range in H by lia. discriminate.
  - destruct (Z.le_gt_cases (- Py.len l) i) as [Hge'|Hlt']; [lia|].
    rewrite py_getitem_out_of_range in H by lia. discriminate.
Qed.

(** *** What [__getitem__] computes in general *)

Lemma padded_ids_eq (w2i : gmap string Z) (tokens : list string) :
  (let indexed := map (fun word => Py.dict_get w2i word (w2i !! "<unk>"%string)) tokens in
   if Py.len indexed <? MAX_LEN
   then indexed ++ Py.list_mul (Some 0) (MAX_LEN - Py.len indexed)
   else Py.slice_to indexed MAX_LEN)
  = padded_ids w2i tokens.
Proof.
  cbv zeta. unfold padded_ids, Py.list_mul, Py.slice_to, MAX_LEN, Py.len.
  rewrite length_map.
  destruct (Z.ltb_spec (Z.of_nat (length tokens)) 8).
  - rewrite (take_ge tokens 8) by lia. reflexivity.
  - replace (Z.to_nat (8 - Z.of_nat (length tokens))) with 0%nat by lia.
    cbn [replicate]. rewrite app_nil_r.
    change (Z.to_nat 8) with 8%nat. symmetry. apply fmap_take.
Qed.

Lemma getitem_run self index tokens label :
  Py.getitem (data self) index = Some tokens ->
  Py.getitem (labels self) index = Some label ->
  Torch.in_int64 label ->
  getitem self index
  = (example ← Torch.tensor_long_list (padded_ids (word2idx self) tokens);
     Some (example, label, Z.min (Py.len tokens) MAX_LEN)).
Proof.
  intros Hd Hl Hlabel. unfold getitem. rewrite Hd, Hl. cbn [mbind option_bind].
  rewrite padded_ids_eq.
  destruct (Torch.tensor_long_list (padded_ids (word2idx self) tokens)) as [ex|];
    [|reflexivity].
  cbn [mbind option_bind]. rewrite (tensor_long_in_range label Hlabel).
  cbn [mbind option_bind]. rewrite tensor_long_in_range.
  - cbn [mbind option_bind]. unfold Py.len. now rewrite length_map.
  - apply in_int64_small. unfold MAX_LEN, Py.len. lia.
Qed.

Lemma tensor_long_is_Some (o : option Z) :
  is_Some (Torch.tensor_long o) <-> exists v, o = Some v /\ Torch.in_int64 v.
Proof.
  unfold Torch.tensor_long, Torch.in_int64b, Torch.in_int64. split.
  - intros [x Hx]. destruct o as [v|]; [|discriminate]. cbn in Hx.
    destruct (Z.leb_spec (- 2 ^ 63) v), (Z.ltb_spec v (2 ^ 63)); try discriminate.
    exists v. split; [reflexivity | lia].
  - intros (v & -> & Hlo & Hhi). cbn.
    destruct (Z.leb_spec (- 2 ^ 63) v), (Z.ltb_spec v (2 ^ 63)); try lia.
    now eexists.
Qed.

Lemma tensor_long_list_is_Some (l : list (option Z)) :
  is_Some (Torch.tensor_long_list l)
  <-> Forall (fun o => exists v, o = Some v /\ Torch.in_int64 v) l.
Proof.
  unfold Torch.tensor_long_list. rewrite mapM_is_Some.
  apply Forall_iff. intros o. apply tensor_long_is_Some.
Qed.

Lemma getitem_index_out_of_range_helper self index :
  Py.len (data self) <= index -> getitem self index = None.
Proof.
  intros H. unfold getitem.
  now rewrite (py_getitem_out_of_range (data self) index) by (left; exact H).
Qed.

(** X1: an index outside the dataset raises: [__getitem__] fails for an
    index at or beyond the number of sentences or of labels, and for a
    negative one beyond their number counted from the end. *)
Theorem getitem_index_out_of_range self index :
  (Py.len (data self) <= index \/ index < - Py.len (data self)
   \/ Py.len (labels self) <= index \/ index < - Py.len (labels self)) ->
  getitem self index = None.
Proof.
  intros H. unfold getitem.
  destruct (Py.getitem (data self) index) as [tokens|] eqn:Hd; [|reflexivity].
  destruct (Py.getitem (labels self) index) as [label|] eqn:Hl; [|reflexivity].
  apply py_getitem_Some_range in Hd. apply py_getitem_Some_range in Hl. lia.
Qed.

Lemma getitem_index_out_of_range_witness : getitem sample_dataset 3 = None.
Proof.
  apply (getitem_index_out_of_range sample_dataset 3).
  left. vm_compute. discriminate.
Defined.

(** X2: a negative index counts from the end: with as many labels as
    sentences, [__getitem__(index)] for [-len <= index < 0] is
    [__getitem__(len + index)]. *)
Theorem getitem_negative_index self index :
  Py.len (labels self) = Py.len (data self) ->
  - len self <= index < 0 ->
  getitem self index = getitem self (len self + index).
Proof.
  intros Hlen Hi. unfold len in *. unfold getitem.
  rewrite (py_getitem_negative (data self) index Hi).
  rewrite (py_getitem_negative (labels self) index) by lia.
  now rewrite Hlen.
Qed.

Lemma getitem_negative_index_witness :
  getitem sample_dataset (-1) = getitem sample_dataset (len sample_dataset + -1).
Proof.
  apply (getitem_negative_index sample_dataset (-1)).
  - reflexivity.
  - vm_compute. split; [discriminate | reflexivity].
Defined.

(** *** The constructor *)

Lemma py_getitem_nat {A} (l : list A) (i : nat) :
  Py.getitem l (Z.of_nat i) = l !! i.
Proof.
  destruct (Nat.lt_ge_cases i (length l)) as [Hlt|Hge].
  - rewrite py_getitem_in_range by (unfold Py.len; lia). now rewrite Nat2Z.id.
  - rewrite py_getitem_out_of_range by (unfold Py.len; lia).
    symmetry. now apply lookup_ge_None.
Qed.

Lemma getitem_Some_inv self index example label length :
  getitem self index = Some (example, label, length) ->
  exists tokens,
    Py.getitem (data self) index = Some tokens
    /\ Py.getitem (labels self) index = Some label
    /\ Torch.in_int64 label
    /\ Torch.tensor_long_list (padded_ids (word2idx self) tokens) = Some example
    /\ length = Z.min (Py.len tokens) MAX_LEN.
Proof.
  unfold getitem.
  destruct (Py.getitem (data self) index) as [tokens|]; [|discriminate].
  destruct (Py.getitem (labels self) index) as [lbl|]; [|discriminate].
  cbn [mbind option_bind]. rewrite padded_ids_eq.
  destruct (Torch.tensor_long_list (padded_ids (word2idx self) tokens)) as [ex|] eqn:Hex;
    [|discriminate].
  cbn [mbind option_bind].
  destruct (Torch.tensor_long (Some lbl)) as [lbl'|] eqn:Hlbl; [|discriminate].
  cbn [mbind option_bind].
  destruct (Torch.tensor_long (Some (Z.min _ _))) as [len'|] eqn:Hlen; [|discriminate].
  cbn [mbind option_bind]. intros [= <- <- <-].
  assert (His : is_Some (Torch.tensor_long (Some lbl))) by (rewrite Hlbl; eauto).
  apply tensor_long_is_Some in His as (v & [= <-] & Hv).
  rewrite (tensor_long_in_range lbl Hv) in Hlbl. injection Hlbl as <-.
  exists tokens. split; [reflexivity|]. split; [reflexivity|].
  split; [exact Hv|]. split; [exact Hex|].
  rewrite tensor_long_in_range in Hlen
    by (apply in_int64_small; unfold MAX_LEN, Py.len; lia).
  injection Hlen as <-. unfold Py.len. now rewrite length_map.
Qed.

Lemma getitem_is_Some_nat self unk (i : nat) :
  wf_vocab (word2idx self) unk ->
  is_Some (getitem self (Z.of_nat i))
  <-> (i < length (data self))%nat
      /\ exists label, labels self !! i = Some label /\ Torch.in_int64 label.
Proof.
  intros Hwf. split.
  - intros [[[ex lbl] n] H]. apply getitem_Some_inv in H as (tokens & Hd & Hl & Hv & _).
    rewrite py_getitem_nat in Hd. rewrite py_getitem_nat in Hl. split.
    + now apply lookup_lt_Some in Hd.
    + now exists lbl.
  - intros (Hi & label & Hl & Hv).
    destruct (lookup_lt_is_Some_2 (data self) i Hi) as [tokens Hd].
    rewrite <- py_getitem_nat in Hd. rewrite <- py_getitem_nat in Hl.
    rewrite (getitem_wf self _ tokens label unk Hwf Hd Hl Hv). eauto.
Qed.

Lemma init_Some_inv X y w2i self :
  init X y w2i = Some self ->
  self = {| labels := y; word2idx := w2i; data := map tokenize X |}.
Proof.
  unfold init. cbv zeta.
  destruct (mapM _ _); [|discriminate]. now intros [= <-].
Qed.

(** X3: the constructor needs five sentences: its printout encodes items
    0 to 4, so on fewer than five sentences it raises, whatever the
    labels and the vocabulary. *)
Theorem init_fewer_than_five_sentences X y w2i :
  (length X < 5)%nat -> init X y w2i = None.
Proof.
  intros HX. unfold init. cbv zeta.
  match goal with |- context [mapM ?f ?l] => destruct (mapM f l) as [r|] eqn:Hm end;
    [|reflexivity].
  assert (His : is_Some (mapM (fun i : Z =>
                 getitem {| labels := y; word2idx := w2i;
                            data := map (fun sentence => Py.split (Py.lower sentence)) X |} i)
               [0; 1; 2; 3; 4])) by (rewrite Hm; eauto).
  rewrite mapM_is_Some in His.
  assert (H4 : is_Some (getitem {| labels := y; word2idx := w2i;
                 data := map (fun sentence => Py.split (Py.lower sentence)) X |} 4)).
  { rewrite Forall_forall in His. apply (His 4). set_solver. }
  destruct H4 as [r4 H4].
  rewrite getitem_index_out_of_range_helper in H4; [discriminate|].
  cbn [data]. unfold Py.len. rewrite length_map. lia.
Qed.

Lemma init_fewer_than_five_sentences_witness :
  init ["a movie"; "simple"]%string [1; 0] sample_vocab = None.
Proof.
  apply (init_fewer_than_five_sentences ["a movie"; "simple"]%string [1; 0] sample_vocab).
  cbn. lia.
Defined.

Lemma first_five_labels (y : list Z) :
  (forall i : nat, (i < 5)%nat ->
     exists label, y !! i = Some label /\ Torch.in_int64 label)
  <-> (5 <= length y)%nat /\ Forall Torch.in_int64 (take 5 y).
Proof.
  split.
  - intros H. split.
    + destruct (H 4%nat ltac:(lia)) as (label & Hl & _).
      apply lookup_lt_Some in Hl. lia.
    + apply Forall_lookup. intros i x Hx.
      apply lookup_take_Some in Hx as [Hx Hi].
      destruct (H i Hi) as (label & Hl & Hv). congruence.
  - intros [Hlen Hall] i Hi.
    destruct (lookup_lt_is_Some_2 y i ltac:(lia)) as [label Hl].
    exists label. split; [exact Hl|].
    rewrite Forall_lookup in Hall. apply (Hall i).
    now rewrite lookup_take_lt.
Qed.

(** X4: with a well-formed vocabulary the constructor succeeds exactly
    when there are at least five sentences and five labels and the first
    five labels fit a [torch.long]; the dataset it builds holds the
    labels and the vocabulary as given, the lower-cased and split
    sentences, and [__len__] is the number of sentences. *)
Theorem init_succeeds_iff X y w2i unk :
  wf_vocab w2i unk ->
  (is_Some (init X y w2i)
   <-> (5 <= length X)%nat /\ (5 <= length y)%nat
       /\ Forall Torch.in_int64 (take 5 y))
  /\ forall self, init X y w2i = Some self ->
       len self = Z.of_nat (length X) /\ labels self = y
       /\ word2idx self = w2i /\ data self = map tokenize X.
Proof.
  intros Hwf. split.
  - set (self := {| labels := y; word2idx := w2i; data := map tokenize X |}).
    assert (Hinit : is_Some (init X y w2i)
              <-> is_Some (getitem self (Z.of_nat 0))
                  /\ is_Some (getitem self (Z.of_nat 1))
                  /\ is_Some (getitem self (Z.of_nat 2))
                  /\ is_Some (getitem self (Z.of_nat 3))
                  /\ is_Some (getitem self (Z.of_nat 4))).
    { unfold init. cbv zeta. fold tokenize. fold self.
      destruct (mapM (fun i : Z => getitem self i) [0; 1; 2; 3; 4]) as [r|] eqn:Hm.
      - split; [|eauto]. intros _.
        assert (His : is_Some (mapM (fun i : Z => getitem self i) [0; 1; 2; 3; 4]))
          by (rewrite Hm; eauto).
        rewrite mapM_is_Some, !Forall_cons in His.
        destruct His as (H0 & H1 & H2 & H3 & H4 & _). auto.
      - split; [intros [? [=]]|]. intros (H0 & H1 & H2 & H3 & H4).
        assert (Hs : is_Some (mapM (fun i : Z => getitem self i) [0; 1; 2; 3; 4])).
        { rewrite mapM_is_Some, !Forall_cons.
          repeat (split; [assumption|]). constructor. }
        rewrite Hm in Hs. destruct Hs as [? [=]]. }
    rewrite Hinit, <- first_five_labels.
    assert (Hdata : length (data self) = length X) by (cbn; apply length_map).
    rewrite !(getitem_is_Some_nat self unk _ Hwf), Hdata.
    split.
    + intros (H0 & H1 & H2 & H3 & H4). split; [lia|].
      intros i Hi.
      destruct i as [|[|[|[|[|i]]]]]; [apply H0 | apply H1 | apply H2 | apply H3 | apply H4 | lia].
    + intros [HX Hy].
      repeat split; try lia; apply Hy; lia.
  - intros self Hself. apply init_Some_inv in Hself as ->.
    unfold len, Py.len. cbn. now rewrite length_map.
Qed.

Lemma init_succeeds_iff_witness :
  (is_Some (init five_sentences [1; 0; 1; 2; 0] sample_vocab)
   <-> (5 <= length five_sentences)%nat /\ (5 <= length [1; 0; 1; 2; 0])%nat
       /\ Forall Torch.in_int64 (take 5 [1; 0; 1; 2; 0]))
  /\ forall self, init five_sentences [1; 0; 1; 2; 0] sample_vocab = Some self ->
       len self = Z.of_nat (length five_sentences) /\ labels self = [1; 0; 1; 2; 0]
       /\ word2idx self = sample_vocab /\ data self = map tokenize five_sentences.
Proof.
  apply (init_succeeds_iff five_sentences [1; 0; 1; 2; 0] sample_vocab 1).
  exact sample_vocab_wf.
Defined.

(** *** The vocabulary without ["<unk>"], and the tokens past the eighth *)

Lemma padded_ids_lookup_token w2i tokens i word :
  (i < 8)%nat -> tokens !! i = Some word ->
  padded_ids w2i tokens !! i = Some (Py.dict_get w2i word (w2i !! "<unk>"%string)).
Proof.
  intros Hi Hw. unfold padded_ids. rewrite lookup_app_l.
  - change (map ?f ?l) with (f <$> l).
    now rewrite list_lookup_fmap, lookup_take_lt, Hw.
  - rewrite length_map, length_take. apply lookup_lt_Some in Hw. lia.
Qed.

(** X5: without an entry for ["<unk>"] in the vocabulary, [__getitem__]
    raises exactly when one of the first eight tokens of the sentence is
    not in the vocabulary; an unknown token past the eighth is cut off
    and does no harm. *)
Theorem getitem_without_unk self index tokens label :
  word2idx self !! "<unk>"%string = None ->
  map_Forall (fun _ v => Torch.in_int64 v) (word2idx self) ->
  Py.getitem (data self) index = Some tokens ->
  Py.getitem (labels self) index = Some label ->
  Torch.in_int64 label ->
  getitem self index = None
  <-> exists (i : nat) word,
        (i < 8)%nat /\ tokens !! i = Some word /\ word2idx self !! word = None.
Proof.
  intros Hunk Hall Hd Hl Hlabel.
  rewrite (getitem_run self index tokens label Hd Hl Hlabel).
  split.
  - intros Hnone.
    destruct (decide (Exists (fun word => word2idx self !! word = None) (take 8 tokens)))
      as [Hex|Hnex].
    + apply Exists_exists in Hex as (word & Hin & Hw).
      apply list_elem_of_lookup in Hin as [i Hi].
      apply lookup_take_Some in Hi as [Hi H8]. now exists i, word.
    + exfalso.
      assert (His : is_Some (Torch.tensor_long_list (padded_ids (word2idx self) tokens))).
      { apply tensor_long_list_is_Some. unfold padded_ids. apply Forall_app. split.
        - apply Forall_forall. intros o Ho.
          apply list_elem_of_In, in_map_iff in Ho as (word & <- & Hin).
          unfold Py.dict_get. destruct (word2idx self !! word) as [v|] eqn:Hw.
          + exists v. split; [reflexivity | exact (Hall word v Hw)].
          + exfalso. apply Hnex. apply Exists_exists. exists word.
            split; [now apply list_elem_of_In | exact Hw].
        - apply Forall_replicate. exists 0. split; [reflexivity | apply in_int64_0]. }
      destruct His as [ex Hex]. rewrite Hex in Hnone. discriminate.
  - intros (i & word & Hi & Hw & Hnotin).
    destruct (Torch.tensor_long_list (padded_ids (word2idx self) tokens)) as [ex|] eqn:Hex;
      [|reflexivity].
    exfalso.
    assert (His : is_Some (Torch.tensor_long_list (padded_ids (word2idx self) tokens)))
      by (rewrite Hex; eauto).
    apply tensor_long_list_is_Some in His. rewrite Forall_lookup in His.
    destruct (His i _ (padded_ids_lookup_token _ _ i word Hi Hw)) as (v & Hv & _).
    unfold Py.dict_get in Hv. rewrite Hnotin, Hunk in Hv. discriminate.
Qed.

Lemma getitem_without_unk_witness :
  getitem dataset_without_unk 0 = None
  <-> exists (i : nat) word,
        (i < 8)%nat /\ ["this"; "movie"; "is"]%string !! i = Some word
        /\ vocab_without_unk !! word = None.
Proof.
  apply (getitem_without_unk dataset_without_unk 0 ["this"; "movie"; "is"]%string 1).
  - reflexivity.
  - unfold dataset_without_unk, vocab_without_unk. cbn [word2idx].
    repeat (apply map_Forall_insert_2; [unfold Torch.in_int64; lia|]).
    apply map_Forall_empty.
  - reflexivity.
  - reflexivity.
  - apply in_int64_label. lia.
Defined.

(** The same vocabulary on a sentence whose only unknown token is the
    ninth: the item is returned. *)
Example getitem_without_unk_late_token :
  getitem dataset_without_unk 1 = Some ([5; 9; 9; 9; 9; 9; 9; 5], 0, 8).
Proof. vm_compute. reflexivity. Qed.

(** X6: the tokens past the eighth have no influence: two sentences of
    at least eight tokens with the same first eight tokens, under the
    same vocabulary and label, give the same item (or both raise). *)
Theorem getitem_ignores_tokens_past_MAX_LEN self self' index index' tokens tokens' label :
  word2idx self = word2idx self' ->
  Py.getitem (data self) index = Some tokens ->
  Py.getitem (data self') index' = Some tokens' ->
  Py.getitem (labels self) index = Some label ->
  Py.getitem (labels self') index' = Some label ->
  MAX_LEN <= Py.len tokens -> MAX_LEN <= Py.len tokens' ->
  take 8 tokens = take 8 tokens' ->
  getitem self index = getitem self' index'.
Proof.
  intros Hvoc Hd Hd' Hl Hl' Hlen Hlen' Htake.
  unfold getitem. rewrite Hd, Hd', Hl, Hl'. cbn [mbind option_bind].
  rewrite !padded_ids_eq. unfold padded_ids. rewrite Hvoc, Htake.
  unfold MAX_LEN, Py.len in *. rewrite !length_map.
  replace (Z.to_nat (8 - Z.of_nat (length tokens))) with 0%nat by lia.
  replace (Z.to_nat (8 - Z.of_nat (length tokens'))) with 0%nat by lia.
  replace (Z.min (Z.of_nat (length tokens)) 8) with 8 by lia.
  replace (Z.min (Z.of_nat (length tokens')) 8) with 8 by lia.
  reflexivity.
Qed.

Lemma getitem_ignores_tokens_past_MAX_LEN_witness :
  getitem (long_dataset ["this"; "is"]%string) 0
  = getitem (long_dataset ["movie"]%string) 0.
Proof.
  apply (getitem_ignores_tokens_past_MAX_LEN
           (long_dataset ["this"; "is"]%string) (long_dataset ["movie"]%string) 0 0
           (["a"; "b"; "c"; "d"; "e"; "f"; "g"; "h"]%string ++ ["this"; "is"]%string)
           (["a"; "b"; "c"; "d"; "e"; "f"; "g"; "h"]%string ++ ["movie"]%string) 1);
    try reflexivity; vm_compute; discriminate.
Defined.

(** *** The tokenizer *)

Lemma lower_char_idem c : Py.lower_char (Py.lower_char c) = Py.lower_char c.
Proof. destruct c as [[] [] [] [] [] [] [] []]; reflexivity. Qed.

Lemma isspace_lower_char c : Py.isspace (Py.lower_char c) = Py.isspace c.
Proof. destruct c as [[] [] [] [] [] [] [] []]; reflexivity. Qed.

Lemma lower_chars s :
  list_ascii_of_string (Py.lower s) = map Py.lower_char (list_ascii_of_string s).
Proof. induction s as [|c s IH]; cbn; [reflexivity | now rewrite IH]. Qed.

Lemma lower_fixed s :
  Forall (fun c => Py.lower_char c = c) (list_ascii_of_string s) -> Py.lower s = s.
Proof.
  induction s as [|c s IH]; cbn; [reflexivity|].
  intros H. inversion H as [|? ? Hc Hs]; subst. now rewrite Hc, IH.
Qed.

Lemma flush_clean (R : ascii -> Prop) cur :
  Forall R cur ->
  Forall (fun tok => tok <> EmptyString /\ Forall R (list_ascii_of_string tok))
         (Py.flush cur).
Proof.
  intros Hcur. destruct cur as [|c cur]; [constructor|].
  cbn [Py.flush]. constructor; [|constructor]. split.
  - intros Heq. apply (f_equal list_ascii_of_string) in Heq.
    rewrite list_ascii_of_string_of_list_ascii in Heq.
    apply (f_equal (@length _)) in Heq. cbn [rev] in Heq.
    rewrite length_app in Heq. cbn in Heq. lia.
  - rewrite list_ascii_of_string_of_list_ascii. now apply Forall_rev.
Qed.

Lemma split_from_clean (R : ascii -> Prop) s : forall cur,
  Forall R (list_ascii_of_string s) ->
  Forall (fun c => R c /\ Py.isspace c = false) cur ->
  Forall (fun tok => tok <> EmptyString
                     /\ Forall (fun c => R c /\ Py.isspace c = false)
                               (list_ascii_of_string tok))
         (Py.split_from s cur).
Proof.
  induction s as [|c s IH]; intros cur Hs Hcur; cbn.
  - now apply flush_clean.
  - inversion Hs as [|? ? Hc Hs']; subst.
    destruct (Py.isspace c) eqn:Hsp.
    + apply Forall_app. split; [now apply flush_clean | apply IH; [assumption | constructor]].
    + apply IH; [assumption|]. now constructor.
Qed.

Lemma tokenize_clean sentence : Forall clean_token (tokenize sentence).
Proof.
  unfold tokenize, Py.split, clean_token, clean_char.
  apply (split_from_clean (fun c => Py.lower_char c = c)); [|constructor].
  rewrite lower_chars. apply Forall_forall. intros c Hc.
  apply list_elem_of_In, in_map_iff in Hc as (c0 & <- & _). apply lower_char_idem.
Qed.

Lemma split_from_no_space s : forall cur,
  Forall (fun c => Py.isspace c = false) (list_ascii_of_string s) ->
  Py.split_from s cur = Py.flush (rev (list_ascii_of_string s) ++ cur).
Proof.
  induction s as [|c s IH]; intros cur Hs; cbn; [reflexivity|].
  inversion Hs as [|? ? Hc Hs']; subst. rewrite Hc, IH by assumption.
  now rewrite <- app_assoc.
Qed.

Lemma tokenize_clean_token tok : clean_token tok -> tokenize tok = [tok].
Proof.
  intros [Hne Hall]. unfold tokenize, Py.split.
  rewrite lower_fixed.
  2:{ eapply Forall_impl; [exact Hall|]. now intros c [Hc _]. }
  rewrite split_from_no_space.
  2:{ eapply Forall_impl; [exact Hall|]. now intros c [_ Hc]. }
  rewrite app_nil_r. destruct tok as [|c tok]; [congruence|].
  destruct (rev (list_ascii_of_string (String c tok))) as [|c' l] eqn:Hrev.
  - apply (f_equal (@length _)) in Hrev. rewrite length_rev in Hrev. discriminate.
  - cbn [Py.flush]. rewrite <- Hrev, rev_involutive.
    now rewrite string_of_list_ascii_of_string.
Qed.

Lemma split_from_all_space s :
  Forall (fun c => Py.isspace c = true) (list_ascii_of_string s) ->
  Py.split_from s [] = [].
Proof.
  induction s as [|c s IH]; cbn; [reflexivity|].
  intros Hs. inversion Hs as [|? ? Hc Hs']; subst. rewrite Hc. now apply IH.
Qed.

(** X7: every token the constructor stores is non-empty, holds no
    whitespace and no character that [lower] would change, and
    tokenizing it again gives the token itself. *)
Theorem init_tokens_are_clean X y w2i self :
  init X y w2i = Some self ->
  forall tokens tok, tokens ∈ data self -> tok ∈ tokens ->
    clean_token tok /\ tokenize tok = [tok].
Proof.
  intros Hinit tokens tok Htokens Htok.
  apply init_Some_inv in Hinit as ->. cbn [data] in Htokens.
  apply list_elem_of_In, in_map_iff in Htokens as (sentence & <- & _).
  assert (Hclean : clean_token tok).
  { pose proof (tokenize_clean sentence) as Hall.
    rewrite Forall_forall in Hall. now apply Hall. }
  split; [exact Hclean | now apply tokenize_clean_token].
Qed.

Lemma init_tokens_are_clean_witness :
  clean_token "really" /\ tokenize "really" = ["really"%string].
Proof.
  refine (init_tokens_are_clean five_sentences [1; 0; 1; 2; 0] sample_vocab
            {| labels := [1; 0; 1; 2; 0]; word2idx := sample_vocab;
               data := [["this"; "is"; "really"; "simple"]; ["a"; "movie"]; [];
                        ["simple"]; ["is"; "this"; "simple"]]%string |}
            _ ["this"; "is"; "really"; "simple"]%string "really"%string _ _).
  - vm_compute. reflexivity.
  - cbn [data]. constructor.
  - repeat constructor.
Defined.

(** X8: a sentence of whitespace only, the empty one included, has no
    tokens: it is encoded as eight pads with length 0, whatever the
    vocabulary. *)
Theorem getitem_blank_sentence self index sentence label :
  Forall (fun c => Py.isspace c = true) (list_ascii_of_string sentence) ->
  Py.getitem (data self) index = Some (tokenize sentence) ->
  Py.getitem (labels self) index = Some label ->
  Torch.in_int64 label ->
  tokenize sentence = []
  /\ getitem self index = Some ([0; 0; 0; 0; 0; 0; 0; 0], label, 0).
Proof.
  intros Hblank Hd Hl Hlabel.
  assert (Hnil : tokenize sentence = []).
  { unfold tokenize, Py.split. apply split_from_all_space.
    rewrite lower_chars. apply Forall_forall. intros c Hc.
    apply list_elem_of_In, in_map_iff in Hc as (c0 & <- & Hc0).
    rewrite isspace_lower_char. rewrite Forall_forall in Hblank.
    now apply Hblank, list_elem_of_In. }
  split; [exact Hnil|]. rewrite Hnil in Hd.
  now rewrite (getitem_run self index [] label Hd Hl Hlabel).
Qed.

Lemma getitem_blank_sentence_witness :
  tokenize (String " " (String "009" (String " " EmptyString))) = []
  /\ getitem {| labels := [3]; word2idx := ∅;
                data := [tokenize (String " " (String "009" (String " " EmptyString)))] |} 0
     = Some ([0; 0; 0; 0; 0; 0; 0; 0], 3, 0).
Proof.
  apply (getitem_blank_sentence
           {| labels := [3]; word2idx := ∅;
              data := [tokenize (String " " (String "009" (String " " EmptyString)))] |}
           0 (String " " (String "009" (String " " EmptyString))) 3).
  - repeat constructor.
  - reflexivity.
  - reflexivity.
  - apply in_int64_label. lia.
Defined.

End DataloadingExtra.

(** ** Further properties of the attention models *)

Module AttentionExtra.
Import Tensor Float TorchOps nn Attention AttentionSpec AttentionFacts AttentionMore.

Lemma front_snoc (s : list nat) (x : nat) : front (s ++ [x]) = s.
Proof. apply removelast_last. Qed.

Lemma final_snoc (s : list nat) (x : nat) : final (s ++ [x]) = x.
Proof. apply last_last. Qed.

Section Run.
Context {rng : Type}.

Lemma bind_inv {A B} (m : M rng A) (f : A -> M rng B) g b g' :
  (m ≫= f) g = Some (b, g') ->
  exists a g1, m g = Some (a, g1) /\ f a g1 = Some (b, g').
Proof.
  unfold mbind, M_bind, bind. destruct (m g) as [[a g1]|]; [|discriminate].
  intros H. now exists a, g1.
Qed.

Lemma bind_none {A B} (m : M rng A) (f : A -> M rng B) g :
  m g = None -> (m ≫= f) g = None.
Proof. intros H. unfold mbind, M_bind, bind. now rewrite H. Qed.

Lemma returns_is_Some {A} (m : M rng A) (Q : A -> Prop) g :
  returns m Q -> is_Some (m g).
Proof. intros H. destruct (H g) as (a & g' & Hm & _). rewrite Hm. eauto. Qed.
End Run.

Section Extra.
Context {F rng : Type} `{!Ops F rng}.

(** *** Which inputs a head accepts *)

Lemma linear_mismatch (W : tensor F) b (x : tensor F) o c s c' :
  shape W = [o; c] -> shape x = s ++ [c'] -> c <> c' -> linear W b x = None.
Proof.
  intros HW Hx Hne. unfold linear. rewrite HW, Hx, unsnoc_app.
  destruct (Nat.eqb_spec c c'); [contradiction | reflexivity].
Qed.

Lemma Head_forward_wrong_rank (self : Head.t (F:=F)) (x : tensor F) (g : rng) :
  shape3 x = None -> Head.forward self x g = None.
Proof. intros H. unfold Head.forward. apply bind_none. now rewrite H. Qed.

Lemma Head_forward_wrong_channels n hs (self : Head.t (F:=F)) (x : tensor F) B T C
    (g : rng) :
  wf_Head n hs self -> shape x = [B; T; C] -> n <> C ->
  Head.forward self x g = None.
Proof.
  intros (([Hk _] & _) & _) Hx Hne. unfold Head.forward.
  rewrite (bind_eq _ _ g (B, T, C) g)
    by (apply lift_eq; unfold shape3; now rewrite Hx).
  cbv beta iota. apply bind_none. unfold Linear.forward.
  now rewrite (linear_mismatch _ _ x hs n [B; T] C Hk Hx Hne).
Qed.

Lemma Head_forward_zero_channels hs (self : Head.t (F:=F)) (x : tensor F) B T (g : rng) :
  wf_Head 0 hs self -> shape x = [B; T; 0%nat] -> Head.forward self x g = None.
Proof.
  intros (([Hk Hkb] & _) & ([Hq Hqb] & _) & _) Hx. unfold Head.forward, Linear.forward.
  rewrite (bind_eq _ _ g (B, T, 0%nat) g)
    by (apply lift_eq; unfold shape3; now rewrite Hx).
  cbv beta iota.
  erewrite bind_eq by (apply lift_eq; apply (linear_ok _ _ x hs 0 [B; T] Hk Hx);
                       destruct (Linear.bias (Head.key self)); [exact Hkb | exact I]).
  erewrite bind_eq by (apply lift_eq; apply (linear_ok _ _ x hs 0 [B; T] Hq Hx);
                       destruct (Linear.bias (Head.query self)); [exact Hqb | exact I]).
  erewrite bind_eq
    by (apply lift_eq; apply (transpose_ok _ [B] T hs); reflexivity).
  erewrite bind_eq
    by (apply lift_eq; apply (matmul_ok _ _ [B] T hs T); reflexivity).
  apply bind_none. reflexivity.
Qed.

Lemma Head_forward_is_Some_inv n_embd head_size (self : Head.t (F:=F)) (x : tensor F)
    (g : rng) :
  wf_Head n_embd head_size self -> is_Some (Head.forward self x g) ->
  (0 < n_embd)%nat /\ exists B T, shape x = [B; T; n_embd].
Proof.
  intros Hwf [r Hr].
  destruct (shape3 x) as [[[B T] C]|] eqn:H3.
  2:{ rewrite (Head_forward_wrong_rank self x g H3) in Hr. discriminate. }
  assert (Hx : shape x = [B; T; C]).
  { unfold shape3 in H3.
    destruct (shape x) as [|? [|? [|? [|? ?]]]]; try discriminate.
    now injection H3 as -> -> ->. }
  destruct (Nat.eq_dec n_embd C) as [->|Hne].
  2:{ rewrite (Head_forward_wrong_channels _ _ self x B T C g Hwf Hx Hne) in Hr.
      discriminate. }
  split; [|now exists B, T].
  destruct C; [|lia].
  rewrite (Head_forward_zero_channels _ self x B T g Hwf Hx) in Hr. discriminate.
Qed.

(** X9: which inputs a head accepts: [Head.forward] returns exactly on
    the inputs of shape [(B, T, n_embd)] with [n_embd > 0], and what
    it returns has shape [(B, T, head_size)]; an input of another rank
    or with another number of channels raises, and so does one without
    channels, for which the scale [C ** -0.5] divides by zero. *)
Theorem Head_forward_accepts n_embd head_size (self : Head.t (F:=F)) (x : tensor F)
    (g : rng) :
  wf_Head n_embd head_size self ->
  (is_Some (Head.forward self x g)
   <-> (0 < n_embd)%nat /\ exists B T, shape x = [B; T; n_embd])
  /\ forall out g', Head.forward self x g = Some (out, g') ->
       exists B T, shape x = [B; T; n_embd] /\ shape out = [B; T; head_size].
Proof.
  intros Hwf.
  pose proof (Head_forward_is_Some_inv n_embd head_size self x g Hwf) as Hinv.
  split.
  - split; [exact Hinv|]. intros (Hn & B & T & Hx).
    exact (returns_is_Some _ _ g (Head_forward_returns _ _ self x B T Hwf Hx Hn)).
  - intros out g' Hrun.
    destruct Hinv as (Hn & B & T & Hx); [rewrite Hrun; eauto|].
    exists B, T. split; [exact Hx|].
    destruct (Head_forward_returns _ _ self x B T Hwf Hx Hn g) as (o & g1 & Ho & Hs).
    congruence.
Qed.

(** *** A head keeps the examples of a batch apart *)

Ltac ext_with H :=
  repeat first
    [ reflexivity
    | (apply H; lia)
    | progress (unfold matmul_elem, linear_elem; cbn)
    | (apply map_ext_in; intros ? ?%in_seq)
    | f_equal ].

Ltac run_head hs Hk Hq Hv Hx :=
  match type of Hx with
  | shape ?x = [?B; ?T; ?n] =>
    rewrite (bind_eq _ _ _ (B, T, n) _)
      by (apply lift_eq; unfold shape3; now rewrite Hx);
    cbv beta iota zeta;
    rewrite (bind_eq _ _ _ _ _ (lift_eq _ _ _ (linear_ok _ None x hs n [B; T] Hk Hx I)));
    rewrite (bind_eq _ _ _ _ _ (lift_eq _ _ _ (linear_ok _ None x hs n [B; T] Hq Hx I)));
    erewrite bind_eq
      by (apply lift_eq; apply (transpose_ok _ [B] T hs); reflexivity);
    erewrite bind_eq
      by (apply lift_eq; apply (matmul_ok _ _ [B] T hs T); reflexivity);
    erewrite bind_eq
      by (apply lift_eq; destruct n; [lia | reflexivity]);
    erewrite bind_eq
      by (apply lift_eq; apply (softmax_eq _ [B; T] T); reflexivity)
  end.

Ltac finish_head hs Hv Hx lem Hdrop :=
  match type of Hx with
  | shape ?x = [?B; ?T; ?n] =>
    erewrite bind_eq by (apply lem; exact Hdrop);
    rewrite (bind_eq _ _ _ _ _ (lift_eq _ _ _ (linear_ok _ None x hs n [B; T] Hv Hx I)));
    erewrite bind_eq
      by (apply lift_eq; apply (matmul_ok _ _ [B] T T hs); reflexivity)
  end.

(** X10: a head keeps the examples of a batch apart: two batches of the
    same shape that hold the same data for example [b] give, from the
    same generator state, outputs that hold the same data for example
    [b], whatever the other examples are. *)
Theorem Head_forward_batch_independent n_embd head_size (self : Head.t (F:=F))
    (x x' : tensor F) (B T b : nat) (g : rng) :
  wf_Head n_embd head_size self ->
  shape x = [B; T; n_embd] -> shape x' = [B; T; n_embd] -> (0 < n_embd)%nat ->
  agree_on_example b T n_embd x x' ->
  exists out out' g',
    Head.forward self x g = Some (out, g')
    /\ Head.forward self x' g = Some (out', g')
    /\ agree_on_example b T head_size out out'.
Proof.
  intros (([Hk _] & Hkb) & ([Hq _] & Hqb) & ([Hv _] & Hvb)) Hx Hx' Hn Hagree.
  unfold Head.forward, Linear.forward, Dropout.forward.
  rewrite Hkb, Hqb, Hvb.
  run_head head_size Hk Hq Hv Hx.
  destruct (Dropout.training (Head.dropout self)
            && negb (fis_zero (Dropout.p (Head.dropout self)))) eqn:Hdrop.
  - finish_head head_size Hv Hx (@dropout_on F rng _) Hdrop.
    run_head head_size Hk Hq Hv Hx'.
    finish_head head_size Hv Hx' (@dropout_on F rng _) Hdrop.
    eexists _, _, _. split; [reflexivity|]. split; [reflexivity|].
    intros t c Ht Hc. cbn. unfold agree_on_example in Hagree.
    ext_with Hagree.
  - finish_head head_size Hv Hx (@dropout_off F rng _) Hdrop.
    run_head head_size Hk Hq Hv Hx'.
    finish_head head_size Hv Hx' (@dropout_off F rng _) Hdrop.
    eexists _, _, _. split; [reflexivity|]. split; [reflexivity|].
    intros t c Ht Hc. cbn. unfold agree_on_example in Hagree.
    ext_with Hagree.
Qed.

(** *** Multi-head attention and the feed-forward block *)

Lemma MultiHeadAttention_forward_is_Some_inv nh hs n
    (a : MultiHeadAttention.t (F:=F)) (x : tensor F) (g : rng) :
  wf_MultiHeadAttention nh hs n a -> is_Some (MultiHeadAttention.forward a x g) ->
  (0 < nh)%nat /\ (0 < n)%nat /\ exists B T, shape x = [B; T; n].
Proof.
  intros (Hlen & Hheads & _) [[out g'] Hrun]. unfold MultiHeadAttention.forward in Hrun.
  apply bind_inv in Hrun as (outs & g1 & Hmap & Hrest).
  destruct (MultiHeadAttention.heads a) as [|h heads].
  - cbn in Hmap. injection Hmap as <- <-.
    apply bind_inv in Hrest as (? & ? & Hcat & _). discriminate.
  - cbn [length] in Hlen. split; [lia|].
    cbn [mapM] in Hmap. apply bind_inv in Hmap as (o & g2 & Hh & _).
    inversion Hheads as [|? ? Hwf _]; subst.
    apply (Head_forward_is_Some_inv n hs h x g Hwf). rewrite Hh. eauto.
Qed.

(** X11: which inputs multi-head attention accepts:
    [MultiHeadAttention.forward] returns exactly when there is at least
    one head and the input has shape [(B, T, n_embd)] with
    [n_embd > 0], and what it returns has the shape of the input; with
    no head the concatenation raises. *)
Theorem MultiHeadAttention_forward_accepts num_heads head_size n_embd
    (self : MultiHeadAttention.t (F:=F)) (x : tensor F) (g : rng) :
  wf_MultiHeadAttention num_heads head_size n_embd self ->
  (is_Some (MultiHeadAttention.forward self x g)
   <-> (0 < num_heads)%nat /\ (0 < n_embd)%nat /\ exists B T, shape x = [B; T; n_embd])
  /\ forall out g', MultiHeadAttention.forward self x g = Some (out, g') ->
       shape out = shape x.
Proof.
  intros Hwf.
  pose proof (MultiHeadAttention_forward_is_Some_inv _ _ _ self x g Hwf) as Hinv.
  split.
  - split; [exact Hinv|]. intros (Hnh & Hn & B & T & Hx).
    exact (returns_is_Some _ _ g
             (MultiHeadAttention_forward_returns _ _ _ self x B T Hwf Hnh Hn Hx)).
  - intros out g' Hrun.
    destruct Hinv as (Hnh & Hn & B & T & Hx); [rewrite Hrun; eauto|].
    destruct (MultiHeadAttention_forward_returns _ _ _ self x B T Hwf Hnh Hn Hx g)
      as (o & g1 & Ho & Hs).
    congruence.
Qed.

Lemma linear_elem_ext (W : tensor F) b (x x' : tensor F) c p j :
  (forall k, (k < c)%nat -> elem x (p ++ [k]) = elem x' (p ++ [k])) ->
  linear_elem W b x c (p ++ [j]) = linear_elem W b x' c (p ++ [j]).
Proof.
  intros H. unfold linear_elem. rewrite !front_snoc, !final_snoc.
  assert (Hdot : map (fun k => elem x (p ++ [k])) (seq 0 c)
                 = map (fun k => elem x' (p ++ [k])) (seq 0 c)).
  { apply map_ext_in. intros k Hk%in_seq. apply H. lia. }
  now rewrite Hdot.
Qed.

(** X12: the feed-forward block works on every position by itself: on
    two inputs of the same shape that hold the same vector at position
    [p], it returns, from the same generator state, outputs of the
    shape of the input that hold the same vector at position [p]. *)
Theorem FeedFoward_forward_position_wise n_embd (self : FeedFoward.t (F:=F))
    (x x' : tensor F) (s p : list nat) (g : rng) :
  wf_FeedFoward n_embd self ->
  shape x = s ++ [n_embd] -> shape x' = s ++ [n_embd] ->
  (forall c, (c < n_embd)%nat -> elem x (p ++ [c]) = elem x' (p ++ [c])) ->
  exists out out' g',
    FeedFoward.forward self x g = Some (out, g')
    /\ FeedFoward.forward self x' g = Some (out', g')
    /\ shape out = s ++ [n_embd] /\ shape out' = s ++ [n_embd]
    /\ forall c, elem out (p ++ [c]) = elem out' (p ++ [c]).
Proof.
  intros [[H0 H0b] [H2 H2b]] Hx Hx' Hp.
  unfold FeedFoward.forward, Linear.forward, Dropout.forward.
  rewrite (bind_eq _ _ _ _ _ (lift_eq _ _ g (linear_ok _ _ x _ _ s H0 Hx H0b))).
  erewrite bind_eq by (apply lift_eq; apply (linear_ok _ _ _ n_embd (4 * n_embd) s H2);
                       [reflexivity | exact H2b]).
  rewrite (bind_eq _ _ _ _ _ (lift_eq _ _ g (linear_ok _ _ x' _ _ s H0 Hx' H0b))).
  erewrite bind_eq by (apply lift_eq; apply (linear_ok _ _ _ n_embd (4 * n_embd) s H2);
                       [reflexivity | exact H2b]).
  assert (Hout : forall c,
             linear_elem (Linear.weight (FeedFoward.net_2 self))
               (Linear.bias (FeedFoward.net_2 self))
               (relu (mk (s ++ [(4 * n_embd)%nat])
                        (linear_elem (Linear.weight (FeedFoward.net_0 self))
                           (Linear.bias (FeedFoward.net_0 self)) x n_embd)))
               (4 * n_embd) (p ++ [c])
             = linear_elem (Linear.weight (FeedFoward.net_2 self))
                 (Linear.bias (FeedFoward.net_2 self))
                 (relu (mk (s ++ [(4 * n_embd)%nat])
                          (linear_elem (Linear.weight (FeedFoward.net_0 self))
                             (Linear.bias (FeedFoward.net_0 self)) x' n_embd)))
                 (4 * n_embd) (p ++ [c])).
  { intros c. apply linear_elem_ext. intros k _. cbn [relu elem].
    f_equal. now apply linear_elem_ext. }
  destruct (Dropout.training (FeedFoward.net_3 self)
            && negb (fis_zero (Dropout.p (FeedFoward.net_3 self)))) eqn:Hdrop.
  - rewrite !(dropout_on _ _ _ g Hdrop).
    eexists _, _, _. split; [reflexivity|]. split; [reflexivity|].
    split; [reflexivity|]. split; [reflexivity|].
    intros c. cbn [elem shape]. now rewrite Hout.
  - rewrite !(dropout_off _ _ _ g Hdrop).
    eexists _, _, _. split; [reflexivity|]. split; [reflexivity|].
    split; [reflexivity|]. split; [reflexivity|].
    intros c. cbn [elem]. apply Hout.
Qed.

(** *** Which batches the classifiers accept *)

Lemma valid_indices (s i : list nat) : valid s i -> In i (indices s).
Proof.
  intros H. induction H as [|k n i s Hk _ IH]; cbn; [now left|].
  apply in_flat_map. exists k. split; [apply in_seq; lia | now apply in_map].
Qed.

Lemma embedding_Some_inv (table : tensor F) (x : tensor Z) num dim r :
  shape table = [num; dim] -> embedding table x = Some r -> ids_below num x.
Proof.
  intros Ht. unfold embedding. rewrite Ht.
  destruct (forallb _ _) eqn:Hall; [|discriminate]. intros _ i Hi.
  rewrite forallb_forall in Hall. specialize (Hall i (valid_indices _ _ Hi)).
  apply andb_true_iff in Hall as [Hlo Hhi].
  split; [now apply Z.leb_le | now apply Z.ltb_lt].
Qed.

Lemma arange_ids_below_inv T max_length :
  ids_below max_length (arange T) -> (T <= max_length)%nat.
Proof.
  intros H. destruct T as [|T]; [lia|].
  assert (Hv : valid (shape (arange (S T))) [T]) by (repeat constructor; lia).
  specialize (H [T] Hv). cbn in H. lia.
Qed.

Lemma shape2_Some {A} (x : tensor A) B T : shape2 x = Some (B, T) -> shape x = [B; T].
Proof.
  unfold shape2. destruct (shape x) as [|? [|? [|? ?]]]; try discriminate.
  now intros [= -> ->].
Qed.

(** The first three steps of every classifier's [forward]. *)
Lemma embed_inv {A} num dim max_length (tok pos : Embedding.t (F:=F)) (x : tensor Z)
    (k : nat -> nat -> tensor F -> tensor F -> M rng A) (g : rng) :
  wf_Embedding num dim tok -> wf_Embedding max_length dim pos ->
  is_Some (('(B, T) ← lift (shape2 x);
            tok_emb ← Embedding.forward tok x;
            pos_emb ← Embedding.forward pos (arange T);
            k B T tok_emb pos_emb) g) ->
  exists B T, shape x = [B; T] /\ (T <= max_length)%nat /\ ids_below num x.
Proof.
  intros Htok Hpos [[r g'] Hrun].
  apply bind_inv in Hrun as ([B T] & g1 & H2 & Hrun).
  apply lift_inv in H2 as [H2 ->]. apply shape2_Some in H2.
  cbv beta iota in Hrun.
  apply bind_inv in Hrun as (tok_emb & g2 & Ht & Hrun).
  apply lift_inv in Ht as [Ht ->].
  apply bind_inv in Hrun as (pos_emb & g3 & Hp & _).
  apply lift_inv in Hp as [Hp ->].
  exists B, T. split; [exact H2|]. split.
  - exact (arange_ids_below_inv _ _ (embedding_Some_inv _ _ _ _ _ Hpos Hp)).
  - exact (embedding_Some_inv _ _ _ _ _ Htok Ht).
Qed.

(** X13: which batches the classifiers accept: with an embedding
    dimension above 0, [forward] of each of the three classifiers
    returns exactly on the batches of shape [(B, T)] with
    [T <= max_length] whose ids are all rows of the embedding table; a
    longer sentence or an id outside the vocabulary raises in the
    embedding lookup. *)
Theorem classifier_forward_accepts
    (output_size num dim max_length n_head n_layer : nat) (x : tensor Z) (g : rng) :
  (0 < dim)%nat ->
  (forall m : SimpleSelfAttentionModel.t (F:=F),
     wf_SimpleSelfAttentionModel output_size num dim max_length m ->
     is_Some (SimpleSelfAttentionModel.forward m x g)
     <-> exists B T, shape x = [B; T] /\ (T <= max_length)%nat /\ ids_below num x)
  /\ (forall (m : MultiHeadAttentionModel.t (F:=F)) lengths,
     wf_MultiHeadAttentionModel output_size num dim max_length n_head m ->
     is_Some (MultiHeadAttentionModel.forward m x lengths g)
     <-> exists B T, shape x = [B; T] /\ (T <= max_length)%nat /\ ids_below num x)
  /\ (forall m : TransformerEncoderModel.t (F:=F),
     wf_TransformerEncoderModel output_size num dim max_length n_head n_layer m ->
     is_Some (TransformerEncoderModel.forward m x g)
     <-> exists B T, shape x = [B; T] /\ (T <= max_length)%nat /\ ids_below num x).
Proof.
  intros Hdim. split; [|split].
  - intros m Hwf. split.
    + destruct Hwf as (Htok & Hpos & _). unfold SimpleSelfAttentionModel.forward.
      apply (embed_inv num dim max_length _ _ x
               (fun _ _ tok_emb pos_emb => _ ← lift (add tok_emb pos_emb); _) g Htok Hpos).
    + intros (B & T & Hx & HT & Hids).
      exact (returns_is_Some _ _ g
               (SimpleSelfAttentionModel_forward_returns _ _ _ _ m x B T
                  Hwf Hdim Hx HT Hids)).
  - intros m lengths Hwf. split.
    + destruct Hwf as (_ & Htok & Hpos & _). unfold MultiHeadAttentionModel.forward.
      apply (embed_inv num dim max_length _ _ x
               (fun _ _ tok_emb pos_emb => _ ← lift (add tok_emb pos_emb); _) g Htok Hpos).
    + intros (B & T & Hx & HT & Hids).
      exact (returns_is_Some _ _ g
               (MultiHeadAttentionModel_forward_returns _ _ _ _ _ m x lengths B T
                  Hwf Hdim Hx HT Hids)).
  - intros m Hwf. split.
    + destruct Hwf as (Htok & Hpos & _). unfold TransformerEncoderModel.forward.
      apply (embed_inv num dim max_length _ _ x
               (fun _ _ tok_emb pos_emb => _ ← lift (add tok_emb pos_emb); _) g Htok Hpos).
    + intros (B & T & Hx & HT & Hids).
      exact (returns_is_Some _ _ g
               (TransformerEncoderModel_forward_returns _ _ _ _ _ _ m x B T
                  Hwf Hdim Hx HT Hids)).
Qed.

(** *** The constructors *)




(** X15: a classifier fresh from its constructor accepts every batch
    that fits: on a two-dimensional embedding matrix with at least one
    column (and [n_head > 0]) each constructor succeeds, and the model
    it builds returns, on a batch of [B] sentences of at most
    [max_length] ids within the vocabulary, one logit per sentence for
    an output size of 1 and [output_size] scores per sentence
    otherwise. *)
Theorem constructed_classifier_returns_logits
    (output_size max_length n_head n_layer num dim B T : nat)
    (embeddings : tensor F) (x : tensor Z) (g : rng) :
  shape embeddings = [num; dim] -> (0 < dim)%nat -> (0 < n_head)%nat ->
  shape x = [B; T] -> (T <= max_length)%nat -> ids_below num x ->
  (exists logits g',
     (m ← SimpleSelfAttentionModel.init output_size embeddings max_length;
      SimpleSelfAttentionModel.forward m x) g = Some (logits, g')
     /\ batch_logits output_size B logits)
  /\ (forall lengths, exists logits g',
     (m ← MultiHeadAttentionModel.init output_size embeddings max_length n_head;
      MultiHeadAttentionModel.forward m x lengths) g = Some (logits, g')
     /\ batch_logits output_size B logits)
  /\ (exists logits g',
     (m ← TransformerEncoderModel.init output_size embeddings max_length n_head n_layer;
      TransformerEncoderModel.forward m x) g = Some (logits, g')
     /\ batch_logits output_size B logits).
Proof.
  intros Hemb Hdim Hnh Hx HT Hids. split; [|split].
  - apply (returns_bind _ _ _ (batch_logits output_size B)
             (SimpleSelfAttentionModel_init_returns _ _ _ num dim Hemb)).
    intros m Hm.
    exact (SimpleSelfAttentionModel_forward_returns _ _ _ _ m x B T Hm Hdim Hx HT Hids).
  - intros lengths.
    apply (returns_bind _ _ _ (batch_logits output_size B)
             (MultiHeadAttentionModel_init_returns _ _ _ _ num dim Hemb Hnh)).
    intros m Hm.
    exact (MultiHeadAttentionModel_forward_returns _ _ _ _ _ m x lengths B T
             Hm Hdim Hx HT Hids).
  - apply (returns_bind _ _ _ (batch_logits output_size B)
             (TransformerEncoderModel_init_returns _ _ _ _ _ num dim Hemb Hnh)).
    intros m Hm.
    exact (TransformerEncoderModel_forward_returns _ _ _ _ _ _ m x B T
             Hm Hdim Hx HT Hids).
Qed.

(** *** Without dropout the models do not touch the generator *)

Lemma gf_ret {A} (a : A) : generator_free (rng:=rng) (mret a).
Proof. now exists (Some a). Qed.

Lemma gf_lift {A} (o : option A) : generator_free (rng:=rng) (lift o).
Proof. now exists o. Qed.

Lemma gf_bind {A B} (m : M rng A) (f : A -> M rng B) :
  generator_free m -> (forall a, generator_free (f a)) -> generator_free (m ≫= f).
Proof.
  intros [o Ho] Hf. destruct o as [a|].
  - destruct (Hf a) as [o' Ho']. exists o'. intros g.
    rewrite (bind_eq m f g a g (Ho g)). apply Ho'.
  - exists None. intros g. apply bind_none. apply Ho.
Qed.

Lemma gf_mapM {A B} (f : A -> M rng B) (l : list A) :
  Forall (fun x => generator_free (f x)) l -> generator_free (mapM f l).
Proof.
  induction 1 as [|x l Hx _ IH]; cbn [mapM]; [apply gf_ret|].
  apply gf_bind; [exact Hx|]. intros b.
  apply gf_bind; [exact IH|]. intros r. apply gf_ret.
Qed.

Lemma gf_Dropout (d : Dropout.t (F:=F)) (x : tensor F) :
  inactive d -> generator_free (Dropout.forward d x).
Proof.
  intros Hd. exists (Some x). intros g. unfold Dropout.forward.
  now rewrite (dropout_off _ _ x g Hd).
Qed.

Ltac gf_steps :=
  repeat first
    [ apply gf_ret
    | apply gf_lift
    | (apply gf_Dropout; assumption)
    | (apply gf_bind; [|intros ?]) ].

Lemma gf_Head (h : Head.t (F:=F)) (x : tensor F) :
  inactive_Head h -> generator_free (Head.forward h x).
Proof.
  intros Hd. unfold inactive_Head in Hd. unfold Head.forward, Linear.forward.
  apply gf_bind; [apply gf_lift|]. intros [[B T] C]. cbv beta iota zeta.
  gf_steps.
Qed.

Lemma gf_FeedFoward (f : FeedFoward.t (F:=F)) (x : tensor F) :
  inactive_FeedFoward f -> generator_free (FeedFoward.forward f x).
Proof.
  intros Hd. unfold inactive_FeedFoward in Hd.
  unfold FeedFoward.forward, Linear.forward. gf_steps.
Qed.

Lemma gf_MultiHeadAttention (a : MultiHeadAttention.t (F:=F)) (x : tensor F) :
  inactive_MultiHeadAttention a -> generator_free (MultiHeadAttention.forward a x).
Proof.
  intros [Hheads Hd]. unfold MultiHeadAttention.forward, Linear.forward.
  apply gf_bind.
  - apply gf_mapM. eapply Forall_impl; [exact Hheads|].
    intros h Hh. now apply gf_Head.
  - intros outs. gf_steps.
Qed.

Lemma gf_Block (b : Block.t (F:=F)) (x : tensor F) :
  inactive_Block b -> generator_free (Block.forward b x).
Proof.
  intros [Hsa Hff]. unfold Block.forward, LayerNorm.forward.
  apply gf_bind; [apply gf_lift|]. intros n1.
  apply gf_bind; [now apply gf_MultiHeadAttention|]. intros a.
  apply gf_bind; [apply gf_lift|]. intros x1.
  apply gf_bind; [apply gf_lift|]. intros n2.
  apply gf_bind; [now apply gf_FeedFoward|]. intros f.
  gf_steps.
Qed.

Lemma gf_sequential (l : list (Block.t (F:=F))) : forall x : tensor F,
  Forall inactive_Block l -> generator_free (TransformerEncoderModel.sequential l x).
Proof.
  induction l as [|b l IH]; intros x Hl; cbn [TransformerEncoderModel.sequential].
  - apply gf_ret.
  - inversion Hl as [|? ? Hb Hl']; subst.
    apply gf_bind; [now apply gf_Block|]. intros x1. now apply IH.
Qed.

Lemma gf_logits (logits : tensor F) (output_size : nat) :
  generator_free (rng:=rng)
    (if Nat.eqb output_size 1 then lift (squeeze1 logits) else mret logits).
Proof. destruct (Nat.eqb output_size 1); [apply gf_lift | apply gf_ret]. Qed.

(** X16: without active dropout the classifiers do not touch the random
    generator: when every dropout layer of a model is in evaluation
    mode or has [p == 0] (the default every constructor here uses),
    [forward] neither reads nor advances the generator; its outcome,
    logits or error, depends on the model and the batch alone. *)
Theorem forward_without_dropout_is_generator_free
    (simple : SimpleSelfAttentionModel.t (F:=F))
    (multi : MultiHeadAttentionModel.t (F:=F))
    (encoder : TransformerEncoderModel.t (F:=F))
    (x : tensor Z) (lengths : option (tensor Z)) :
  inactive_Head (SimpleSelfAttentionModel.sa simple) ->
  inactive_FeedFoward (SimpleSelfAttentionModel.ffwd simple) ->
  inactive_MultiHeadAttention (MultiHeadAttentionModel.sa multi) ->
  inactive_FeedFoward (MultiHeadAttentionModel.ffwd multi) ->
  Forall inactive_Block (TransformerEncoderModel.blocks encoder) ->
  generator_free (SimpleSelfAttentionModel.forward simple x)
  /\ generator_free (MultiHeadAttentionModel.forward multi x lengths)
  /\ generator_free (TransformerEncoderModel.forward encoder x).
Proof.
  intros Hsa Hff Hmsa Hmff Hblocks. split; [|split].
  - unfold SimpleSelfAttentionModel.forward, LayerNorm.forward, Embedding.forward,
      Linear.forward.
    apply gf_bind; [apply gf_lift|]. intros [B T]. cbv beta iota.
    do 4 (apply gf_bind; [apply gf_lift|]; intros ?).
    apply gf_bind; [now apply gf_Head|]. intros ?.
    do 2 (apply gf_bind; [apply gf_lift|]; intros ?).
    apply gf_bind; [now apply gf_FeedFoward|]. intros ?.
    do 3 (apply gf_bind; [apply gf_lift|]; intros ?).
    apply gf_logits.
  - unfold MultiHeadAttentionModel.forward, LayerNorm.forward, Embedding.forward,
      Linear.forward.
    apply gf_bind; [apply gf_lift|]. intros [B T]. cbv beta iota.
    do 4 (apply gf_bind; [apply gf_lift|]; intros ?).
    apply gf_bind; [now apply gf_MultiHeadAttention|]. intros ?.
    do 2 (apply gf_bind; [apply gf_lift|]; intros ?).
    apply gf_bind; [now apply gf_FeedFoward|]. intros ?.
    do 3 (apply gf_bind; [apply gf_lift|]; intros ?).
    apply gf_logits.
  - unfold TransformerEncoderModel.forward, LayerNorm.forward, Embedding.forward,
      Linear.forward.
    apply gf_bind; [apply gf_lift|]. intros [B T]. cbv beta iota.
    do 3 (apply gf_bind; [apply gf_lift|]; intros ?).
    apply gf_bind; [now apply gf_sequential|]. intros ?.
    do 3 (apply gf_bind; [apply gf_lift|]; intros ?).
    apply gf_logits.
Qed.

End Extra.

(** *** The theorems at work on the sample data *)

Lemma Head_forward_accepts_witness :
  (is_Some (Head.forward (sample_head 2) sample_input 0%nat)
   <-> (0 < 2)%nat /\ exists B T, shape sample_input = [B; T; 2%nat])
  /\ forall out g', Head.forward (sample_head 2) sample_input 0%nat = Some (out, g') ->
       exists B T, shape sample_input = [B; T; 2%nat] /\ shape out = [B; T; 2%nat].
Proof.
  apply (Head_forward_accepts 2 2 (sample_head 2) sample_input 0%nat).
  exact sample_head_wf.
Defined.

Lemma Head_forward_batch_independent_witness :
  exists out out' g',
    Head.forward (sample_head 2) sample_input 0%nat = Some (out, g')
    /\ Head.forward (sample_head 2) sample_input' 0%nat = Some (out', g')
    /\ agree_on_example 0 3 2 out out'.
Proof.
  apply (Head_forward_batch_independent 2 2 (sample_head 2) sample_input sample_input'
           2 3 0 0%nat).
  - exact sample_head_wf.
  - reflexivity.
  - reflexivity.
  - lia.
  - intros t c _ _. reflexivity.
Defined.

Lemma sample_attention_wf : wf_MultiHeadAttention 2 1 2 (Block.sa sample_block).
Proof. apply sample_block_wf. Qed.

Lemma sample_feed_forward_wf : wf_FeedFoward 2 (Block.ffwd sample_block).
Proof. apply sample_block_wf. Qed.

Lemma MultiHeadAttention_forward_accepts_witness :
  (is_Some (MultiHeadAttention.forward (Block.sa sample_block) sample_input 0%nat)
   <-> (0 < 2)%nat /\ (0 < 2)%nat /\ exists B T, shape sample_input = [B; T; 2%nat])
  /\ forall out g',
       MultiHeadAttention.forward (Block.sa sample_block) sample_input 0%nat
       = Some (out, g') ->
       shape out = shape sample_input.
Proof.
  apply (MultiHeadAttention_forward_accepts 2 1 2 (Block.sa sample_block)
           sample_input 0%nat).
  exact sample_attention_wf.
Defined.

Lemma FeedFoward_forward_position_wise_witness :
  exists out out' g',
    FeedFoward.forward (Block.ffwd sample_block) sample_input 0%nat = Some (out, g')
    /\ FeedFoward.forward (Block.ffwd sample_block) sample_input' 0%nat = Some (out', g')
    /\ shape out = [2; 3]%nat ++ [2%nat] /\ shape out' = [2; 3]%nat ++ [2%nat]
    /\ forall c, elem out ([0; 1]%nat ++ [c]) = elem out' ([0; 1]%nat ++ [c]).
Proof.
  apply (FeedFoward_forward_position_wise 2 (Block.ffwd sample_block)
           sample_input sample_input' [2; 3]%nat [0; 1]%nat 0%nat).
  - exact sample_feed_forward_wf.
  - reflexivity.
  - reflexivity.
  - intros c _. reflexivity.
Defined.

Lemma classifier_forward_accepts_witness :
  (forall m : SimpleSelfAttentionModel.t (F:=Z),
     wf_SimpleSelfAttentionModel 1 3 2 60 m ->
     is_Some (SimpleSelfAttentionModel.forward m bad_batch 0%nat)
     <-> exists B T, shape bad_batch = [B; T] /\ (T <= 60)%nat /\ ids_below 3 bad_batch)
  /\ (forall (m : MultiHeadAttentionModel.t (F:=Z)) lengths,
     wf_MultiHeadAttentionModel 1 3 2 60 2 m ->
     is_Some (MultiHeadAttentionModel.forward m bad_batch lengths 0%nat)
     <-> exists B T, shape bad_batch = [B; T] /\ (T <= 60)%nat /\ ids_below 3 bad_batch)
  /\ (forall m : TransformerEncoderModel.t (F:=Z),
     wf_TransformerEncoderModel 1 3 2 60 2 1 m ->
     is_Some (TransformerEncoderModel.forward m bad_batch 0%nat)
     <-> exists B T, shape bad_batch = [B; T] /\ (T <= 60)%nat /\ ids_below 3 bad_batch).
Proof.
  apply (classifier_forward_accepts (F:=Z) (rng:=nat) 1 3 2 60 2 1 bad_batch 0%nat).
  lia.
Defined.

(** An id outside the vocabulary, and a sentence longer than
    [max_length], make the models raise. *)
Example forward_raises_on_bad_batches :
  shape_of_run (TransformerEncoderModel.forward sample_encoder bad_batch) = None
  /\ shape_of_run (m ← TransformerEncoderModel.init 1 sample_embeddings 2 2 1;
                   TransformerEncoderModel.forward m sample_batch) = None
  /\ shape_of_run (TransformerEncoderModel.forward sample_encoder sample_batch)
     = Some [2]%nat.
Proof. repeat split; vm_compute; reflexivity. Qed.

Lemma constructed_classifier_returns_logits_witness :
  (exists logits g',
     (m ← SimpleSelfAttentionModel.init 3 sample_embeddings 60;
      SimpleSelfAttentionModel.forward m sample_batch) 0%nat = Some (logits, g')
     /\ batch_logits 3 2 logits)
  /\ (forall lengths, exists logits g',
     (m ← MultiHeadAttentionModel.init 3 sample_embeddings 60 2;
      MultiHeadAttentionModel.forward m sample_batch lengths) 0%nat = Some (logits, g')
     /\ batch_logits 3 2 logits)
  /\ (exists logits g',
     (m ← TransformerEncoderModel.init 3 sample_embeddings 60 2 4;
      TransformerEncoderModel.forward m sample_batch) 0%nat = Some (logits, g')
     /\ batch_logits 3 2 logits).
Proof.
  apply (constructed_classifier_returns_logits (F:=Z) (rng:=nat) 3 60 2 4 3 2 2 3
           sample_embeddings sample_batch 0%nat).
  - reflexivity.
  - lia.
  - lia.
  - reflexivity.
  - lia.
  - exact sample_batch_ids.
Defined.

Lemma forward_without_dropout_is_generator_free_witness :
  generator_free (SimpleSelfAttentionModel.forward sample_simple sample_batch)
  /\ generator_free (MultiHeadAttentionModel.forward sample_multi_head_model
                       sample_batch (Some sample_lengths))
  /\ generator_free (TransformerEncoderModel.forward sample_encoder sample_batch).
Proof.
  apply (forward_without_dropout_is_generator_free sample_simple
           sample_multi_head_model sample_encoder sample_batch (Some sample_lengths)).
  - reflexivity.
  - reflexivity.
  - split; [repeat constructor | reflexivity].
  - reflexivity.
  - repeat constructor.
Defined.

End AttentionExtra.
